(** * Memory manager of the kernel (kernel/memory.c)

    A shallow embedding of the page allocator and of the arena heap
    ([sys_malloc] / [sys_free]) of kernel/memory.c.

    Conventions of the embedding.
    - A [uint32_t] or a pointer is a [Z]; arithmetic that can leave
      [0, 2^32) in C is wrapped with [wrap32].  [NULL] is [0].
    - The globals [kernel_pool], [user_pool], [kernel_vaddr],
      [k_block_descs] and the task returned by [running_thread()] are the
      fields of one [state] record that every function threads.
    - [ASSERT] and [PANIC] stop the kernel: a computation ends in [Panic].
      A C access the program gives no meaning to (a descriptor index past
      the array, a pop from an empty list, a dereferenced null descriptor)
      ends in [Undef].
    - Memory reached through a pointer is split by the type of the access:
      the 32-bit words read and written through [pte_ptr] / [pde_ptr]
      ([mem]) and the [struct arena] headers found at the start of a page
      ([arenas]).  Both are indexed by the address the code dereferences;
      two addresses that the tables map to one physical word are not
      identified.  Block payload bytes are not represented.
    - The two pool locks and the interrupt switch guard against preemption
      only; the sequential behaviour modelled here does not depend on them.
    - bitmap.c, list.c and the headers (memory.h, global.h, debug.h,
      thread.h) are not part of the sources at hand; what memory.c uses of
      them is written down from the specification, each such definition
      saying so. *)

From Stdlib Require Import ZArith List Bool Lia.
Import ListNotations.
Local Open Scope Z_scope.

(* ================================================================= *)
(** ** Machine integers and constants *)

Definition wrap32 (x : Z) : Z := x mod 2 ^ 32.
Definition wrap16 (x : Z) : Z := x mod 2 ^ 16.

Definition NULL : Z := 0.

(** Modelled from the spec: memory.h is not part of the sources.  A page
    is 4096 bytes (the spec keeps "the low 12 bits" of an address, the
    code masks frames with 0xfffff000). *)
Definition PG_SIZE : Z := 4096.

(** Modelled from the spec: memory.h is not part of the sources.  The
    entries carry the present, read-write and user-accessible attribute
    bits of the hardware entry format (bits 0, 1 and 2); the code itself
    tests the present bit as [& 0x00000001]. *)
Definition PG_P_1 : Z := 1.
Definition PG_RW_W : Z := 2.
Definition PG_US_U : Z := 4.

(** Modelled from the spec: memory.h is not part of the sources.  The
    classes are the powers of two from 16 bytes and "the largest class's
    block size should equal the threshold" of 1024 bytes: seven classes. *)
Definition DESC_CNT : nat := 7.

(** [sizeof(struct arena)] for the declaration in memory.c on the 32-bit
    target: a pointer, a [uint32_t] and a [bool], padded to a multiple of
    the 4-byte alignment. *)
Definition sizeof_arena : Z := 12.

Definition K_HEAP_START : Z := 0xc0100000.

Definition PDE_IDX (addr : Z) : Z := Z.shiftr (Z.land addr 0xffc00000) 22.
Definition PTE_IDX (addr : Z) : Z := Z.shiftr (Z.land addr 0x003ff000) 12.

(** Modelled from the spec: global.h is not part of the sources.  "Pages
    needed to hold" X bytes in steps of STEP, on [uint32_t]. *)
Definition DIV_ROUND_UP (x step : Z) : Z := wrap32 (x + step - 1) / step.

(** Modelled from the spec: memory.h is not part of the sources.  The two
    pool kinds; [pf & PF_KERNEL] selects the kernel pool exactly for
    [PF_KERNEL]. *)
Inductive pool_flags : Type := PF_KERNEL | PF_USER.

Definition pool_flags_eqb (a b : pool_flags) : bool :=
  match a, b with
  | PF_KERNEL, PF_KERNEL | PF_USER, PF_USER => true
  | _, _ => false
  end.

(* ================================================================= *)
(** ** The capacity tracker (bitmap.h) *)

(** One [bool] per bit of the tracker, [true] for a bit that is set. *)
Definition bitmap : Type := list bool.

(** The first [n] bits of [bm] exist and are clear. *)
Fixpoint all_free (bm : bitmap) (n : nat) {struct n} : bool :=
  match n with
  | O => true
  | S n' => match bm with
            | false :: r => all_free r n'
            | _ => false
            end
  end.

Fixpoint scan_from (bm : bitmap) (n : nat) (i : Z) : Z :=
  if all_free bm n then i
  else match bm with
       | [] => -1
       | _ :: r => scan_from r n (i + 1)
       end.

(** Modelled from the spec: bitmap.c is not part of the sources.  "Scan
    for N contiguous free bits (returns a start index or not found)": the
    lowest start index of a run of [cnt] clear bits, [-1] when there is
    none. *)
Definition bitmap_scan (bm : bitmap) (cnt : Z) : Z :=
  scan_from bm (Z.to_nat cnt) 0.

Fixpoint set_nth (bm : bitmap) (n : nat) (v : bool) : bitmap :=
  match bm, n with
  | [], _ => []
  | _ :: r, O => v :: r
  | b :: r, S n' => b :: set_nth r n' v
  end.

(** Modelled from the spec: bitmap.c is not part of the sources.  "Set or
    clear an individual bit".  An index outside the tracker addresses no
    bit of it and leaves it as it is. *)
Definition bitmap_set (bm : bitmap) (bit_idx : Z) (v : bool) : bitmap :=
  if bit_idx <? 0 then bm else set_nth bm (Z.to_nat bit_idx) v.

(** [while(cnt < pg_cnt) bitmap_set(btmp, bit_idx_start + cnt++, v)]. *)
Fixpoint bitmap_set_run (bm : bitmap) (bit_idx_start : Z) (pg_cnt : nat)
    (v : bool) : bitmap :=
  match pg_cnt with
  | O => bm
  | S n => bitmap_set_run (bitmap_set bm bit_idx_start v)
             (bit_idx_start + 1) n v
  end.

(** [n] clear bits start at bit [s] of [bm]. *)
Definition free_run (bm : bitmap) (s n : nat) : Prop :=
  forall k, (k < n)%nat -> nth_error bm (s + k) = Some false.

(* ================================================================= *)
(** ** Data *)

Record pool : Type := mkPool {
  pool_bitmap : bitmap;
  phy_addr_start : Z;
  pool_size : Z
}.

Record virtual_addr : Type := mkVaddr {
  vaddr_bitmap : bitmap;
  vaddr_start : Z
}.

(** Modelled from the spec: list.c is not part of the sources.  The
    intrusive free list is the sequence of the addresses of its nodes,
    front first; a block and its [free_elem] share one address. *)
Definition list_t : Type := list Z.

Record mem_block_desc : Type := mkDesc {
  block_size : Z;
  blocks_per_arena : Z;
  free_list : list_t
}.

(** A [struct mem_block_desc*]: an element of the kernel array
    [k_block_descs] or of the running task's [u_block_desc]. *)
Inductive desc_ptr : Type :=
| KDesc (idx : nat)
| UDesc (idx : nat).

Record arena : Type := mkArena {
  desc : option desc_ptr;       (* [None] is the null pointer *)
  cnt : Z;
  large : bool
}.

Record task_struct : Type := mkTask {
  pgdir : Z;                    (* [NULL] for a kernel thread *)
  userprog_vaddr : virtual_addr;
  u_block_desc : list mem_block_desc
}.

Record state : Type := mkState {
  kernel_pool : pool;
  user_pool : pool;
  kernel_vaddr : virtual_addr;
  k_block_descs : list mem_block_desc;
  cur : task_struct;            (* [running_thread()] *)
  mem : Z -> Z;                 (* words behind [pte_ptr] / [pde_ptr] *)
  arenas : Z -> arena           (* headers at the start of pages *)
}.

(** A [struct pool*]. *)
Inductive pool_id : Type := KernelPool | UserPool.

Definition get_pool (p : pool_id) (st : state) : pool :=
  match p with KernelPool => kernel_pool st | UserPool => user_pool st end.

Definition set_pool_bitmap (p : pool_id) (bm : bitmap) (st : state) : state :=
  match p with
  | KernelPool =>
      mkState (mkPool bm (phy_addr_start (kernel_pool st))
                 (pool_size (kernel_pool st)))
        (user_pool st) (kernel_vaddr st) (k_block_descs st) (cur st)
        (mem st) (arenas st)
  | UserPool =>
      mkState (kernel_pool st)
        (mkPool bm (phy_addr_start (user_pool st)) (pool_size (user_pool st)))
        (kernel_vaddr st) (k_block_descs st) (cur st) (mem st) (arenas st)
  end.

(** [pf & PF_KERNEL ? &kernel_pool : &user_pool]. *)
Definition pool_of (pf : pool_flags) : pool_id :=
  match pf with PF_KERNEL => KernelPool | PF_USER => UserPool end.

(** The virtual-address tracker [vaddr_get] / [vaddr_remove] work on:
    [kernel_vaddr] for [PF_KERNEL], the running task's otherwise. *)
Definition get_tracker (pf : pool_flags) (st : state) : virtual_addr :=
  match pf with
  | PF_KERNEL => kernel_vaddr st
  | PF_USER => userprog_vaddr (cur st)
  end.

Definition set_tracker_bitmap (pf : pool_flags) (bm : bitmap) (st : state)
    : state :=
  match pf with
  | PF_KERNEL =>
      mkState (kernel_pool st) (user_pool st)
        (mkVaddr bm (vaddr_start (kernel_vaddr st)))
        (k_block_descs st) (cur st) (mem st) (arenas st)
  | PF_USER =>
      mkState (kernel_pool st) (user_pool st) (kernel_vaddr st)
        (k_block_descs st)
        (mkTask (pgdir (cur st))
           (mkVaddr bm (vaddr_start (userprog_vaddr (cur st))))
           (u_block_desc (cur st)))
        (mem st) (arenas st)
  end.

Definition set_mem (m : Z -> Z) (st : state) : state :=
  mkState (kernel_pool st) (user_pool st) (kernel_vaddr st)
    (k_block_descs st) (cur st) m (arenas st).

Definition set_arenas (h : Z -> arena) (st : state) : state :=
  mkState (kernel_pool st) (user_pool st) (kernel_vaddr st)
    (k_block_descs st) (cur st) (mem st) h.

(** [*p = v] on a table word. *)
Definition store (p v : Z) (st : state) : state :=
  set_mem (fun a => if a =? p then v else mem st a) st.

Definition zero_arena : arena := mkArena None 0 false.

(** [memset(p, 0, len)]: the table words and the arena headers whose
    address lies in [p, p + len) become zero. *)
Definition memset0 (p len : Z) (st : state) : state :=
  mkState (kernel_pool st) (user_pool st) (kernel_vaddr st)
    (k_block_descs st) (cur st)
    (fun a => if (p <=? a) && (a <? p + len) then 0 else mem st a)
    (fun a => if (p <=? a) && (a <? p + len) then zero_arena
              else arenas st a).

Definition set_arena (a : Z) (h : arena) (st : state) : state :=
  set_arenas (fun x => if x =? a then h else arenas st x) st.

(* ================================================================= *)
(** ** Outcomes *)

Inductive result (A : Type) : Type :=
| Ok (a : A) (st : state)
| Panic
| Undef.
Arguments Ok {A} _ _.
Arguments Panic {A}.
Arguments Undef {A}.

Definition M (A : Type) : Type := state -> result A.

Definition ret {A} (a : A) : M A := fun st => Ok a st.

Definition bind {A B} (c : M A) (k : A -> M B) : M B :=
  fun st => match c st with
            | Ok a st' => k a st'
            | Panic => Panic
            | Undef => Undef
            end.

Notation "x <- c ;; k" := (bind c (fun x => k))
  (at level 61, c at next level, right associativity).
Notation "c ;;; k" := (bind c (fun _ => k))
  (at level 61, right associativity).

(** Modelled from the spec: debug.h is not part of the sources.  An
    assertion that fails and [PANIC] "halt the system immediately (no
    unwinding, no partial recovery)". *)
Definition ASSERT (b : bool) : M unit :=
  fun st => if b then Ok tt st else Panic.

Definition PANIC {A} : M A := fun _ => Panic.

Definition undefined {A} : M A := fun _ => Undef.

Definition get_state : M state := fun st => Ok st st.

Definition modify (f : state -> state) : M unit := fun st => Ok tt (f st).

(* ================================================================= *)
(** ** Virtual pages, frames and the page table *)

(** [vaddr_get]: reserve [pg_cnt] virtual pages in the tracker of [pf]. *)
Definition vaddr_get (pf : pool_flags) (pg_cnt : Z) : M Z :=
  fun st =>
    let tr := get_tracker pf st in
    let bit_idx_start := bitmap_scan (vaddr_bitmap tr) pg_cnt in
    if bit_idx_start =? -1 then Ok NULL st
    else
      let st' := set_tracker_bitmap pf
                   (bitmap_set_run (vaddr_bitmap tr) bit_idx_start
                      (Z.to_nat pg_cnt) true) st in
      let vaddr := wrap32 (vaddr_start tr + bit_idx_start * PG_SIZE) in
      match pf with
      | PF_KERNEL => Ok vaddr st'
      | PF_USER => (ASSERT (vaddr <? 0xc0000000 - PG_SIZE) ;;; ret vaddr) st'
      end.

Definition pte_ptr (vaddr : Z) : Z :=
  0xffc00000 + Z.shiftr (Z.land vaddr 0xffc00000) 10 + PTE_IDX vaddr * 4.

Definition pde_ptr (vaddr : Z) : Z :=
  0xfffff000 + PDE_IDX vaddr * 4.

(** [palloc]: take one frame of [m_pool]. *)
Definition palloc (m_pool : pool_id) : M Z :=
  fun st =>
    let p := get_pool m_pool st in
    let bit_idx := bitmap_scan (pool_bitmap p) 1 in
    if bit_idx =? -1 then Ok NULL st
    else Ok (wrap32 (bit_idx * PG_SIZE + phy_addr_start p))
           (set_pool_bitmap m_pool (bitmap_set (pool_bitmap p) bit_idx true)
              st).

(** [w & 0x00000001]. *)
Definition present (w : Z) : bool := negb (Z.land w 0x00000001 =? 0).

Definition entry_of (page_phyaddr : Z) : Z :=
  Z.lor (Z.lor (Z.lor page_phyaddr PG_US_U) PG_RW_W) PG_P_1.

(** [page_table_add]: map [vaddr] to the frame [page_phyaddr]. *)
Definition page_table_add (vaddr page_phyaddr : Z) : M unit :=
  let pde := pde_ptr vaddr in
  let pte := pte_ptr vaddr in
  st <- get_state ;;
  if present (mem st pde) then
    ASSERT (negb (present (mem st pte))) ;;;
    if negb (present (mem st pte))
    then modify (store pte (entry_of page_phyaddr))
    else PANIC
  else
    pde_phyaddr <- palloc KernelPool ;;
    modify (store pde (entry_of pde_phyaddr)) ;;;
    modify (memset0 (Z.land pte 0xfffff000) PG_SIZE) ;;;
    st' <- get_state ;;
    ASSERT (negb (present (mem st' pte))) ;;;
    modify (store pte (entry_of page_phyaddr)).

(** The body of [while(cnt-- > 0)] in [malloc_page]; [false] stands for
    the [return NULL] on a failed [palloc]. *)
Fixpoint malloc_page_loop (mem_pool : pool_id) (cnt : nat) (vaddr : Z)
    : M bool :=
  match cnt with
  | O => ret true
  | S cnt' =>
      page_phyaddr <- palloc mem_pool ;;
      if page_phyaddr =? NULL then ret false
      else
        page_table_add vaddr page_phyaddr ;;;
        malloc_page_loop mem_pool cnt' (wrap32 (vaddr + PG_SIZE))
  end.

Definition malloc_page (pf : pool_flags) (pg_cnt : Z) : M Z :=
  ASSERT ((0 <? pg_cnt) && (pg_cnt <? 3840)) ;;;
  vaddr_start <- vaddr_get pf pg_cnt ;;
  if vaddr_start =? NULL then ret NULL
  else
    ok <- malloc_page_loop (pool_of pf) (Z.to_nat pg_cnt) vaddr_start ;;
    if ok then ret vaddr_start else ret NULL.

Definition get_kernel_pages (pg_cnt : Z) : M Z :=
  vaddr <- malloc_page PF_KERNEL pg_cnt ;;
  if vaddr =? NULL then ret vaddr
  else modify (memset0 vaddr (wrap32 (pg_cnt * PG_SIZE))) ;;; ret vaddr.

Definition get_user_pages (pg_cnt : Z) : M Z :=
  vaddr <- malloc_page PF_USER pg_cnt ;;
  if vaddr =? NULL then ret vaddr
  else modify (memset0 vaddr (wrap32 (pg_cnt * PG_SIZE))) ;;; ret vaddr.

(** The bit index [get_a_page] computes for [vaddr] in the tracker of
    [pf]: [(vaddr - vaddr_start) / PG_SIZE]. *)
Definition page_bit_idx (pf : pool_flags) (vaddr : Z) (st : state) : Z :=
  wrap32 (vaddr - vaddr_start (get_tracker pf st)) / PG_SIZE.

(** [get_a_page]: back the page at [vaddr] with a frame of the pool [pf]. *)
Definition get_a_page (pf : pool_flags) (vaddr : Z) : M Z :=
  let mem_pool := pool_of pf in
  st <- get_state ;;
  (if negb (pgdir (cur st) =? NULL) && pool_flags_eqb pf PF_USER then
     let bit_idx := page_bit_idx PF_USER vaddr st in
     ASSERT (0 <? bit_idx) ;;;
     modify (set_tracker_bitmap PF_USER
               (bitmap_set (vaddr_bitmap (userprog_vaddr (cur st)))
                  bit_idx true))
   else if (pgdir (cur st) =? NULL) && pool_flags_eqb pf PF_KERNEL then
     let bit_idx := page_bit_idx PF_KERNEL vaddr st in
     ASSERT (0 <? bit_idx) ;;;
     modify (set_tracker_bitmap PF_KERNEL
               (bitmap_set (vaddr_bitmap (kernel_vaddr st)) bit_idx true))
   else PANIC) ;;;
  page_phyaddr <- palloc mem_pool ;;
  if page_phyaddr =? NULL then ret NULL
  else page_table_add vaddr page_phyaddr ;;; ret vaddr.

(** [addr_v2p]: the physical address [vaddr] is mapped to. *)
Definition addr_v2p (vaddr : Z) (st : state) : Z :=
  Z.land (mem st (pte_ptr vaddr)) 0xfffff000 + Z.land vaddr 0x00000fff.

(* ================================================================= *)
(** ** Size classes and arenas *)

Fixpoint block_desc_init_loop (n : nat) (block_size : Z)
    : list mem_block_desc :=
  match n with
  | O => []
  | S n' =>
      mkDesc block_size ((PG_SIZE - sizeof_arena) / block_size) []
      :: block_desc_init_loop n' (wrap16 (block_size * 2))
  end.

(** [block_desc_init]: the descriptor array it leaves behind. *)
Definition block_desc_init : list mem_block_desc :=
  block_desc_init_loop DESC_CNT 16.

Definition get_descs (pf : pool_flags) (st : state) : list mem_block_desc :=
  match pf with
  | PF_KERNEL => k_block_descs st
  | PF_USER => u_block_desc (cur st)
  end.

(** [&descs[idx]] for the descriptor array of [pf]. *)
Definition desc_at (pf : pool_flags) (idx : nat) : desc_ptr :=
  match pf with PF_KERNEL => KDesc idx | PF_USER => UDesc idx end.

Definition deref_desc (d : desc_ptr) (st : state) : option mem_block_desc :=
  match d with
  | KDesc i => nth_error (k_block_descs st) i
  | UDesc i => nth_error (u_block_desc (cur st)) i
  end.

Fixpoint update_nth {A} (l : list A) (n : nat) (f : A -> A) : list A :=
  match l, n with
  | [], _ => []
  | x :: r, O => f x :: r
  | x :: r, S n' => x :: update_nth r n' f
  end.

Definition with_free_list (l : list_t) (d : mem_block_desc) : mem_block_desc :=
  mkDesc (block_size d) (blocks_per_arena d) l.

Definition set_free_list (d : desc_ptr) (l : list_t) (st : state) : state :=
  match d with
  | KDesc i =>
      mkState (kernel_pool st) (user_pool st) (kernel_vaddr st)
        (update_nth (k_block_descs st) i (with_free_list l))
        (cur st) (mem st) (arenas st)
  | UDesc i =>
      mkState (kernel_pool st) (user_pool st) (kernel_vaddr st)
        (k_block_descs st)
        (mkTask (pgdir (cur st)) (userprog_vaddr (cur st))
           (update_nth (u_block_desc (cur st)) i (with_free_list l)))
        (mem st) (arenas st)
  end.

(** Modelled from the spec: list.c is not part of the sources.  "Append a
    node, remove a node, test membership, pop-and-return the front node,
    test emptiness". *)
Definition list_append (l : list_t) (elem : Z) : list_t := l ++ [elem].
Definition list_remove (l : list_t) (elem : Z) : list_t :=
  remove Z.eq_dec elem l.
Definition elem_find (l : list_t) (elem : Z) : bool :=
  existsb (Z.eqb elem) l.
Definition list_pop (l : list_t) : option (Z * list_t) :=
  match l with [] => None | x :: r => Some (x, r) end.
Definition list_empty (l : list_t) : bool :=
  match l with [] => true | _ => false end.

(** [arena2block]: the address of block [idx] of the arena at [a]. *)
Definition arena2block (a idx : Z) : M Z :=
  st <- get_state ;;
  match desc (arenas st a) with
  | None => undefined
  | Some dp =>
      match deref_desc dp st with
      | None => undefined
      | Some d => ret (wrap32 (a + sizeof_arena + idx * block_size d))
      end
  end.

(** [block2arena]: the arena a block lies in. *)
Definition block2arena (b : Z) : Z := Z.land b 0xfffff000.

(** [for(desc_idx = 0; desc_idx < DESC_CNT; desc_idx++)
       if(size <= descs[desc_idx].block_size) break;]
    with [fuel] the classes not yet looked at; the value of [desc_idx]
    after the loop. *)
Fixpoint desc_search (descs : list mem_block_desc) (size : Z)
    (desc_idx fuel : nat) : nat :=
  match fuel with
  | O => desc_idx
  | S fuel' =>
      match nth_error descs desc_idx with
      | Some d => if size <=? block_size d then desc_idx
                  else desc_search descs size (S desc_idx) fuel'
      | None => desc_idx
      end
  end.

(** The loop of [sys_malloc] that cuts a fresh arena into blocks. *)
Fixpoint arena_split (a : Z) (dp : desc_ptr) (n : nat) (block_idx : Z)
    : M unit :=
  match n with
  | O => ret tt
  | S n' =>
      b <- arena2block a block_idx ;;
      st <- get_state ;;
      match deref_desc dp st with
      | None => undefined
      | Some d =>
          ASSERT (negb (elem_find (free_list d) b)) ;;;
          modify (set_free_list dp (list_append (free_list d) b)) ;;;
          arena_split a dp n' (block_idx + 1)
      end
  end.

(** The branch [size > 1024] of [sys_malloc]. *)
Definition sys_malloc_large (PF : pool_flags) (size : Z) : M Z :=
  let page_cnt := DIV_ROUND_UP (size + sizeof_arena) PG_SIZE in
  a <- malloc_page PF page_cnt ;;
  if a =? NULL then ret NULL
  else
    modify (memset0 a (wrap32 (page_cnt * PG_SIZE))) ;;;
    modify (set_arena a (mkArena None page_cnt true)) ;;;
    ret (wrap32 (a + sizeof_arena)).

(** The branch [size <= 1024] of [sys_malloc]. *)
Definition sys_malloc_small (PF : pool_flags) (size : Z) : M Z :=
  st <- get_state ;;
  let desc_idx := desc_search (get_descs PF st) size 0 DESC_CNT in
  let dp := desc_at PF desc_idx in
  match deref_desc dp st with
  | None => undefined
  | Some d =>
      ready <-
        (if list_empty (free_list d) then
           a <- malloc_page PF 1 ;;
           if a =? NULL then ret false
           else
             modify (memset0 a PG_SIZE) ;;;
             modify (set_arena a (mkArena (Some dp) (blocks_per_arena d)
                                    false)) ;;;
             arena_split a dp (Z.to_nat (blocks_per_arena d)) 0 ;;;
             ret true
         else ret true) ;;
      if ready then
        st1 <- get_state ;;
        match deref_desc dp st1 with
        | None => undefined
        | Some d1 =>
            match list_pop (free_list d1) with
            | None => undefined
            | Some (b, rest) =>
                modify (set_free_list dp rest) ;;;
                modify (memset0 b (block_size d1)) ;;;
                let a := block2arena b in
                st2 <- get_state ;;
                let h := arenas st2 a in
                modify (set_arena a (mkArena (desc h) (wrap32 (cnt h - 1))
                                       (large h))) ;;;
                ret b
            end
        end
      else ret NULL
  end.

(** The pool kind [sys_malloc] and [sys_free] work for: kernel for a
    thread without a page directory of its own, user otherwise. *)
Definition owner_flags (st : state) : pool_flags :=
  if pgdir (cur st) =? NULL then PF_KERNEL else PF_USER.

(** [sys_malloc]: [size] bytes of heap. *)
Definition sys_malloc (size : Z) : M Z :=
  st <- get_state ;;
  let PF := owner_flags st in
  let pool_size := pool_size (get_pool (pool_of PF) st) in
  if negb ((0 <? size) && (size <? pool_size)) then ret NULL
  else if 1024 <? size then sys_malloc_large PF size
  else sys_malloc_small PF size.

(* ================================================================= *)
(** ** Giving pages back *)

Definition pfree (pg_phy_addr : Z) : M unit :=
  fun st =>
    if phy_addr_start (user_pool st) <=? pg_phy_addr then
      let bit_idx :=
        wrap32 (pg_phy_addr - phy_addr_start (user_pool st)) / PG_SIZE in
      Ok tt (set_pool_bitmap UserPool
               (bitmap_set (pool_bitmap (user_pool st)) bit_idx false) st)
    else
      let bit_idx :=
        wrap32 (pg_phy_addr - phy_addr_start (kernel_pool st)) / PG_SIZE in
      Ok tt (set_pool_bitmap KernelPool
               (bitmap_set (pool_bitmap (kernel_pool st)) bit_idx false) st).

(** [*pte &= ~PG_P_1]; the translation cache is not represented. *)
Definition page_table_pte_remove (vaddr : Z) : M unit :=
  fun st =>
    let pte := pte_ptr vaddr in
    Ok tt (store pte (Z.land (mem st pte) (Z.lnot PG_P_1)) st).

Definition vaddr_remove (pf : pool_flags) (vaddr pg_cnt : Z) : M unit :=
  fun st =>
    let tr := get_tracker pf st in
    let bit_idx_start := wrap32 (vaddr - vaddr_start tr) / PG_SIZE in
    Ok tt (set_tracker_bitmap pf
             (bitmap_set_run (vaddr_bitmap tr) bit_idx_start
                (Z.to_nat pg_cnt) false) st).

(** The two [while(page_cnt < pg_cnt)] loops of [mfree_page]; [user]
    tells the branch, [vaddr] is the page handled before this round. *)
Fixpoint mfree_page_loop (user : bool) (n : nat) (vaddr : Z) : M unit :=
  match n with
  | O => ret tt
  | S n' =>
      let vaddr := wrap32 (vaddr + PG_SIZE) in
      st <- get_state ;;
      let pg_phy_addr := addr_v2p vaddr st in
      (if user then
         ASSERT ((Z.land pg_phy_addr PG_SIZE =? 0)
                 && (phy_addr_start (user_pool st) <=? pg_phy_addr))
       else
         ASSERT ((pg_phy_addr mod PG_SIZE =? 0)
                 && (phy_addr_start (kernel_pool st) <=? pg_phy_addr)
                 && (pg_phy_addr <? phy_addr_start (user_pool st)))) ;;;
      pfree pg_phy_addr ;;;
      page_table_pte_remove vaddr ;;;
      mfree_page_loop user n' vaddr
  end.

(** [mfree_page]: give back [pg_cnt] pages from [vaddr] on. *)
Definition mfree_page (pf : pool_flags) (vaddr pg_cnt : Z) : M unit :=
  ASSERT ((1 <=? pg_cnt) && (vaddr mod PG_SIZE =? 0)) ;;;
  st <- get_state ;;
  let pg_phy_addr := addr_v2p vaddr st in
  ASSERT ((pg_phy_addr mod PG_SIZE =? 0) && (0x102000 <=? pg_phy_addr)) ;;;
  mfree_page_loop (phy_addr_start (user_pool st) <=? pg_phy_addr)
    (Z.to_nat pg_cnt) (wrap32 (vaddr - PG_SIZE)) ;;;
  vaddr_remove pf vaddr pg_cnt.

(** The loop of [sys_free] that takes the blocks of a free arena off the
    free list. *)
Fixpoint arena_unlink (a : Z) (n : nat) (block_idx : Z) : M unit :=
  match n with
  | O => ret tt
  | S n' =>
      b <- arena2block a block_idx ;;
      st <- get_state ;;
      match desc (arenas st a) with
      | None => undefined
      | Some dp =>
          match deref_desc dp st with
          | None => undefined
          | Some d =>
              ASSERT (elem_find (free_list d) b) ;;;
              modify (set_free_list dp (list_remove (free_list d) b)) ;;;
              arena_unlink a n' (block_idx + 1)
          end
      end
  end.

(** [sys_free]: give the heap memory at [ptr] back.  The header's [large]
    is a [bool] here, so [ASSERT(a->large == 0 || a->large == 1)] always
    passes and is left out. *)
Definition sys_free (ptr : Z) : M unit :=
  ASSERT (negb (ptr =? NULL)) ;;;
  st <- get_state ;;
  let PF := owner_flags st in
  (if pgdir (cur st) =? NULL then ASSERT (K_HEAP_START <=? ptr)
   else ret tt) ;;;
  let b := ptr in
  let a := block2arena b in
  let h := arenas st a in
  match desc h, large h with
  | None, true => mfree_page PF a (cnt h)
  | None, false => undefined
  | Some dp, _ =>
      match deref_desc dp st with
      | None => undefined
      | Some d =>
          modify (set_free_list dp (list_append (free_list d) b)) ;;;
          modify (set_arena a (mkArena (desc h) (wrap32 (cnt h + 1))
                                 (large h))) ;;;
          if wrap32 (cnt h + 1) =? blocks_per_arena d then
            arena_unlink a (Z.to_nat (blocks_per_arena d)) 0 ;;;
            mfree_page PF a 1
          else ret tt
      end
  end.

(* ================================================================= *)
(** ** Vocabulary of the statements *)

(** The caller's context matches the pool kind asked for: a user task
    with [PF_USER], a kernel thread with [PF_KERNEL]. *)
Definition context_matches (pf : pool_flags) (st : state) : Prop :=
  (pgdir (cur st) <> NULL /\ pf = PF_USER) \/
  (pgdir (cur st) = NULL /\ pf = PF_KERNEL).

(** The table entry of [v] is not present: its directory entry or its
    table entry has the present bit clear. *)
Definition unmapped (v : Z) (st : state) : Prop :=
  present (mem st (pde_ptr v)) && present (mem st (pte_ptr v)) = false.

(** Bit [i] of a tracker is set, is clear. *)
Definition bit_used (bm : bitmap) (i : nat) : Prop :=
  nth_error bm i = Some true.
Definition bit_free (bm : bitmap) (i : nat) : Prop :=
  nth_error bm i = Some false.

(** The address of frame [i] of a pool. *)
Definition frame_addr (p : pool) (i : nat) : Z :=
  wrap32 (Z.of_nat i * PG_SIZE + phy_addr_start p).

(** A tracker only gained set bits. *)
Definition bits_grow (bm bm' : bitmap) : Prop :=
  length bm = length bm' /\
  forall j, bit_used bm j -> bit_used bm' j.

(** Between [st] and [st'] frames were taken and table words written,
    nothing else: trackers, task and descriptors are the same, the pools
    kept their place and only gained set bits. *)
Definition pools_grow (st st' : state) : Prop :=
  kernel_vaddr st' = kernel_vaddr st /\
  cur st' = cur st /\
  k_block_descs st' = k_block_descs st /\
  forall p,
    phy_addr_start (get_pool p st') = phy_addr_start (get_pool p st) /\
    pool_size (get_pool p st') = pool_size (get_pool p st) /\
    bits_grow (pool_bitmap (get_pool p st)) (pool_bitmap (get_pool p st')).

(** A descriptor array has the shape [block_desc_init] gives it: the
    block sizes and the blocks per arena; the free lists are free. *)
Definition classes_initialised (descs : list mem_block_desc) : Prop :=
  map block_size descs = map block_size block_desc_init /\
  map blocks_per_arena descs = map blocks_per_arena block_desc_init.

(** The descriptor [sys_malloc] settles on for a request of [size] bytes
    on the small path. *)
Definition chosen_desc (descs : list mem_block_desc) (size : Z)
    : option mem_block_desc :=
  nth_error descs (desc_search descs size 0 DESC_CNT).

(** [sys_malloc] takes a request of [size] bytes further than its first
    test. *)
Definition accepted (size : Z) (st : state) : Prop :=
  0 < size < pool_size (get_pool (pool_of (owner_flags st)) st).

(** The table entry of [v] is in place and maps [v] to the frame [f]:
    the directory entry is present and the table entry is the entry
    written for [f]. *)
Definition maps_to (st : state) (v f : Z) : Prop :=
  present (mem st (pde_ptr v)) = true /\ mem st (pte_ptr v) = entry_of f.

(** Page number [j] of the run that starts at [vstart]. *)
Definition page_of (vstart : Z) (j : nat) : Z := vstart + Z.of_nat j * PG_SIZE.

(** The first address of the window through which the tables themselves
    are reached ([pte_ptr] and [pde_ptr] point into it). *)
Definition TABLE_WINDOW : Z := 0xffc00000.

(** The pools lie as [mem_pool_init] places them: the kernel pool starts
    page-aligned above the low memory the assertion of [mfree_page]
    excludes, and the user pool starts after the kernel pool's last
    frame. *)
Definition pools_placed (st : state) : Prop :=
  0x102000 <= phy_addr_start (kernel_pool st) /\
  phy_addr_start (kernel_pool st) mod PG_SIZE = 0 /\
  phy_addr_start (kernel_pool st)
  + Z.of_nat (length (pool_bitmap (kernel_pool st))) * PG_SIZE
  <= phy_addr_start (user_pool st) /\
  phy_addr_start (user_pool st) < 2 ^ 32.

(** The kernel tracker covers page-aligned addresses from
    [K_HEAP_START] on, below the table window. *)
Definition kernel_vaddr_placed (st : state) : Prop :=
  K_HEAP_START <= vaddr_start (kernel_vaddr st) /\
  vaddr_start (kernel_vaddr st) mod PG_SIZE = 0 /\
  vaddr_start (kernel_vaddr st)
  + Z.of_nat (length (vaddr_bitmap (kernel_vaddr st))) * PG_SIZE
  <= TABLE_WINDOW.

(** [bm] with the bits [idxs] cleared one after the other. *)
Definition clear_bits (bm : bitmap) (idxs : list nat) : bitmap :=
  fold_left (fun b i => set_nth b i false) idxs bm.

(** The address of block [j] of the arena at [a] for blocks of [bs]
    bytes, as [arena2block] computes it. *)
Definition block_addr (a bs j : Z) : Z := wrap32 (a + sizeof_arena + j * bs).

(** Between [st] and [st'] only free lists changed. *)
Definition lists_only (st st' : state) : Prop :=
  kernel_pool st' = kernel_pool st /\
  user_pool st' = user_pool st /\
  kernel_vaddr st' = kernel_vaddr st /\
  pgdir (cur st') = pgdir (cur st) /\
  userprog_vaddr (cur st') = userprog_vaddr (cur st) /\
  mem st' = mem st /\
  arenas st' = arenas st.

(* ================================================================= *)
(** ** Sample machines *)

(** A tracker of [n] clear bits ([bitmap_init]). *)
Definition bitmap_init (n : nat) : bitmap := repeat false n.

(** Page-directory words as the loader leaves them: the entries of the
    kernel's upper gigabyte (768 to 1022) are present. *)
Definition boot_mem : Z -> Z :=
  fun a =>
    if (0xfffff000 + 768 * 4 <=? a) && (a <? 0xfffff000 + 1023 * 4)
       && (a mod 4 =? 0)
    then 0x101007 else 0.

(** A kernel thread on a machine with sixteen frames in each pool. *)
Definition kernel_machine : state :=
  mkState (mkPool (bitmap_init 16) 0x200000 (16 * PG_SIZE))
    (mkPool (bitmap_init 16) 0x210000 (16 * PG_SIZE))
    (mkVaddr (bitmap_init 16) K_HEAP_START)
    block_desc_init
    (mkTask NULL (mkVaddr [] 0) [])
    boot_mem (fun _ => zero_arena).

(** A user task on the same machine, its private range at 0x8048000. *)
Definition user_machine : state :=
  mkState (mkPool (bitmap_init 16) 0x200000 (16 * PG_SIZE))
    (mkPool (bitmap_init 16) 0x210000 (16 * PG_SIZE))
    (mkVaddr (bitmap_init 16) K_HEAP_START)
    block_desc_init
    (mkTask 0x300000 (mkVaddr (bitmap_init 16) 0x8048000) block_desc_init)
    boot_mem (fun _ => zero_arena).

(** The kernel thread's machine with every kernel frame taken. *)
Definition exhausted_machine : state :=
  mkState (mkPool (repeat true 16) 0x200000 (16 * PG_SIZE))
    (user_pool kernel_machine) (kernel_vaddr kernel_machine)
    (k_block_descs kernel_machine) (cur kernel_machine)
    (mem kernel_machine) (arenas kernel_machine).

(** The kernel thread's machine with a single kernel frame left. *)
Definition one_frame_machine : state :=
  mkState (mkPool (false :: repeat true 15) 0x200000 (16 * PG_SIZE))
    (user_pool kernel_machine) (kernel_vaddr kernel_machine)
    (k_block_descs kernel_machine) (cur kernel_machine)
    (mem kernel_machine) (arenas kernel_machine).

(** What a computation returns from [st], when it returns. *)
Definition returns {A} (m : M A) (st : state) : option A :=
  match m st with
  | Ok a _ => Some a
  | Panic | Undef => None
  end.

(** What the heap and the page allocator show of a state: the arena
    header and the frame behind the page at [a], and the bits of the two
    pools and of the tracker of [pf]. *)
Definition observe (pf : pool_flags) (a : Z) : M (arena * Z * bitmap * bitmap * bitmap) :=
  st <- get_state ;;
  ret (arenas st a, addr_v2p a st, pool_bitmap (kernel_pool st),
       pool_bitmap (user_pool st), vaddr_bitmap (get_tracker pf st)).

(** Two large requests, then the second one is freed. *)
Definition free_second_large : M unit :=
  p <- sys_malloc 2000 ;;
  q <- sys_malloc 2000 ;;
  sys_free q.

(** A large request, then a small one of 1000 bytes that opens an arena
    of 1024-byte blocks, then the small one is freed: the arena is whole
    again. *)
Definition free_whole_arena : M unit :=
  p <- sys_malloc 2000 ;;
  b <- sys_malloc 1000 ;;
  sys_free b.

(* ================================================================= *)
(** ** Boot-time set-up *)

(** [mem_pool_init]: size and place the two pools and the kernel tracker
    from the amount of memory [all_mem].  The three bitmaps are cleared
    by [bitmap_init] (bitmap.c is not part of the sources; the comment at
    the calls reads "set the bitmap to 0"), a bit for each of the
    [btmp_bytes_len * 8] pages; where their bytes lie is not represented.
    The messages it prints and the two [lock_init] calls leave no trace
    here. *)
Definition mem_pool_init (all_mem : Z) (st : state) : state :=
  let page_table_size := wrap32 (PG_SIZE * 256) in
  let used_mem := wrap32 (page_table_size + 0x100000) in
  let free_mem := wrap32 (all_mem - used_mem) in
  let all_free_pages := wrap16 (free_mem / PG_SIZE) in
  let kernel_free_pages := wrap16 (all_free_pages / 2) in
  let user_free_pages := wrap16 (all_free_pages - kernel_free_pages) in
  let kbm_length := kernel_free_pages / 8 in
  let ubm_length := user_free_pages / 8 in
  let kp_start := used_mem in
  let up_start := wrap32 (kp_start + kernel_free_pages * PG_SIZE) in
  mkState
    (mkPool (bitmap_init (Z.to_nat (kbm_length * 8))) kp_start
       (wrap32 (kernel_free_pages * PG_SIZE)))
    (mkPool (bitmap_init (Z.to_nat (ubm_length * 8))) up_start
       (wrap32 (user_free_pages * PG_SIZE)))
    (mkVaddr (bitmap_init (Z.to_nat (kbm_length * 8))) K_HEAP_START)
    (k_block_descs st) (cur st) (mem st) (arenas st).

(** [mem_init]: [mem_bytes_total] is the word the loader left at 0xb00. *)
Definition mem_init (mem_bytes_total : Z) (st : state) : state :=
  let st1 := mem_pool_init mem_bytes_total st in
  mkState (kernel_pool st1) (user_pool st1) (kernel_vaddr st1)
    block_desc_init (cur st1) (mem st1) (arenas st1).

(* ================================================================= *)
(** ** Vocabulary of the further statements *)

(** The state a computation leaves when it returns ([st] itself when it
    does not). *)
Definition state_after {A} (m : M A) (st : state) : state :=
  match m st with
  | Ok _ st' => st'
  | Panic | Undef => st
  end.

(** The frames of a pool have addresses inside the 32-bit space. *)
Definition pool_fits (p : pool) : Prop :=
  0 <= phy_addr_start p /\
  phy_addr_start p + Z.of_nat (length (pool_bitmap p)) * PG_SIZE <= 2 ^ 32.

(** The pages of a tracker have addresses inside the 32-bit space. *)
Definition tracker_fits (tr : virtual_addr) : Prop :=
  0 <= vaddr_start tr /\
  vaddr_start tr + Z.of_nat (length (vaddr_bitmap tr)) * PG_SIZE <= 2 ^ 32.

(** The page allocator's entry point for the pool kind [pf]. *)
Definition get_pages (pf : pool_flags) : Z -> M Z :=
  match pf with
  | PF_KERNEL => get_kernel_pages
  | PF_USER => get_user_pages
  end.

(** A kernel thread right after [mem_init] on a machine with 64 MB. *)
Definition booted_machine : state := mem_init 0x4000000 kernel_machine.

(** The addresses of the [n] blocks of the arena at [a] from block [k]
    on, in the order of their indexes. *)
Fixpoint block_run (a bs k : Z) (n : nat) : list Z :=
  match n with
  | O => []
  | S n' => block_addr a bs k :: block_run a bs (k + 1) n'
  end.

(* ================================================================= *)
(** * Properties *)

(* ================================================================= *)
(** ** Address arithmetic *)

Lemma land_field (x k n : Z) :
  0 <= k -> 0 <= n ->
  Z.land x (Z.shiftl (Z.ones n) k) = (x / 2 ^ k) mod 2 ^ n * 2 ^ k.
Proof.
  intros Hk Hn.
  rewrite <- Z.shiftr_div_pow2, <- Z.land_ones, <- Z.shiftl_mul_pow2 by lia.
  apply Z.bits_inj'. intros i Hi.
  rewrite Z.land_spec.
  destruct (Z.lt_ge_cases i k) as [Hlt | Hge].
  - rewrite !Z.shiftl_spec_low by lia. apply andb_false_r.
  - rewrite !Z.shiftl_spec by lia.
    rewrite Z.land_spec, Z.shiftr_spec by lia.
    replace (i - k + k) with i by lia. reflexivity.
Qed.

Lemma land_frame (x : Z) :
  Z.land x 0xfffff000 = (x / 4096) mod 2 ^ 20 * 4096.
Proof. exact (land_field x 12 20 ltac:(lia) ltac:(lia)). Qed.

Lemma land_offset (x : Z) : Z.land x 0x00000fff = x mod 4096.
Proof. exact (Z.land_ones x 12 ltac:(lia)). Qed.

Lemma land_frame32 (x : Z) :
  0 <= x < 2 ^ 32 -> Z.land x 0xfffff000 = x - x mod 4096.
Proof.
  intros H. rewrite land_frame.
  rewrite Z.mod_small.
  - pose proof (Z.div_mod x 4096). lia.
  - split; [apply Z.div_pos | apply Z.div_lt_upper_bound]; lia.
Qed.

Lemma pte_ptr_wrap (v : Z) : pte_ptr v = 0xffc00000 + 4 * (wrap32 v / 4096).
Proof.
  unfold pte_ptr, PTE_IDX, wrap32.
  change 0xffc00000 with (Z.shiftl (Z.ones 10) 22) at 2.
  change 0x003ff000 with (Z.shiftl (Z.ones 10) 12).
  rewrite !land_field by lia.
  rewrite !Z.shiftr_div_pow2 by lia.
  change (2 ^ 22) with 4194304. change (2 ^ 10) with 1024.
  change (2 ^ 12) with 4096. change (2 ^ 32) with 4294967296.
  Z.div_mod_to_equations. lia.
Qed.

Lemma pde_ptr_wrap (v : Z) :
  pde_ptr v = 0xfffff000 + 4 * (wrap32 v / 4194304).
Proof.
  unfold pde_ptr, PDE_IDX, wrap32.
  change 0xffc00000 with (Z.shiftl (Z.ones 10) 22).
  rewrite !land_field by lia.
  rewrite !Z.shiftr_div_pow2 by lia.
  change (2 ^ 22) with 4194304. change (2 ^ 10) with 1024.
  change (2 ^ 32) with 4294967296.
  Z.div_mod_to_equations. lia.
Qed.

Lemma wrap32_range (x : Z) : 0 <= wrap32 x < 2 ^ 32.
Proof. unfold wrap32. apply Z.mod_pos_bound. lia. Qed.

Lemma wrap32_small (x : Z) : 0 <= x < 2 ^ 32 -> wrap32 x = x.
Proof. unfold wrap32. apply Z.mod_small. Qed.

Lemma pte_ptr_range (v : Z) : 0xffc00000 <= pte_ptr v < 2 ^ 32.
Proof.
  rewrite pte_ptr_wrap. pose proof (wrap32_range v).
  change (2 ^ 32) with 4294967296 in *.
  Z.div_mod_to_equations. lia.
Qed.

Lemma pde_ptr_range (v : Z) : 0xfffff000 <= pde_ptr v < 2 ^ 32.
Proof.
  rewrite pde_ptr_wrap. pose proof (wrap32_range v).
  change (2 ^ 32) with 4294967296 in *.
  Z.div_mod_to_equations. lia.
Qed.

(** The table page [page_table_add] clears holds the entry it then
    writes. *)
Lemma pte_in_own_page (v : Z) :
  let pte := pte_ptr v in
  (Z.land pte 0xfffff000 <=? pte) && (pte <? Z.land pte 0xfffff000 + PG_SIZE)
  = true.
Proof.
  intros pte. pose proof (pte_ptr_range v) as H. fold pte in H.
  rewrite land_frame32 by lia. unfold PG_SIZE.
  pose proof (Z.mod_pos_bound pte 4096 ltac:(lia)).
  apply andb_true_intro. split; [apply Z.leb_le | apply Z.ltb_lt]; lia.
Qed.

Lemma entry_of_frame (p : Z) :
  0 <= p < 2 ^ 32 -> p mod PG_SIZE = 0 ->
  Z.land (entry_of p) 0xfffff000 = p.
Proof.
  intros Hp Ha. unfold entry_of, PG_US_U, PG_RW_W, PG_P_1.
  rewrite !Z.land_lor_distr_l.
  change (Z.land 4 0xfffff000) with 0.
  change (Z.land 2 0xfffff000) with 0.
  change (Z.land 1 0xfffff000) with 0.
  rewrite !Z.lor_0_r, land_frame32 by lia.
  unfold PG_SIZE in Ha. lia.
Qed.

Lemma entry_of_present (p : Z) : present (entry_of p) = true.
Proof.
  unfold present, entry_of, PG_P_1.
  rewrite Z.land_lor_distr_l. change (Z.land 1 1) with 1.
  change 1 with (Z.ones 1) at 1. rewrite Z.land_ones by lia.
  change (2 ^ 1) with 2.
  pose proof (Z.mod_pos_bound (Z.lor (Z.lor p PG_US_U) PG_RW_W) 2 ltac:(lia)).
  destruct (Z.eq_dec ((Z.lor (Z.lor p PG_US_U) PG_RW_W) mod 2) 0) as [-> | ];
    [reflexivity |].
  replace ((Z.lor (Z.lor p PG_US_U) PG_RW_W) mod 2) with 1 by lia.
  reflexivity.
Qed.

(* ================================================================= *)
(** ** Installing a mapping and translating it back *)

(** C1.  Round trip of the page-table mapper.  For a page-aligned
    physical address [p] and a virtual address [v] whose table entry is
    not yet present (a freshly reserved page), [page_table_add v p]
    returns, and [addr_v2p v] on the state it leaves is [p] plus the low
    12 bits of [v]. *)
Theorem page_table_add_addr_v2p (st : state) (v p : Z) :
  0 <= p < 2 ^ 32 ->
  p mod PG_SIZE = 0 ->
  present (mem st (pde_ptr v)) && present (mem st (pte_ptr v)) = false ->
  exists st',
    page_table_add v p st = Ok tt st' /\
    addr_v2p v st' = p + Z.land v 0x00000fff.
Proof.
  intros Hp Ha Hfree.
  unfold page_table_add, bind, get_state.
  destruct (present (mem st (pde_ptr v))) eqn:Hpde.
  - simpl in Hfree. rewrite Hfree. simpl.
    eexists. split; [reflexivity |].
    unfold addr_v2p, store, set_mem; simpl.
    rewrite Z.eqb_refl, entry_of_frame by assumption. reflexivity.
  - destruct (palloc KernelPool st) as [f st1 | |] eqn:Hpal.
    + unfold modify, ASSERT, store, memset0, set_mem; cbn [mem].
      rewrite (pte_in_own_page v).
      change (negb (present 0)) with true. cbv iota.
      eexists. split; [reflexivity |].
      unfold addr_v2p; cbn [mem].
      rewrite Z.eqb_refl, entry_of_frame by assumption. reflexivity.
    + unfold palloc in Hpal. destruct (_ =? -1) in Hpal; discriminate.
    + unfold palloc in Hpal. destruct (_ =? -1) in Hpal; discriminate.
Qed.

Lemma page_table_add_addr_v2p_witness :
  exists st',
    page_table_add K_HEAP_START 0x200000 kernel_machine = Ok tt st' /\
    addr_v2p K_HEAP_START st' = 0x200000 + Z.land K_HEAP_START 0x00000fff.
Proof.
  apply page_table_add_addr_v2p; [lia | reflexivity | reflexivity].
Defined.

(* ================================================================= *)
(** ** The capacity tracker *)

Lemma all_free_spec (bm : bitmap) (n : nat) :
  all_free bm n = true <->
  (forall k, (k < n)%nat -> nth_error bm k = Some false).
Proof.
  revert bm. induction n as [| n IH]; intros bm; simpl.
  - split; [intros _ k Hk; lia | intros _; reflexivity].
  - destruct bm as [| [|] r].
    + split; [discriminate |]. intros H. specialize (H 0%nat). simpl in H.
      discriminate H. lia.
    + split; [discriminate |]. intros H. specialize (H 0%nat). simpl in H.
      assert (Some true = Some false) by (apply H; lia). discriminate.
    + rewrite IH. split.
      * intros H [| k] Hk; simpl; [reflexivity | apply H; lia].
      * intros H k Hk. apply (H (S k)). lia.
Qed.

Lemma all_free_skipn (bm : bitmap) (s n : nat) :
  all_free (skipn s bm) n = true <-> free_run bm s n.
Proof.
  rewrite all_free_spec. unfold free_run.
  split; intros H k Hk; specialize (H k Hk);
    rewrite nth_error_skipn in *; exact H.
Qed.

Lemma scan_from_found (bm : bitmap) (n : nat) (i : Z) :
  0 <= i -> scan_from bm n i <> -1 ->
  exists s : nat,
    scan_from bm n i = i + Z.of_nat s /\
    all_free (skipn s bm) n = true /\
    (forall s', (s' < s)%nat -> all_free (skipn s' bm) n = false).
Proof.
  revert i. induction bm as [| b r IH]; intros i Hi Hr; simpl in *.
  - destruct (all_free [] n) eqn:E; [| congruence].
    exists 0%nat. simpl. rewrite E. repeat split; [lia | intros; lia].
  - destruct (all_free (b :: r) n) eqn:E.
    + exists 0%nat. simpl. rewrite E. repeat split; [lia | intros; lia].
    + destruct (IH (i + 1) ltac:(lia) Hr) as (s & Hs & Hf & Hmin).
      exists (S s). simpl. repeat split; [lia | exact Hf |].
      intros [| s'] Hlt; simpl; [exact E | apply Hmin; lia].
Qed.

Lemma scan_from_none (bm : bitmap) (n : nat) (i : Z) :
  0 <= i -> scan_from bm n i = -1 ->
  forall s, all_free (skipn s bm) n = false.
Proof.
  revert i. induction bm as [| b r IH]; intros i Hi Hr s; simpl in *.
  - destruct (all_free [] n) eqn:E; [lia |].
    destruct s; exact E.
  - destruct (all_free (b :: r) n) eqn:E; [lia |].
    destruct s as [| s]; simpl; [exact E |].
    apply (IH (i + 1)); [lia | exact Hr].
Qed.

(** What [bitmap_scan] answers: a start index of a free run, the lowest
    one, exactly when there is one. *)
Lemma bitmap_scan_found (bm : bitmap) (cnt : Z) :
  bitmap_scan bm cnt <> -1 ->
  exists s : nat,
    bitmap_scan bm cnt = Z.of_nat s /\
    free_run bm s (Z.to_nat cnt) /\
    (forall s', (s' < s)%nat -> ~ free_run bm s' (Z.to_nat cnt)).
Proof.
  intros H. unfold bitmap_scan in *.
  destruct (scan_from_found bm (Z.to_nat cnt) 0 ltac:(lia) H)
    as (s & Hs & Hf & Hmin).
  exists s. repeat split; [lia | apply all_free_skipn; exact Hf |].
  intros s' Hlt Hrun. apply all_free_skipn in Hrun.
  rewrite (Hmin s' Hlt) in Hrun. discriminate.
Qed.

Lemma bitmap_scan_none (bm : bitmap) (cnt : Z) :
  bitmap_scan bm cnt = -1 -> forall s, ~ free_run bm s (Z.to_nat cnt).
Proof.
  intros H s Hrun. apply all_free_skipn in Hrun.
  rewrite (scan_from_none bm _ 0 ltac:(lia) H s) in Hrun. discriminate.
Qed.

Lemma set_nth_length (bm : bitmap) (k : nat) (v : bool) :
  length (set_nth bm k v) = length bm.
Proof.
  revert k. induction bm as [| b r IH]; intros [| k]; simpl; auto.
Qed.

Lemma nth_error_set_nth (bm : bitmap) (k : nat) (v : bool) (j : nat) :
  nth_error (set_nth bm k v) j =
  if Nat.eqb j k then option_map (fun _ => v) (nth_error bm j)
  else nth_error bm j.
Proof.
  revert k j. induction bm as [| b r IH]; intros k j.
  - destruct k, j; simpl; try reflexivity; destruct (Nat.eqb j k); reflexivity.
  - destruct k as [| k], j as [| j]; simpl; try reflexivity.
    apply IH.
Qed.

Lemma bitmap_set_nat (bm : bitmap) (k : nat) (v : bool) :
  bitmap_set bm (Z.of_nat k) v = set_nth bm k v.
Proof.
  unfold bitmap_set.
  destruct (Z.ltb_spec (Z.of_nat k) 0); [lia |].
  rewrite Nat2Z.id. reflexivity.
Qed.

Lemma bitmap_set_length (bm : bitmap) (i : Z) (v : bool) :
  length (bitmap_set bm i v) = length bm.
Proof.
  unfold bitmap_set. destruct (i <? 0); [reflexivity | apply set_nth_length].
Qed.

Lemma bitmap_set_run_length (bm : bitmap) (i : Z) (n : nat) (v : bool) :
  length (bitmap_set_run bm i n v) = length bm.
Proof.
  revert bm i. induction n as [| n IH]; intros bm i; simpl; [reflexivity |].
  rewrite IH. apply bitmap_set_length.
Qed.

Lemma nth_error_set_run (bm : bitmap) (s n : nat) (v : bool) (j : nat) :
  nth_error (bitmap_set_run bm (Z.of_nat s) n v) j =
  if (s <=? j)%nat && (j <? s + n)%nat
  then option_map (fun _ => v) (nth_error bm j)
  else nth_error bm j.
Proof.
  revert bm s. induction n as [| n IH]; intros bm s; simpl.
  - destruct (Nat.leb_spec s j), (Nat.ltb_spec j (s + 0)); simpl;
      try reflexivity; lia.
  - replace (Z.of_nat s + 1) with (Z.of_nat (S s)) by lia.
    rewrite IH, bitmap_set_nat, nth_error_set_nth.
    destruct (Nat.eqb_spec j s) as [-> | Hne].
    + destruct (Nat.leb_spec (S s) s); [lia |].
      destruct (Nat.leb_spec s s); [| lia].
      destruct (Nat.ltb_spec s (s + S n)); [| lia]. reflexivity.
    + destruct (Nat.leb_spec (S s) j), (Nat.leb_spec s j),
        (Nat.ltb_spec j (S s + n)), (Nat.ltb_spec j (s + S n)); simpl;
        try reflexivity; lia.
Qed.

Lemma free_run_bound (bm : bitmap) (s n : nat) :
  free_run bm s n -> (0 < n)%nat -> (s + n <= length bm)%nat.
Proof.
  intros H Hn. specialize (H (n - 1)%nat ltac:(lia)).
  assert (nth_error bm (s + (n - 1)) <> None) as Hs by congruence.
  apply nth_error_Some in Hs. lia.
Qed.

(* ================================================================= *)
(** ** Reserving kernel virtual pages *)

(** C7.  Reservation in the kernel tracker, whose range lies inside the
    32-bit address space.  When a run of [pg_cnt] clear bits exists,
    [vaddr_get PF_KERNEL] sets the bits of one such run, leaves every
    other bit and the rest of the state alone, and returns the tracker
    base plus the start index times the page size.  When no run exists it
    returns [NULL] and the state, tracker included, is unchanged. *)
Theorem vaddr_get_kernel (st : state) (pg_cnt : Z) :
  let tr := kernel_vaddr st in
  let bm := vaddr_bitmap tr in
  let n := Z.to_nat pg_cnt in
  0 <= vaddr_start tr < 2 ^ 32 ->
  vaddr_start tr + Z.of_nat (length bm) * PG_SIZE <= 2 ^ 32 ->
  ((exists s, free_run bm s n) ->
   exists (s : nat) (st' : state),
     free_run bm s n /\
     vaddr_get PF_KERNEL pg_cnt st
     = Ok (vaddr_start tr + Z.of_nat s * PG_SIZE) st' /\
     (forall k, (s <= k < s + n)%nat ->
                nth_error (vaddr_bitmap (kernel_vaddr st')) k = Some true) /\
     (forall k, ~ (s <= k < s + n)%nat ->
                nth_error (vaddr_bitmap (kernel_vaddr st')) k
                = nth_error bm k) /\
     st' = set_tracker_bitmap PF_KERNEL (vaddr_bitmap (kernel_vaddr st')) st)
  /\
  ((~ exists s, free_run bm s n) ->
   vaddr_get PF_KERNEL pg_cnt st = Ok NULL st).
Proof.
  intros tr bm n Hbase Hfit. unfold vaddr_get. simpl get_tracker.
  fold tr. fold bm.
  destruct (Z.eqb_spec (bitmap_scan bm pg_cnt) (-1)) as [Hnone | Hsome].
  - split; [| reflexivity].
    intros [s Hs]. exfalso. exact (bitmap_scan_none bm pg_cnt Hnone s Hs).
  - destruct (bitmap_scan_found bm pg_cnt Hsome) as (s & Hs & Hrun & _).
    fold n in Hrun. split.
    + intros _. rewrite Hs. eexists s, _.
      split; [exact Hrun |]. split; [| split; [| split]].
      * f_equal. apply wrap32_small. unfold PG_SIZE in *.
        destruct (Nat.eq_dec n 0) as [Hn0 | Hn0].
        -- assert (s = 0%nat) as ->.
           { destruct s as [| s]; [reflexivity | exfalso].
             unfold bitmap_scan in Hs. fold n in Hs. rewrite Hn0 in Hs.
             destruct bm; simpl in Hs; lia. }
           lia.
        -- pose proof (free_run_bound bm s n Hrun ltac:(lia)). lia.
      * intros k Hk. simpl. fold n. rewrite nth_error_set_run.
        destruct (Nat.leb_spec s k); [| lia].
        destruct (Nat.ltb_spec k (s + n)); [| lia]. simpl.
        specialize (Hrun (k - s)%nat ltac:(lia)).
        replace (s + (k - s))%nat with k in Hrun by lia.
        fold bm. rewrite Hrun. reflexivity.
      * intros k Hk. simpl. fold n. rewrite nth_error_set_run.
        destruct (Nat.leb_spec s k), (Nat.ltb_spec k (s + n)); simpl;
          try reflexivity; lia.
      * reflexivity.
    + intros Hno. exfalso. apply Hno. exists s. exact Hrun.
Qed.

Lemma vaddr_get_kernel_witness :
  ((exists s, free_run (vaddr_bitmap (kernel_vaddr kernel_machine)) s
                (Z.to_nat 3)) ->
   exists (s : nat) (st' : state),
     free_run (vaddr_bitmap (kernel_vaddr kernel_machine)) s (Z.to_nat 3) /\
     vaddr_get PF_KERNEL 3 kernel_machine
     = Ok (vaddr_start (kernel_vaddr kernel_machine) + Z.of_nat s * PG_SIZE)
         st' /\
     (forall k, (s <= k < s + Z.to_nat 3)%nat ->
        nth_error (vaddr_bitmap (kernel_vaddr st')) k = Some true) /\
     (forall k, ~ (s <= k < s + Z.to_nat 3)%nat ->
        nth_error (vaddr_bitmap (kernel_vaddr st')) k
        = nth_error (vaddr_bitmap (kernel_vaddr kernel_machine)) k) /\
     st' = set_tracker_bitmap PF_KERNEL (vaddr_bitmap (kernel_vaddr st'))
             kernel_machine)
  /\
  ((~ exists s, free_run (vaddr_bitmap (kernel_vaddr kernel_machine)) s
                  (Z.to_nat 3)) ->
   vaddr_get PF_KERNEL 3 kernel_machine = Ok NULL kernel_machine).
Proof.
  apply (vaddr_get_kernel kernel_machine 3).
  - vm_compute. split; [discriminate | reflexivity].
  - vm_compute. discriminate.
Defined.

(* ================================================================= *)
(** ** Frames and table entries: how one step changes the state *)

Lemma palloc_cases (m_pool : pool_id) (st : state) :
  (bitmap_scan (pool_bitmap (get_pool m_pool st)) 1 = -1 /\
   palloc m_pool st = Ok NULL st) \/
  (exists i : nat,
     bitmap_scan (pool_bitmap (get_pool m_pool st)) 1 = Z.of_nat i /\
     bit_free (pool_bitmap (get_pool m_pool st)) i /\
     palloc m_pool st
     = Ok (frame_addr (get_pool m_pool st) i)
         (set_pool_bitmap m_pool
            (set_nth (pool_bitmap (get_pool m_pool st)) i true) st)).
Proof.
  unfold palloc.
  destruct (Z.eqb_spec (bitmap_scan (pool_bitmap (get_pool m_pool st)) 1) (-1))
    as [E | E].
  - left. split; [exact E | reflexivity].
  - right. destruct (bitmap_scan_found _ _ E) as (i & Hi & Hrun & _).
    exists i. split; [exact Hi |]. split.
    + specialize (Hrun 0%nat). simpl in Hrun.
      rewrite Nat.add_0_r in Hrun. apply Hrun. lia.
    + rewrite Hi, bitmap_set_nat. reflexivity.
Qed.

Lemma page_table_add_cases (v p : Z) (st st' : state) :
  page_table_add v p st = Ok tt st' ->
  (present (mem st (pde_ptr v)) = true /\
   present (mem st (pte_ptr v)) = false /\
   st' = store (pte_ptr v) (entry_of p) st) \/
  (present (mem st (pde_ptr v)) = false /\
   exists f st1,
     palloc KernelPool st = Ok f st1 /\
     st' = store (pte_ptr v) (entry_of p)
             (memset0 (Z.land (pte_ptr v) 0xfffff000) PG_SIZE
                (store (pde_ptr v) (entry_of f) st1))).
Proof.
  unfold page_table_add, bind, get_state.
  destruct (present (mem st (pde_ptr v))) eqn:Hpde.
  - destruct (present (mem st (pte_ptr v))) eqn:Hpte; simpl.
    + discriminate.
    + unfold modify. intros H. injection H as <-. left. auto.
  - destruct (palloc KernelPool st) as [f st1 | |] eqn:Hpal;
      [| discriminate | discriminate].
    unfold modify, ASSERT, store, memset0, set_mem; cbn [mem].
    rewrite (pte_in_own_page v).
    change (negb (present 0)) with true. cbv iota.
    intros H. injection H as <-. right. split; [reflexivity |].
    exists f, st1. auto.
Qed.

Lemma page_table_add_returns (v p : Z) (st : state) :
  unmapped v st -> exists st', page_table_add v p st = Ok tt st'.
Proof.
  unfold unmapped. intros Hfree.
  unfold page_table_add, bind, get_state.
  destruct (present (mem st (pde_ptr v))) eqn:Hpde.
  - simpl in Hfree. rewrite Hfree. simpl. eexists. reflexivity.
  - destruct (palloc_cases KernelPool st) as [[_ E] | (i & _ & _ & E)];
      rewrite E; unfold modify, ASSERT, store, memset0, set_mem; cbn [mem];
      rewrite (pte_in_own_page v); change (negb (present 0)) with true;
      cbv iota; eexists; reflexivity.
Qed.

Lemma page_table_add_entry (v p : Z) (st st' : state) :
  page_table_add v p st = Ok tt st' -> mem st' (pte_ptr v) = entry_of p.
Proof.
  intros H.
  destruct (page_table_add_cases v p st st' H)
    as [(_ & _ & ->) | (_ & f & st1 & _ & ->)];
    unfold store, set_mem; simpl; rewrite Z.eqb_refl; reflexivity.
Qed.

Lemma addr_v2p_entry (v p : Z) (st : state) :
  0 <= p < 2 ^ 32 -> p mod PG_SIZE = 0 ->
  mem st (pte_ptr v) = entry_of p ->
  addr_v2p v st = p + Z.land v 0x00000fff.
Proof.
  intros Hp Ha E. unfold addr_v2p. rewrite E, entry_of_frame by assumption.
  reflexivity.
Qed.

Lemma bits_grow_refl (bm : bitmap) : bits_grow bm bm.
Proof. split; auto. Qed.

Lemma bits_grow_trans (a b c : bitmap) :
  bits_grow a b -> bits_grow b c -> bits_grow a c.
Proof.
  intros [H1 H2] [H3 H4]. split; [congruence | auto].
Qed.

Lemma bits_grow_set (bm : bitmap) (i : nat) : bits_grow bm (set_nth bm i true).
Proof.
  split; [symmetry; apply set_nth_length |].
  unfold bit_used. intros j Hj. rewrite nth_error_set_nth.
  destruct (Nat.eqb j i); [rewrite Hj |]; auto.
Qed.

Lemma bits_grow_free (bm bm' : bitmap) (j : nat) :
  bits_grow bm bm' -> bit_free bm' j -> bit_free bm j.
Proof.
  unfold bit_free, bit_used. intros [Hlen Hg] Hf.
  destruct (nth_error bm j) as [[|] |] eqn:E.
  - rewrite (Hg j E) in Hf. discriminate.
  - reflexivity.
  - apply nth_error_None in E.
    assert (nth_error bm' j <> None) as Hs by congruence.
    apply nth_error_Some in Hs. lia.
Qed.

Lemma set_nth_used (bm : bitmap) (i : nat) :
  bit_free bm i -> bit_used (set_nth bm i true) i.
Proof.
  unfold bit_free, bit_used. intros H.
  rewrite nth_error_set_nth, Nat.eqb_refl, H. reflexivity.
Qed.

Lemma pools_grow_refl (st : state) : pools_grow st st.
Proof.
  repeat split; auto.
Qed.

Lemma pools_grow_trans (a b c : state) :
  pools_grow a b -> pools_grow b c -> pools_grow a c.
Proof.
  intros (H1 & H2 & H3 & H4) (K1 & K2 & K3 & K4).
  repeat split; try congruence;
    destruct (H4 p) as (? & ? & [? ?]), (K4 p) as (? & ? & [? ?]);
    try congruence; auto.
Qed.

Lemma pools_grow_set_pool (m_pool : pool_id) (i : nat) (st : state) :
  pools_grow st
    (set_pool_bitmap m_pool (set_nth (pool_bitmap (get_pool m_pool st)) i true)
       st).
Proof.
  destruct m_pool; repeat split; try reflexivity;
    destruct p; simpl; try reflexivity;
    try (symmetry; apply set_nth_length);
    try (apply bits_grow_set); auto.
Qed.

Lemma pools_grow_mem (st st' : state) (m : Z -> Z) (h : Z -> arena) :
  pools_grow st st' ->
  pools_grow st
    (mkState (kernel_pool st') (user_pool st') (kernel_vaddr st')
       (k_block_descs st') (cur st') m h).
Proof.
  intros (H1 & H2 & H3 & H4). repeat split; simpl; auto;
    destruct (H4 p) as (? & ? & [? ?]); destruct p; simpl in *; auto.
Qed.

Lemma palloc_grows (m_pool : pool_id) (f : Z) (st st' : state) :
  palloc m_pool st = Ok f st' -> pools_grow st st'.
Proof.
  destruct (palloc_cases m_pool st) as [[_ E] | (i & _ & _ & E)];
    rewrite E; intros H; injection H as _ <-.
  - apply pools_grow_refl.
  - apply pools_grow_set_pool.
Qed.

Lemma palloc_mem (m_pool : pool_id) (f : Z) (st st' : state) :
  palloc m_pool st = Ok f st' -> mem st' = mem st /\ arenas st' = arenas st.
Proof.
  destruct (palloc_cases m_pool st) as [[_ E] | (i & _ & _ & E)];
    rewrite E; intros H; injection H as _ <-; destruct m_pool; auto.
Qed.

Lemma page_table_add_grows (v p : Z) (st st' : state) :
  page_table_add v p st = Ok tt st' -> pools_grow st st'.
Proof.
  intros H.
  destruct (page_table_add_cases v p st st' H)
    as [(_ & _ & ->) | (_ & f & st1 & Hp & ->)].
  - apply (pools_grow_mem st st). apply pools_grow_refl.
  - apply palloc_grows in Hp.
    apply (pools_grow_mem st st1). exact Hp.
Qed.

(* ================================================================= *)
(** ** Backing one address: [get_a_page] *)

(** A [vaddr] on the first page of the tracker's range has bit index 0. *)
Lemma first_page_bit_idx (st : state) (pf : pool_flags) (vaddr : Z) :
  0 <= vaddr_start (get_tracker pf st) ->
  vaddr_start (get_tracker pf st) <= vaddr
  < vaddr_start (get_tracker pf st) + PG_SIZE ->
  vaddr < 2 ^ 32 ->
  page_bit_idx pf vaddr st = 0.
Proof.
  unfold page_bit_idx, PG_SIZE. intros H0 H1 H2.
  rewrite wrap32_small by lia. apply Z.div_small. lia.
Qed.

(** C10.  With matching context and pool kind, a [vaddr] on the first
    page of the owner's range (bit index 0) fails the assertion
    [bit_idx > 0]: the call stops the kernel. *)
Theorem get_a_page_first_page_panics (st : state) (pf : pool_flags)
    (vaddr : Z) :
  context_matches pf st ->
  page_bit_idx pf vaddr st = 0 ->
  get_a_page pf vaddr st = Panic.
Proof.
  intros [[Hctx ->] | [Hctx ->]] Hidx;
    unfold get_a_page, bind, get_state; simpl.
  - destruct (Z.eqb_spec (pgdir (cur st)) NULL); [contradiction |]. simpl.
    rewrite Hidx. reflexivity.
  - destruct (Z.eqb_spec (pgdir (cur st)) NULL); [| contradiction]. simpl.
    rewrite Hidx. reflexivity.
Qed.

Lemma get_a_page_first_page_panics_witness :
  get_a_page PF_KERNEL K_HEAP_START kernel_machine = Panic.
Proof.
  apply get_a_page_first_page_panics.
  - right. split; reflexivity.
  - reflexivity.
Defined.

(** C6 as stated fails.  A kernel thread asks for a kernel page: with
    no kernel frame left [get_a_page] returns [NULL], not the address; for
    the first page of the range it stops at [ASSERT(bit_idx > 0)]; and for
    a page it has just backed it stops at the assertion of
    [page_table_add] that the entry is not present. *)
Lemma get_a_page_exhausted_counterexample :
  context_matches PF_KERNEL exhausted_machine /\
  context_matches PF_KERNEL kernel_machine /\
  K_HEAP_START + PG_SIZE <> NULL /\
  (exists st',
     get_a_page PF_KERNEL (K_HEAP_START + PG_SIZE) exhausted_machine
     = Ok NULL st') /\
  get_a_page PF_KERNEL K_HEAP_START kernel_machine = Panic /\
  (exists st',
     get_a_page PF_KERNEL (K_HEAP_START + PG_SIZE) kernel_machine
     = Ok (K_HEAP_START + PG_SIZE) st' /\
     get_a_page PF_KERNEL (K_HEAP_START + PG_SIZE) st' = Panic).
Proof.
  split; [right; split; reflexivity |].
  split; [right; split; reflexivity |].
  split; [discriminate |].
  split; [eexists; reflexivity |].
  split; [reflexivity |].
  eexists. split; reflexivity.
Qed.

(** C6, amended.  With matching context and pool kind, a bit index above
    0, a free frame at a non-null address in the pool of that kind and
    the table entry of [vaddr] not present, [get_a_page] marks the tracker
    bit of [vaddr], takes that one frame, writes the table entry of
    [vaddr] for it and returns [vaddr].  With mixed kinds it stops the
    kernel. *)
Theorem get_a_page_backs (st : state) (pf : pool_flags) (vaddr : Z) :
  (context_matches pf st ->
   0 < page_bit_idx pf vaddr st ->
   unmapped vaddr st ->
   forall i : nat,
     bitmap_scan (pool_bitmap (get_pool (pool_of pf) st)) 1 = Z.of_nat i ->
     frame_addr (get_pool (pool_of pf) st) i <> NULL ->
     exists st',
       get_a_page pf vaddr st = Ok vaddr st' /\
       vaddr_bitmap (get_tracker pf st')
       = bitmap_set (vaddr_bitmap (get_tracker pf st))
           (page_bit_idx pf vaddr st) true /\
       bit_free (pool_bitmap (get_pool (pool_of pf) st)) i /\
       bit_used (pool_bitmap (get_pool (pool_of pf) st')) i /\
       mem st' (pte_ptr vaddr)
       = entry_of (frame_addr (get_pool (pool_of pf) st) i))
  /\
  (~ context_matches pf st -> get_a_page pf vaddr st = Panic).
Proof.
  split.
  - intros Hctx Hidx Hfree i Hscan Hnz.
    set (st0 := set_tracker_bitmap pf
                  (bitmap_set (vaddr_bitmap (get_tracker pf st))
                     (page_bit_idx pf vaddr st) true) st).
    assert (Hpool0 : get_pool (pool_of pf) st0 = get_pool (pool_of pf) st)
      by (destruct pf; reflexivity).
    assert (Hmem0 : mem st0 = mem st) by (destruct pf; reflexivity).
    destruct (palloc_cases (pool_of pf) st0) as [[E _] | (j & Ej & Hjfree & Hp)].
    { rewrite Hpool0 in E. lia. }
    rewrite Hpool0 in Ej, Hjfree, Hp.
    assert (j = i) as -> by lia.
    set (st1 := set_pool_bitmap (pool_of pf)
                  (set_nth (pool_bitmap (get_pool (pool_of pf) st)) i true) st0)
      in Hp.
    assert (Hun1 : unmapped vaddr st1).
    { unfold unmapped in *.
      replace (mem st1) with (mem st); [exact Hfree |].
      unfold st1. destruct pf; simpl; symmetry; exact Hmem0. }
    destruct (page_table_add_returns vaddr
                (frame_addr (get_pool (pool_of pf) st) i) st1 Hun1)
      as [st' Hadd].
    exists st'. split; [| split; [| split; [| split]]].
    + apply Z.ltb_lt in Hidx. apply Z.eqb_neq in Hnz.
      unfold get_a_page, bind, get_state.
      destruct Hctx as [[Hc ->] | [Hc ->]];
        destruct (Z.eqb_spec (pgdir (cur st)) NULL); try contradiction; simpl;
        unfold ASSERT, modify; rewrite Hidx;
        [change (palloc UserPool _) with (palloc (pool_of PF_USER) st0)
        | change (palloc KernelPool _) with (palloc (pool_of PF_KERNEL) st0)];
        rewrite Hp, Hnz, Hadd; reflexivity.
    + destruct (page_table_add_grows _ _ _ _ Hadd) as (Hkv & Hcur & _).
      destruct pf; simpl; [rewrite Hkv | rewrite Hcur]; reflexivity.
    + exact Hjfree.
    + destruct (page_table_add_grows _ _ _ _ Hadd) as (_ & _ & _ & Hpools).
      destruct (Hpools (pool_of pf)) as (_ & _ & [_ Hg]).
      apply Hg. unfold st1.
      replace (pool_bitmap (get_pool (pool_of pf)
                 (set_pool_bitmap (pool_of pf)
                    (set_nth (pool_bitmap (get_pool (pool_of pf) st)) i true)
                    st0)))
        with (set_nth (pool_bitmap (get_pool (pool_of pf) st)) i true)
        by (destruct pf; reflexivity).
      apply set_nth_used. exact Hjfree.
    + apply (page_table_add_entry _ _ _ _ Hadd).
  - intros Hmix. unfold get_a_page, bind, get_state.
    destruct pf; simpl;
      destruct (Z.eqb_spec (pgdir (cur st)) NULL) as [Hn | Hn]; simpl;
      try reflexivity; exfalso; apply Hmix; [right | left]; auto.
Qed.

Lemma get_a_page_backs_witness :
  (exists st',
     get_a_page PF_KERNEL (K_HEAP_START + PG_SIZE) kernel_machine
     = Ok (K_HEAP_START + PG_SIZE) st' /\
     vaddr_bitmap (get_tracker PF_KERNEL st')
     = bitmap_set (vaddr_bitmap (get_tracker PF_KERNEL kernel_machine))
         (page_bit_idx PF_KERNEL (K_HEAP_START + PG_SIZE) kernel_machine)
         true /\
     bit_free (pool_bitmap (get_pool (pool_of PF_KERNEL) kernel_machine)) 0 /\
     bit_used (pool_bitmap (get_pool (pool_of PF_KERNEL) st')) 0 /\
     mem st' (pte_ptr (K_HEAP_START + PG_SIZE))
     = entry_of (frame_addr (get_pool (pool_of PF_KERNEL) kernel_machine) 0))
  /\ get_a_page PF_KERNEL (K_HEAP_START + PG_SIZE) user_machine = Panic.
Proof.
  split.
  - apply (proj1 (get_a_page_backs kernel_machine PF_KERNEL
                    (K_HEAP_START + PG_SIZE))).
    + right. split; reflexivity.
    + reflexivity.
    + reflexivity.
    + reflexivity.
    + discriminate.
  - apply (proj2 (get_a_page_backs user_machine PF_KERNEL
                    (K_HEAP_START + PG_SIZE))).
    intros [[_ H] | [H _]]; discriminate.
Defined.

(* ================================================================= *)
(** ** [sys_malloc]: rejection, size classes, the two paths *)

(** C8.  A request of 0 bytes, or of at least the byte capacity of the
    pool selected for the caller, makes [sys_malloc] return [NULL] and
    leaves the whole state as it was. *)
Theorem sys_malloc_rejects (st : state) (size : Z) :
  size = 0 \/ pool_size (get_pool (pool_of (owner_flags st)) st) <= size ->
  sys_malloc size st = Ok NULL st.
Proof.
  intros H. unfold sys_malloc, bind, get_state.
  destruct (Z.ltb_spec 0 size) as [Hpos | Hnpos];
    destruct (Z.ltb_spec size
                (pool_size (get_pool (pool_of (owner_flags st)) st)));
    simpl; try reflexivity; lia.
Qed.

Lemma sys_malloc_rejects_witness :
  sys_malloc 0 kernel_machine = Ok NULL kernel_machine /\
  sys_malloc (16 * PG_SIZE) user_machine = Ok NULL user_machine.
Proof.
  split; apply sys_malloc_rejects; [left; reflexivity | right].
  vm_compute. discriminate.
Defined.

Lemma classes_initialised_shape (descs : list mem_block_desc) :
  classes_initialised descs ->
  exists l0 l1 l2 l3 l4 l5 l6,
    descs = [mkDesc 16 255 l0; mkDesc 32 127 l1; mkDesc 64 63 l2;
             mkDesc 128 31 l3; mkDesc 256 15 l4; mkDesc 512 7 l5;
             mkDesc 1024 3 l6].
Proof.
  intros [Hs Hb]. vm_compute in Hs, Hb.
  do 7 (destruct descs as [| [? ? ?] descs]; [discriminate |]).
  destruct descs; [| discriminate].
  injection Hs as -> -> -> -> -> -> ->.
  injection Hb as -> -> -> -> -> -> ->.
  repeat eexists.
Qed.

(** C9.  Size-class monotonicity.  Over the classes 16, 32, ..., 1024
    of [block_desc_init], the class the search loop of [sys_malloc]
    settles on for [s1] is not larger than the one for [s2] when
    [s1 < s2 <= 1024]; both classes hold their request. *)
Theorem size_class_monotone (descs : list mem_block_desc) (s1 s2 : Z) :
  classes_initialised descs ->
  s1 < s2 -> s2 <= 1024 ->
  exists d1 d2,
    chosen_desc descs s1 = Some d1 /\
    chosen_desc descs s2 = Some d2 /\
    s1 <= block_size d1 /\ s2 <= block_size d2 /\
    block_size d1 <= block_size d2.
Proof.
  intros Hinit Hlt Hmax.
  destruct (classes_initialised_shape descs Hinit)
    as (l0 & l1 & l2 & l3 & l4 & l5 & l6 & ->).
  unfold chosen_desc, DESC_CNT. simpl.
  repeat match goal with
         | |- context [?a <=? ?b] => destruct (Z.leb_spec a b); simpl
         end;
    try lia; do 2 eexists; repeat split; simpl; lia.
Qed.

Lemma size_class_monotone_witness :
  exists d1 d2,
    chosen_desc block_desc_init 40 = Some d1 /\
    chosen_desc block_desc_init 65 = Some d2 /\
    40 <= block_size d1 /\ 65 <= block_size d2 /\
    block_size d1 <= block_size d2.
Proof.
  apply size_class_monotone; [split; reflexivity | lia | lia].
Defined.

(* ================================================================= *)
(** ** Mappings below the table window survive later installations *)

Lemma pte_below_pde (v : Z) :
  0 <= v < TABLE_WINDOW -> pte_ptr v < 0xfffff000.
Proof.
  unfold TABLE_WINDOW. intros H. rewrite pte_ptr_wrap, wrap32_small by lia.
  Z.div_mod_to_equations. lia.
Qed.

Lemma pte_page_arith (v : Z) :
  0 <= v < 2 ^ 32 ->
  Z.land (pte_ptr v) 0xfffff000 = 0xffc00000 + 4096 * (v / 4194304).
Proof.
  intros H. rewrite land_frame32 by (pose proof (pte_ptr_range v); lia).
  rewrite pte_ptr_wrap, wrap32_small by lia.
  Z.div_mod_to_equations. lia.
Qed.

Lemma page_table_add_maps (v p : Z) (st st' : state) :
  page_table_add v p st = Ok tt st' ->
  0 <= v < TABLE_WINDOW ->
  maps_to st' v p.
Proof.
  intros H Hv. pose proof (pte_below_pde v Hv) as Hlt.
  pose proof (pde_ptr_range v) as Hpde.
  unfold TABLE_WINDOW in Hv.
  destruct (page_table_add_cases v p st st' H)
    as [(Hp & _ & ->) | (_ & f & st1 & _ & ->)].
  - unfold maps_to, store, set_mem, memset0. cbn [mem]. rewrite !Z.eqb_refl.
    destruct (Z.eqb_spec (pde_ptr v) (pte_ptr v)); [lia |]. auto.
  - unfold maps_to, store, set_mem, memset0. cbn [mem]. rewrite !Z.eqb_refl.
    destruct (Z.eqb_spec (pde_ptr v) (pte_ptr v)); [lia |].
    split; [| reflexivity].
    rewrite pte_page_arith by lia. unfold PG_SIZE.
    destruct (Z.leb_spec (0xffc00000 + 4096 * (v / 4194304)) (pde_ptr v));
      destruct (Z.ltb_spec (pde_ptr v)
                  (0xffc00000 + 4096 * (v / 4194304) + 4096)); cbn [andb];
      try apply entry_of_present.
    exfalso. clear - Hv Hpde H1. Z.div_mod_to_equations. lia.
Qed.

Lemma page_table_add_keeps (v p : Z) (st st' : state) (u f : Z) :
  page_table_add v p st = Ok tt st' ->
  0 <= v < TABLE_WINDOW ->
  0 <= u < TABLE_WINDOW ->
  u / PG_SIZE <> v / PG_SIZE ->
  maps_to st u f -> maps_to st' u f.
Proof.
  intros H Hv Hu Hne [Hupde Hupte].
  pose proof (pte_below_pde v Hv) as Hvlt.
  pose proof (pte_below_pde u Hu) as Hult.
  pose proof (pde_ptr_range v) as Hpdev.
  pose proof (pde_ptr_range u) as Hpdeu.
  unfold TABLE_WINDOW, PG_SIZE in *.
  assert (Hptes : pte_ptr u <> pte_ptr v).
  { rewrite !pte_ptr_wrap, !wrap32_small by lia. lia. }
  destruct (page_table_add_cases v p st st' H)
    as [(Hp & _ & ->) | (Hp & f' & st1 & Hpal & ->)];
    unfold maps_to, store, set_mem, memset0; cbn [mem].
  - destruct (Z.eqb_spec (pde_ptr u) (pte_ptr v)); [lia |].
    destruct (Z.eqb_spec (pte_ptr u) (pte_ptr v)); [lia |]. auto.
  - destruct (palloc_mem _ _ _ _ Hpal) as [Hm _]. rewrite Hm.
    assert (Hpdes : pde_ptr u <> pde_ptr v) by congruence.
    assert (Hpages : u / 4194304 <> v / 4194304).
    { rewrite !pde_ptr_wrap, !wrap32_small in Hpdes by lia. lia. }
    rewrite pte_page_arith by lia. unfold PG_SIZE.
    destruct (Z.eqb_spec (pde_ptr u) (pte_ptr v)); [lia |].
    destruct (Z.eqb_spec (pte_ptr u) (pte_ptr v)); [lia |].
    destruct (Z.eqb_spec (pde_ptr u) (pde_ptr v)); [lia |].
    destruct (Z.eqb_spec (pte_ptr u) (pde_ptr v)); [lia |].
    assert (Hout1 : (0xffc00000 + 4096 * (v / 4194304) <=? pde_ptr u)
                    && (pde_ptr u <? 0xffc00000 + 4096 * (v / 4194304) + 4096)
                    = false).
    { apply andb_false_iff. right. apply Z.ltb_ge.
      clear - Hv Hpdeu. Z.div_mod_to_equations. lia. }
    assert (Hout2 : (0xffc00000 + 4096 * (v / 4194304) <=? pte_ptr u)
                    && (pte_ptr u <? 0xffc00000 + 4096 * (v / 4194304) + 4096)
                    = false).
    { rewrite pte_ptr_wrap, wrap32_small by lia.
      destruct (Z.leb_spec (0xffc00000 + 4096 * (v / 4194304))
                  (0xffc00000 + 4 * (u / 4096)));
        destruct (Z.ltb_spec (0xffc00000 + 4 * (u / 4096))
                    (0xffc00000 + 4096 * (v / 4194304) + 4096));
        try reflexivity.
      exfalso. apply Hpages. clear - Hu Hv H0 H1.
      Z.div_mod_to_equations. lia. }
    rewrite Hout1, Hout2. auto.
Qed.

(* ================================================================= *)
(** ** The mapping loop of [malloc_page] *)

Lemma frame_addr_grow (p : pool_id) (i : nat) (st st' : state) :
  pools_grow st st' ->
  frame_addr (get_pool p st') i = frame_addr (get_pool p st) i.
Proof.
  intros (_ & _ & _ & H). destruct (H p) as (E & _ & _).
  unfold frame_addr. rewrite E. reflexivity.
Qed.

Lemma pools_grow_used (p : pool_id) (i : nat) (st st' : state) :
  pools_grow st st' ->
  bit_used (pool_bitmap (get_pool p st)) i ->
  bit_used (pool_bitmap (get_pool p st')) i.
Proof.
  intros (_ & _ & _ & H). destruct (H p) as (_ & _ & [_ Hg]). apply Hg.
Qed.

Lemma pools_grow_free (p : pool_id) (i : nat) (st st' : state) :
  pools_grow st st' ->
  bit_free (pool_bitmap (get_pool p st')) i ->
  bit_free (pool_bitmap (get_pool p st)) i.
Proof.
  intros (_ & _ & _ & H). destruct (H p) as (_ & _ & Hg).
  apply bits_grow_free. exact Hg.
Qed.

Lemma pools_grow_tracker (pf : pool_flags) (st st' : state) :
  pools_grow st st' -> get_tracker pf st' = get_tracker pf st.
Proof.
  intros (Hk & Hc & _). destruct pf; cbn [get_tracker]; congruence.
Qed.

(** One round of the loop, taken apart. *)
Lemma malloc_page_loop_step (mem_pool : pool_id) (cnt : nat) (v : Z)
    (ok : bool) (st st' : state) :
  malloc_page_loop mem_pool (S cnt) v st = Ok ok st' ->
  (ok = false /\ palloc mem_pool st = Ok NULL st') \/
  (exists (i : nat) (sta stb : state),
     bit_free (pool_bitmap (get_pool mem_pool st)) i /\
     frame_addr (get_pool mem_pool st) i <> NULL /\
     palloc mem_pool st = Ok (frame_addr (get_pool mem_pool st) i) sta /\
     bit_used (pool_bitmap (get_pool mem_pool sta)) i /\
     page_table_add v (frame_addr (get_pool mem_pool st) i) sta = Ok tt stb /\
     malloc_page_loop mem_pool cnt (wrap32 (v + PG_SIZE)) stb = Ok ok st').
Proof.
  cbn [malloc_page_loop]. unfold bind at 1.
  destruct (palloc_cases mem_pool st) as [[_ E] | (i & _ & Hfree & E)];
    rewrite E.
  - rewrite Z.eqb_refl. unfold ret. intros H. injection H as <- <-. left. auto.
  - destruct (Z.eqb_spec (frame_addr (get_pool mem_pool st) i) NULL)
      as [Hz | Hnz].
    + unfold ret. intros H. injection H as <- <-. left.
      split; [reflexivity |]. rewrite <- Hz at 1. reflexivity.
    + unfold bind.
      destruct (page_table_add v (frame_addr (get_pool mem_pool st) i) _)
        as [[] stb | |] eqn:Hadd; [| discriminate | discriminate].
      intros H. right.
      exists i, (set_pool_bitmap mem_pool
                   (set_nth (pool_bitmap (get_pool mem_pool st)) i true) st),
        stb.
      repeat split; try assumption.
      destruct mem_pool; cbn [get_pool set_pool_bitmap kernel_pool user_pool
                               pool_bitmap];
        apply set_nth_used; exact Hfree.
Qed.

Lemma malloc_page_loop_grows (mem_pool : pool_id) (cnt : nat) (v : Z)
    (ok : bool) (st st' : state) :
  malloc_page_loop mem_pool cnt v st = Ok ok st' -> pools_grow st st'.
Proof.
  revert v st. induction cnt as [| cnt IH]; intros v st H.
  - injection H as _ <-. apply pools_grow_refl.
  - destruct (malloc_page_loop_step _ _ _ _ _ _ H)
      as [[_ Hp] | (i & sta & stb & _ & _ & Hp & _ & Hadd & Hloop)].
    + exact (palloc_grows _ _ _ _ Hp).
    + eapply pools_grow_trans; [exact (palloc_grows _ _ _ _ Hp) |].
      eapply pools_grow_trans; [exact (page_table_add_grows _ _ _ _ Hadd) |].
      exact (IH _ _ Hloop).
Qed.

Lemma maps_to_mem (st st' : state) (u f : Z) :
  mem st' = mem st -> maps_to st u f -> maps_to st' u f.
Proof. unfold maps_to. intros ->. auto. Qed.

Lemma malloc_page_loop_keeps (mem_pool : pool_id) (cnt : nat) (v : Z)
    (ok : bool) (st st' : state) (u f : Z) :
  malloc_page_loop mem_pool cnt v st = Ok ok st' ->
  0 <= v -> v + Z.of_nat cnt * PG_SIZE <= TABLE_WINDOW ->
  0 <= u -> u + PG_SIZE <= v ->
  maps_to st u f -> maps_to st' u f.
Proof.
  revert v st. induction cnt as [| cnt IH]; intros v st H Hv Hend Hu Hlt Hm.
  - injection H as _ <-. exact Hm.
  - unfold PG_SIZE, TABLE_WINDOW in *.
    destruct (malloc_page_loop_step _ _ _ _ _ _ H)
      as [[_ Hp] | (i & sta & stb & _ & _ & Hp & _ & Hadd & Hloop)].
    + apply (maps_to_mem st); [| exact Hm]. apply (palloc_mem _ _ _ _ Hp).
    + assert (Hma : maps_to sta u f)
        by (apply (maps_to_mem st); [apply (palloc_mem _ _ _ _ Hp) | exact Hm]).
      assert (Hmb : maps_to stb u f).
      { apply (page_table_add_keeps _ _ _ _ _ _ Hadd);
          unfold TABLE_WINDOW, PG_SIZE; try lia; [| exact Hma].
        Z.div_mod_to_equations. lia. }
      rewrite wrap32_small in Hloop by (unfold PG_SIZE; lia).
      apply (IH _ _ Hloop); unfold PG_SIZE; try lia. exact Hmb.
Qed.

(** What the loop leaves behind, whether it ran to its end ([ok]) or
    stopped at a failed [palloc]: the frames it took, in order, each
    still taken and still mapped to its page. *)
Lemma malloc_page_loop_trace (mem_pool : pool_id) (cnt : nat) (v : Z)
    (ok : bool) (st st' : state) :
  malloc_page_loop mem_pool cnt v st = Ok ok st' ->
  0 <= v -> v + Z.of_nat cnt * PG_SIZE <= TABLE_WINDOW ->
  exists idxs : list nat,
    (if ok then length idxs = cnt
     else (length idxs < cnt)%nat /\
          exists stf, palloc mem_pool stf = Ok NULL st') /\
    NoDup idxs /\
    (forall i, In i idxs ->
               bit_free (pool_bitmap (get_pool mem_pool st)) i /\
               bit_used (pool_bitmap (get_pool mem_pool st')) i) /\
    (forall j i, nth_error idxs j = Some i ->
                 maps_to st' (page_of v j)
                   (frame_addr (get_pool mem_pool st) i)).
Proof.
  revert v st. induction cnt as [| cnt IH]; intros v st H Hv Hend.
  - injection H as <- <-. exists [].
    split; [reflexivity |]. split; [constructor |].
    split; [intros i [] |]. intros [| j] i Hj; discriminate.
  - unfold PG_SIZE, TABLE_WINDOW in *.
    destruct (malloc_page_loop_step _ _ _ _ _ _ H)
      as [[-> Hp] | (i & sta & stb & Hfree & Hnz & Hp & Hused & Hadd & Hloop)].
    + exists [].
      split; [split; [cbn [length]; lia | exists st; exact Hp] |].
      split; [constructor |].
      split; [intros i [] |]. intros [| j] i Hj; discriminate.
    + pose proof (palloc_grows _ _ _ _ Hp) as Ga.
      pose proof (page_table_add_grows _ _ _ _ Hadd) as Gb.
      pose proof (malloc_page_loop_grows _ _ _ _ _ _ Hloop) as Gc.
      pose proof (pools_grow_trans _ _ _ Ga Gb) as Gab.
      assert (Hmap : maps_to stb v (frame_addr (get_pool mem_pool st) i))
        by (apply (page_table_add_maps _ _ _ _ Hadd);
            unfold TABLE_WINDOW; lia).
      pose proof Hloop as Hloop'.
      rewrite wrap32_small in Hloop by (unfold PG_SIZE; lia).
      destruct (IH _ _ Hloop ltac:(unfold PG_SIZE; lia)
                  ltac:(unfold PG_SIZE; lia))
        as (idxs & Hlen & Hnd & Hbits & Hmaps).
      exists (i :: idxs). split; [| split; [| split]].
      * destruct ok; cbn [length]; [lia |].
        destruct Hlen as [Hlen Hf]. split; [lia | exact Hf].
      * constructor; [| exact Hnd]. intros Hin.
        destruct (Hbits i Hin) as [Hfb _].
        pose proof (pools_grow_used mem_pool i _ _ Gb Hused) as Hub.
        unfold bit_free, bit_used in *. congruence.
      * intros i' [<- | Hin].
        -- split; [exact Hfree |].
           apply (pools_grow_used mem_pool i _ _ Gc).
           apply (pools_grow_used mem_pool i _ _ Gb). exact Hused.
        -- destruct (Hbits i' Hin) as [Hfb Hu']. split; [| exact Hu'].
           apply (pools_grow_free mem_pool i' _ _ Gab). exact Hfb.
      * intros [| j] i' Hj.
        -- injection Hj as <-. unfold page_of. cbn [Z.of_nat].
           rewrite Z.mul_0_l, Z.add_0_r.
           apply (malloc_page_loop_keeps _ _ _ _ _ _ _ _ Hloop);
             unfold PG_SIZE, TABLE_WINDOW; try lia. exact Hmap.
        -- cbn [nth_error] in Hj. specialize (Hmaps j i' Hj).
           rewrite (frame_addr_grow mem_pool i' _ _ Gab) in Hmaps.
           unfold page_of in *. unfold PG_SIZE in *.
           replace (v + Z.of_nat (S j) * 4096)
             with (v + 4096 + Z.of_nat j * 4096) by lia.
           exact Hmaps.
Qed.

(* ================================================================= *)
(** ** [malloc_page] does not roll back *)

Lemma vaddr_get_found (pf : pool_flags) (pg_cnt v : Z) (st st1 : state) :
  vaddr_get pf pg_cnt st = Ok v st1 ->
  v <> NULL ->
  exists s : nat,
    free_run (vaddr_bitmap (get_tracker pf st)) s (Z.to_nat pg_cnt) /\
    v = wrap32 (vaddr_start (get_tracker pf st) + Z.of_nat s * PG_SIZE) /\
    st1 = set_tracker_bitmap pf
            (bitmap_set_run (vaddr_bitmap (get_tracker pf st)) (Z.of_nat s)
               (Z.to_nat pg_cnt) true) st.
Proof.
  unfold vaddr_get. intros H Hnz.
  destruct (Z.eqb_spec (bitmap_scan (vaddr_bitmap (get_tracker pf st)) pg_cnt)
              (-1)) as [E | E].
  - injection H as <- <-. contradiction.
  - destruct (bitmap_scan_found _ _ E) as (s & Hs & Hrun & _).
    rewrite Hs in H. exists s. split; [exact Hrun |].
    destruct pf.
    + injection H as <- <-. auto.
    + unfold bind, ASSERT, ret in H.
      destruct (_ <? _) in H; [| discriminate].
      injection H as <- <-. auto.
Qed.

Lemma set_run_used (bm : bitmap) (s n j : nat) :
  free_run bm s n -> (s <= j < s + n)%nat ->
  bit_free bm j /\ bit_used (bitmap_set_run bm (Z.of_nat s) n true) j.
Proof.
  intros Hrun Hj. specialize (Hrun (j - s)%nat ltac:(lia)).
  replace (s + (j - s))%nat with j in Hrun by lia.
  split; [exact Hrun |].
  unfold bit_used. rewrite nth_error_set_run.
  destruct (Nat.leb_spec s j); [| lia].
  destruct (Nat.ltb_spec j (s + n)); [| lia].
  cbn [andb]. rewrite Hrun. reflexivity.
Qed.

(** The loop stops at the first [palloc] that answers [NULL]: when the
    first [k] rounds got their frames and the next [palloc] fails, the
    loop answers [false], for any larger count, in the state that
    [palloc] left. *)
Lemma malloc_page_loop_stops (mem_pool : pool_id) (k m : nat) :
  forall (v : Z) (st stk st' : state),
    malloc_page_loop mem_pool k v st = Ok true stk ->
    palloc mem_pool stk = Ok NULL st' ->
    malloc_page_loop mem_pool (k + S m) v st = Ok false st'.
Proof.
  induction k as [| k IH]; intros v st stk st' Hk Hp.
  - injection Hk as <-. cbn [Nat.add malloc_page_loop]. unfold bind.
    rewrite Hp. reflexivity.
  - destruct (malloc_page_loop_step _ _ _ _ _ _ Hk)
      as [[E _] | (i & sta & stb & _ & Hnz & Hpa & _ & Hadd & Hloop)];
      [discriminate |].
    cbn [Nat.add malloc_page_loop]. unfold bind at 1. rewrite Hpa.
    destruct (Z.eqb_spec (frame_addr (get_pool mem_pool st) i) NULL);
      [contradiction |].
    unfold bind at 1. rewrite Hadd. exact (IH _ _ _ _ Hloop Hp).
Qed.

(** C2.  A multi-page allocation in which a frame allocation fails after
    [k] pages were mapped ([k] may be 0, [k < pg_cnt]): the run is
    reserved, the first [k] rounds of the loop get their frames, and the
    next [palloc] answers [NULL].  Then [malloc_page] returns [NULL] and
    nothing is rolled back: every bit of the reserved run is still set in
    the tracker, the [k] frames taken, all different, are still marked
    used in the pool, and the [k] table entries written still map the
    first [k] pages of the run to those frames.  (The run lies below the
    window through which the tables are reached.) *)
Theorem malloc_page_no_rollback (st st1 stk st' : state) (pf : pool_flags)
    (pg_cnt vstart : Z) (k : nat) :
  0 < pg_cnt < 3840 ->
  vaddr_get pf pg_cnt st = Ok vstart st1 ->
  vstart <> NULL ->
  vstart + pg_cnt * PG_SIZE <= TABLE_WINDOW ->
  Z.of_nat k < pg_cnt ->
  malloc_page_loop (pool_of pf) k vstart st1 = Ok true stk ->
  palloc (pool_of pf) stk = Ok NULL st' ->
  malloc_page pf pg_cnt st = Ok NULL st' /\
  exists (s : nat) (idxs : list nat),
    length idxs = k /\
    vstart = wrap32 (vaddr_start (get_tracker pf st) + Z.of_nat s * PG_SIZE) /\
    (forall j, (s <= j < s + Z.to_nat pg_cnt)%nat ->
               bit_free (vaddr_bitmap (get_tracker pf st)) j /\
               bit_used (vaddr_bitmap (get_tracker pf st')) j) /\
    NoDup idxs /\
    (forall i, In i idxs ->
               bit_free (pool_bitmap (get_pool (pool_of pf) st)) i /\
               bit_used (pool_bitmap (get_pool (pool_of pf) st')) i) /\
    (forall j i, nth_error idxs j = Some i ->
                 maps_to st' (page_of vstart j)
                   (frame_addr (get_pool (pool_of pf) st) i)).
Proof.
  intros Hcnt Hres Hnz Hwin Hk Hloop Hpal.
  destruct (vaddr_get_found _ _ _ _ _ Hres Hnz) as (s & Hrun & Hv & Hst1).
  assert (Hpool1 : get_pool (pool_of pf) st1 = get_pool (pool_of pf) st)
    by (rewrite Hst1; destruct pf; reflexivity).
  assert (Hv0 : 0 <= vstart)
    by (rewrite Hv; apply wrap32_range).
  assert (Hfull : malloc_page_loop (pool_of pf) (Z.to_nat pg_cnt) vstart st1
                  = Ok false st').
  { replace (Z.to_nat pg_cnt) with (k + S (Z.to_nat pg_cnt - k - 1))%nat
      by lia.
    exact (malloc_page_loop_stops _ _ _ _ _ _ _ Hloop Hpal). }
  split.
  - unfold malloc_page, bind. unfold ASSERT at 1.
    destruct (Z.ltb_spec 0 pg_cnt); [| lia].
    destruct (Z.ltb_spec pg_cnt 3840); [| lia].
    cbn [andb]. rewrite Hres.
    destruct (Z.eqb_spec vstart NULL); [contradiction |].
    rewrite Hfull. reflexivity.
  - destruct (malloc_page_loop_trace _ _ _ _ _ _ Hloop Hv0
                ltac:(unfold PG_SIZE in *; lia))
      as (idxs & Hlen & Hnd & Hbits & Hmaps).
    pose proof (malloc_page_loop_grows _ _ _ _ _ _ Hloop) as Hg.
    pose proof (palloc_grows _ _ _ _ Hpal) as Hgp.
    destruct (palloc_mem _ _ _ _ Hpal) as [Hmem _].
    exists s, idxs.
    split; [exact Hlen |]. split; [exact Hv |].
    split; [| split; [exact Hnd | split]].
    + intros j Hj.
      rewrite (pools_grow_tracker pf _ _ Hgp), (pools_grow_tracker pf _ _ Hg),
        Hst1.
      replace (vaddr_bitmap (get_tracker pf (set_tracker_bitmap pf _ st)))
        with (bitmap_set_run (vaddr_bitmap (get_tracker pf st)) (Z.of_nat s)
                (Z.to_nat pg_cnt) true)
        by (destruct pf; reflexivity).
      apply set_run_used; assumption.
    + intros i Hi. destruct (Hbits i Hi) as [Hf Hu]. rewrite <- Hpool1.
      split; [exact Hf |]. exact (pools_grow_used _ _ _ _ Hgp Hu).
    + intros j i Hj. rewrite <- Hpool1.
      apply (maps_to_mem stk); [exact Hmem |]. apply Hmaps. exact Hj.
Qed.

Lemma malloc_page_no_rollback_witness :
  exists st1 stk st',
    vaddr_get PF_KERNEL 2 one_frame_machine = Ok K_HEAP_START st1 /\
    malloc_page_loop (pool_of PF_KERNEL) 1 K_HEAP_START st1 = Ok true stk /\
    palloc (pool_of PF_KERNEL) stk = Ok NULL st' /\
    (malloc_page PF_KERNEL 2 one_frame_machine = Ok NULL st' /\
     exists (s : nat) (idxs : list nat),
       length idxs = 1%nat /\
       K_HEAP_START
       = wrap32 (vaddr_start (get_tracker PF_KERNEL one_frame_machine)
                 + Z.of_nat s * PG_SIZE) /\
       (forall j, (s <= j < s + Z.to_nat 2)%nat ->
          bit_free (vaddr_bitmap (get_tracker PF_KERNEL one_frame_machine)) j /\
          bit_used (vaddr_bitmap (get_tracker PF_KERNEL st')) j) /\
       NoDup idxs /\
       (forall i, In i idxs ->
          bit_free
            (pool_bitmap (get_pool (pool_of PF_KERNEL) one_frame_machine)) i /\
          bit_used (pool_bitmap (get_pool (pool_of PF_KERNEL) st')) i) /\
       (forall j i, nth_error idxs j = Some i ->
          maps_to st' (page_of K_HEAP_START j)
            (frame_addr (get_pool (pool_of PF_KERNEL) one_frame_machine) i))) /\
    maps_to st' K_HEAP_START 0x200000 /\
    pool_bitmap (kernel_pool st') = repeat true 16 /\
    vaddr_bitmap (kernel_vaddr st') = true :: true :: repeat false 14.
Proof.
  eexists _, _, _.
  split; [reflexivity |]. split; [reflexivity |]. split; [reflexivity |].
  split.
  - eapply (malloc_page_no_rollback one_frame_machine _ _ _ PF_KERNEL 2
              K_HEAP_START 1).
    + lia.
    + reflexivity.
    + discriminate.
    + vm_compute. discriminate.
    + lia.
    + reflexivity.
    + reflexivity.
  - split; [split; vm_compute; reflexivity |].
    split; vm_compute; reflexivity.
Defined.

(* ================================================================= *)
(** ** What holds of the large path and of [sys_free] for every caller *)

(** [DIV_ROUND_UP x PG_SIZE] is the ceiling of [x / PG_SIZE] as long as
    the sum does not wrap. *)
Lemma DIV_ROUND_UP_ceil (x : Z) :
  0 < x -> x + PG_SIZE - 1 < 2 ^ 32 ->
  (DIV_ROUND_UP x PG_SIZE - 1) * PG_SIZE < x <= DIV_ROUND_UP x PG_SIZE * PG_SIZE.
Proof.
  unfold DIV_ROUND_UP, PG_SIZE. intros Hx Hw.
  rewrite wrap32_small by lia.
  Z.div_mod_to_equations. lia.
Qed.

(** A successful [malloc_page]: the run is reserved, and one frame per
    page was taken and mapped. *)
Lemma malloc_page_success (st st' : state) (pf : pool_flags)
    (pg_cnt vstart : Z) :
  malloc_page pf pg_cnt st = Ok vstart st' ->
  vstart <> NULL ->
  vstart + pg_cnt * PG_SIZE <= TABLE_WINDOW ->
  exists (s : nat) (idxs : list nat),
    Z.of_nat (length idxs) = pg_cnt /\
    vstart = wrap32 (vaddr_start (get_tracker pf st) + Z.of_nat s * PG_SIZE) /\
    (forall j, (s <= j < s + Z.to_nat pg_cnt)%nat ->
               bit_free (vaddr_bitmap (get_tracker pf st)) j /\
               bit_used (vaddr_bitmap (get_tracker pf st')) j) /\
    NoDup idxs /\
    (forall i, In i idxs ->
               bit_free (pool_bitmap (get_pool (pool_of pf) st)) i /\
               bit_used (pool_bitmap (get_pool (pool_of pf) st')) i) /\
    (forall j i, nth_error idxs j = Some i ->
                 maps_to st' (page_of vstart j)
                   (frame_addr (get_pool (pool_of pf) st) i)).
Proof.
  intros Hok Hnz Hwin.
  unfold malloc_page, bind in Hok.
  unfold ASSERT at 1 in Hok.
  destruct ((0 <? pg_cnt) && (pg_cnt <? 3840)) eqn:Hcnt; [| discriminate].
  destruct (vaddr_get pf pg_cnt st) as [v st1 | |] eqn:Hres;
    [| discriminate | discriminate].
  destruct (Z.eqb_spec v NULL) as [Hz | Hvnz].
  { unfold ret in Hok. injection Hok as <- _. contradiction. }
  destruct (malloc_page_loop (pool_of pf) (Z.to_nat pg_cnt) v st1)
    as [ok st2 | |] eqn:Hloop; [| discriminate | discriminate].
  destruct ok; unfold ret in Hok;
    [injection Hok as -> <- | injection Hok as <- _; contradiction].
  destruct (vaddr_get_found _ _ _ _ _ Hres Hnz) as (s & Hrun & Hv & Hst1).
  assert (Hpool1 : get_pool (pool_of pf) st1 = get_pool (pool_of pf) st)
    by (rewrite Hst1; destruct pf; reflexivity).
  assert (Hv0 : 0 <= vstart) by (rewrite Hv; apply wrap32_range).
  apply andb_true_iff in Hcnt. destruct Hcnt as [Hpos _].
  apply Z.ltb_lt in Hpos.
  destruct (malloc_page_loop_trace _ _ _ _ _ _ Hloop Hv0
              ltac:(rewrite Z2Nat.id by lia; exact Hwin))
    as (idxs & Hlen & Hnd & Hbits & Hmaps).
  pose proof (malloc_page_loop_grows _ _ _ _ _ _ Hloop) as Hg.
  exists s, idxs.
  split; [lia |]. split; [exact Hv |].
  split; [| split; [exact Hnd | split]].
  - intros j Hj. rewrite (pools_grow_tracker pf _ _ Hg), Hst1.
    replace (vaddr_bitmap (get_tracker pf (set_tracker_bitmap pf _ st)))
      with (bitmap_set_run (vaddr_bitmap (get_tracker pf st)) (Z.of_nat s)
              (Z.to_nat pg_cnt) true)
      by (destruct pf; reflexivity).
    apply set_run_used; assumption.
  - intros i Hi. rewrite <- Hpool1. apply Hbits. exact Hi.
  - intros j i Hj. rewrite <- Hpool1. apply Hmaps. exact Hj.
Qed.

(** The large path, when it returns an address: the pages come from one
    call of [malloc_page] for [DIV_ROUND_UP (size + sizeof_arena) PG_SIZE]
    pages, the header at their start says no descriptor, that page count
    and large, and the address returned is the one after the header. *)
Lemma sys_malloc_large_stamps (PF : pool_flags) (size r : Z)
    (st st' : state) :
  sys_malloc_large PF size st = Ok r st' ->
  r <> NULL ->
  let page_cnt := DIV_ROUND_UP (size + sizeof_arena) PG_SIZE in
  exists a st1,
    malloc_page PF page_cnt st = Ok a st1 /\
    a <> NULL /\
    r = wrap32 (a + sizeof_arena) /\
    arenas st' a = mkArena None page_cnt true /\
    kernel_pool st' = kernel_pool st1 /\
    user_pool st' = user_pool st1 /\
    kernel_vaddr st' = kernel_vaddr st1 /\
    cur st' = cur st1 /\
    mem st' = mem (memset0 a (wrap32 (page_cnt * PG_SIZE)) st1).
Proof.
  intros H Hr page_cnt. unfold sys_malloc_large, bind in H. fold page_cnt in H.
  destruct (malloc_page PF page_cnt st) as [a st1 | |] eqn:Hm;
    [| discriminate | discriminate].
  destruct (Z.eqb_spec a NULL) as [Hz | Hnz].
  { unfold ret in H. injection H as <- _. contradiction. }
  unfold modify, ret in H. injection H as <- <-.
  exists a, st1. repeat split; try assumption; try reflexivity.
  unfold set_arena, set_arenas; cbn [arenas]. rewrite Z.eqb_refl. reflexivity.
Qed.

(* ================================================================= *)
(** ** Giving kernel pages back *)

Lemma kernel_frame_facts (st : state) (i : nat) :
  pools_placed st ->
  (i < length (pool_bitmap (kernel_pool st)))%nat ->
  let f := frame_addr (kernel_pool st) i in
  0 <= f < 2 ^ 32 /\
  f mod PG_SIZE = 0 /\
  0x102000 <= f /\
  phy_addr_start (kernel_pool st) <= f < phy_addr_start (user_pool st) /\
  wrap32 (f - phy_addr_start (kernel_pool st)) / PG_SIZE = Z.of_nat i.
Proof.
  intros (Hlow & Hal & Hend & Hup) Hi f.
  unfold PG_SIZE in *.
  assert (Hf : f = Z.of_nat i * 4096 + phy_addr_start (kernel_pool st)).
  { unfold f, frame_addr, PG_SIZE. apply wrap32_small. lia. }
  rewrite Hf. split; [lia |]. split; [| split; [lia | split; [lia |]]].
  - rewrite Z.add_comm, Z.mod_add by lia. exact Hal.
  - replace (Z.of_nat i * 4096 + phy_addr_start (kernel_pool st)
             - phy_addr_start (kernel_pool st))
      with (Z.of_nat i * 4096) by lia.
    rewrite wrap32_small by lia. apply Z.div_mul. lia.
Qed.

Lemma wrap32_back (a : Z) :
  0 <= a < 2 ^ 32 -> wrap32 (wrap32 (a - PG_SIZE) + PG_SIZE) = a.
Proof.
  intros H. unfold wrap32, PG_SIZE.
  rewrite Zplus_mod_idemp_l. replace (a - 4096 + 4096) with a by lia.
  apply Z.mod_small. exact H.
Qed.

Lemma mfree_page_loop_kernel (n : nat) :
  forall (v vprev : Z) (idxs : list nat) (st : state),
    pools_placed st ->
    length idxs = n ->
    0 <= v -> v mod PG_SIZE = 0 ->
    v + Z.of_nat n * PG_SIZE <= TABLE_WINDOW ->
    wrap32 (vprev + PG_SIZE) = v ->
    (forall j i, nth_error idxs j = Some i ->
       (i < length (pool_bitmap (kernel_pool st)))%nat /\
       maps_to st (page_of v j) (frame_addr (kernel_pool st) i)) ->
    exists st',
      mfree_page_loop false n vprev st = Ok tt st' /\
      pool_bitmap (kernel_pool st')
      = clear_bits (pool_bitmap (kernel_pool st)) idxs /\
      phy_addr_start (kernel_pool st') = phy_addr_start (kernel_pool st) /\
      pool_size (kernel_pool st') = pool_size (kernel_pool st) /\
      user_pool st' = user_pool st /\
      kernel_vaddr st' = kernel_vaddr st /\
      cur st' = cur st /\
      k_block_descs st' = k_block_descs st /\
      arenas st' = arenas st.
Proof.
  induction n as [| n IH];
    intros v vprev idxs st Hpl Hlen Hv Hal Hend Hprev Hmaps.
  - destruct idxs; [| discriminate]. exists st.
    repeat split; reflexivity.
  - destruct idxs as [| i rest]; [discriminate |].
    injection Hlen as Hlen.
    destruct (Hmaps 0%nat i eq_refl) as [Hi [Hpde Hpte]].
    unfold page_of in Hpde, Hpte. cbn [Z.of_nat] in Hpde, Hpte.
    rewrite Z.mul_0_l, Z.add_0_r in Hpde, Hpte.
    destruct (kernel_frame_facts st i Hpl Hi)
      as (Hf32 & Hfal & Hflow & Hfin & Hfidx).
    set (f := frame_addr (kernel_pool st) i) in *.
    assert (Hv2p : addr_v2p v st = f).
    { rewrite (addr_v2p_entry v f st Hf32 Hfal Hpte), land_offset.
      unfold PG_SIZE in Hal. lia. }
    set (st1 := set_pool_bitmap KernelPool
                  (set_nth (pool_bitmap (kernel_pool st)) i false) st).
    set (st2 := store (pte_ptr v)
                  (Z.land (mem st1 (pte_ptr v)) (Z.lnot PG_P_1)) st1).
    assert (Hpl2 : pools_placed st2).
    { unfold pools_placed, st2, st1, store, set_mem.
      cbn [set_pool_bitmap kernel_pool user_pool phy_addr_start pool_bitmap].
      rewrite set_nth_length. exact Hpl. }
    unfold PG_SIZE, TABLE_WINDOW in *.
    assert (Hmaps2 : forall j i', nth_error rest j = Some i' ->
              (i' < length (pool_bitmap (kernel_pool st2)))%nat /\
              maps_to st2 (page_of (v + 4096) j)
                (frame_addr (kernel_pool st2) i')).
    { intros j i' Hj.
      assert (Hjn : (j < length rest)%nat)
        by (apply nth_error_Some; congruence).
      destruct (Hmaps (S j) i' Hj) as [Hi' [Hpde' Hpte']].
      unfold st2, st1, store, set_mem, maps_to, frame_addr, page_of, PG_SIZE
        in *.
      cbn [set_pool_bitmap kernel_pool user_pool phy_addr_start pool_bitmap
             mem].
      rewrite set_nth_length. split; [exact Hi' |].
      replace (v + 4096 + Z.of_nat j * 4096)
        with (v + Z.of_nat (S j) * 4096) by lia.
      set (u := v + Z.of_nat (S j) * 4096) in *.
      assert (Hu : 0 <= u < 0xffc00000) by (unfold u; lia).
      pose proof (pte_below_pde v ltac:(unfold TABLE_WINDOW; lia)).
      pose proof (pde_ptr_range u).
      assert (pte_ptr u <> pte_ptr v).
      { rewrite !pte_ptr_wrap, !wrap32_small by lia.
        unfold u. Z.div_mod_to_equations. lia. }
      destruct (Z.eqb_spec (pde_ptr u) (pte_ptr v)); [lia |].
      destruct (Z.eqb_spec (pte_ptr u) (pte_ptr v)); [lia |].
      auto. }
    destruct (IH (v + 4096) v rest st2 Hpl2 Hlen ltac:(lia)
                ltac:(clear - Hal; Z.div_mod_to_equations; lia)
                ltac:(lia)
                ltac:(apply wrap32_small; lia) Hmaps2)
      as (st' & Hrun & Hbm & Hstart & Hsize & Hup & Hkv & Hcur & Hds & Har).
    exists st'. split.
    + cbn [mfree_page_loop]. unfold PG_SIZE. rewrite Hprev.
      unfold bind at 1. unfold get_state. rewrite Hv2p.
      unfold bind at 1. unfold ASSERT at 1.
      fold f in Hfin, Hfal.
      destruct (Z.eqb_spec (f mod 4096) 0); [| contradiction].
      destruct (Z.leb_spec (phy_addr_start (kernel_pool st)) f); [| lia].
      destruct (Z.ltb_spec f (phy_addr_start (user_pool st))); [| lia].
      cbn [andb].
      unfold bind at 1. unfold pfree.
      destruct (Z.leb_spec (phy_addr_start (user_pool st)) f); [lia |].
      unfold PG_SIZE. fold f in Hfidx. rewrite Hfidx, bitmap_set_nat.
      fold st1. unfold bind at 1. unfold page_table_pte_remove.
      fold st2. exact Hrun.
    + rewrite Hbm, Hstart, Hsize, Hup, Hkv, Hcur, Hds, Har.
      unfold st2, st1, store, set_mem.
      cbn [set_pool_bitmap kernel_pool user_pool phy_addr_start pool_bitmap
             pool_size kernel_vaddr cur k_block_descs arenas].
      repeat split; reflexivity.
Qed.

(** [mfree_page] on pages backed by kernel frames: every assertion
    passes, the frames' bits are cleared, the table entries lose their
    present bit and the tracker bits of the run are cleared. *)
Lemma mfree_page_kernel (pf : pool_flags) (a : Z) (idxs : list nat)
    (st : state) :
  pools_placed st ->
  (0 < length idxs)%nat ->
  0 <= a -> a mod PG_SIZE = 0 ->
  a + Z.of_nat (length idxs) * PG_SIZE <= TABLE_WINDOW ->
  (forall j i, nth_error idxs j = Some i ->
     (i < length (pool_bitmap (kernel_pool st)))%nat /\
     maps_to st (page_of a j) (frame_addr (kernel_pool st) i)) ->
  exists st',
    mfree_page pf a (Z.of_nat (length idxs)) st = Ok tt st' /\
    pool_bitmap (kernel_pool st')
    = clear_bits (pool_bitmap (kernel_pool st)) idxs /\
    user_pool st' = user_pool st /\
    vaddr_bitmap (get_tracker pf st')
    = bitmap_set_run (vaddr_bitmap (get_tracker pf st))
        (wrap32 (a - vaddr_start (get_tracker pf st)) / PG_SIZE)
        (length idxs) false /\
    arenas st' = arenas st /\
    k_block_descs st' = k_block_descs st /\
    u_block_desc (cur st') = u_block_desc (cur st) /\
    pgdir (cur st') = pgdir (cur st).
Proof.
  intros Hpl Hn Ha Hal Hend Hmaps.
  destruct idxs as [| i0 rest] eqn:Hidxs; [cbn in Hn; lia |].
  rewrite <- Hidxs in *.
  assert (H0 : nth_error idxs 0 = Some i0) by (rewrite Hidxs; reflexivity).
  destruct (Hmaps 0%nat i0 H0) as [Hi [_ Hpte]].
  unfold page_of in Hpte. cbn [Z.of_nat] in Hpte.
  rewrite Z.mul_0_l, Z.add_0_r in Hpte.
  destruct (kernel_frame_facts st i0 Hpl Hi)
    as (Hf32 & Hfal & Hflow & Hfin & _).
  assert (Hv2p : addr_v2p a st = frame_addr (kernel_pool st) i0).
  { rewrite (addr_v2p_entry a _ st Hf32 Hfal Hpte), land_offset.
    unfold PG_SIZE in Hal. lia. }
  assert (Ha32 : 0 <= a < 2 ^ 32) by (unfold TABLE_WINDOW, PG_SIZE in *; lia).
  destruct (mfree_page_loop_kernel (length idxs) a (wrap32 (a - PG_SIZE))
              idxs st Hpl eq_refl Ha Hal Hend (wrap32_back a Ha32) Hmaps)
    as (st1 & Hloop & Hbm & _ & _ & Hup & Hkv & Hcur & Hds & Har).
  eexists. split.
  - unfold mfree_page. unfold bind at 1. unfold ASSERT at 1.
    destruct (Z.leb_spec 1 (Z.of_nat (length idxs))); [| lia].
    destruct (Z.eqb_spec (a mod PG_SIZE) 0); [| contradiction].
    cbn [andb]. unfold bind at 1. unfold get_state. rewrite Hv2p.
    unfold bind at 1. unfold ASSERT at 1.
    destruct (Z.eqb_spec (frame_addr (kernel_pool st) i0 mod PG_SIZE) 0);
      [| contradiction].
    destruct (Z.leb_spec 0x102000 (frame_addr (kernel_pool st) i0)); [| lia].
    cbn [andb].
    destruct (Z.leb_spec (phy_addr_start (user_pool st))
                (frame_addr (kernel_pool st) i0)); [lia |].
    rewrite Nat2Z.id. unfold bind at 1. rewrite Hloop.
    unfold vaddr_remove. reflexivity.
  - assert (Htr : get_tracker pf st1 = get_tracker pf st)
      by (destruct pf; cbn [get_tracker]; congruence).
    rewrite Htr, Nat2Z.id.
    destruct pf; cbn [set_tracker_bitmap get_tracker kernel_pool user_pool
                        kernel_vaddr cur userprog_vaddr vaddr_bitmap arenas
                        k_block_descs u_block_desc pgdir];
      rewrite ?Hcur; auto 10.
Qed.

Lemma block2arena_header (a : Z) :
  0 <= a -> a mod PG_SIZE = 0 -> a + PG_SIZE <= 2 ^ 32 ->
  block2arena (wrap32 (a + sizeof_arena)) = a.
Proof.
  unfold PG_SIZE, sizeof_arena, block2arena. intros Ha Hal Hend.
  rewrite wrap32_small by lia. rewrite land_frame32 by lia.
  Z.div_mod_to_equations. lia.
Qed.

Lemma maps_to_memset0 (st : state) (p len u f : Z) :
  p + len <= TABLE_WINDOW ->
  maps_to st u f -> maps_to (memset0 p len st) u f.
Proof.
  unfold maps_to, memset0, TABLE_WINDOW; cbn [mem]. intros Hend [H1 H2].
  pose proof (pte_ptr_range u). pose proof (pde_ptr_range u).
  destruct (Z.ltb_spec (pde_ptr u) (p + len)); [lia |].
  destruct (Z.ltb_spec (pte_ptr u) (p + len)); [lia |].
  rewrite !andb_false_r. auto.
Qed.

(** X22.  In a kernel thread the large path and [sys_free] undo each
    other as the claim C5 says: the request takes
    [DIV_ROUND_UP (size + 12) 4096] frames of the kernel pool, all free
    before and used after, and [sys_free] of the returned address clears
    exactly those bits again. *)
Lemma sys_free_large_kernel (st st1 : state) (size r : Z) :
  pgdir (cur st) = NULL ->
  pools_placed st ->
  kernel_vaddr_placed st ->
  1024 < size -> size + sizeof_arena + PG_SIZE - 1 < 2 ^ 32 ->
  sys_malloc size st = Ok r st1 ->
  r <> NULL ->
  let page_cnt := DIV_ROUND_UP (size + sizeof_arena) PG_SIZE in
  exists (a : Z) (idxs : list nat) (st2 : state),
    r = a + sizeof_arena /\
    arenas st1 a = mkArena None page_cnt true /\
    Z.of_nat (length idxs) = page_cnt /\
    NoDup idxs /\
    (forall i, In i idxs ->
       bit_free (pool_bitmap (kernel_pool st)) i /\
       bit_used (pool_bitmap (kernel_pool st1)) i) /\
    sys_free r st1 = Ok tt st2 /\
    pool_bitmap (kernel_pool st2)
    = clear_bits (pool_bitmap (kernel_pool st1)) idxs /\
    user_pool st2 = user_pool st1.
Proof.
  intros Hk Hpl (Hkh & Hkal & Hkend) Hbig Hwrap Hm Hr page_cnt.
  assert (Hown : owner_flags st = PF_KERNEL)
    by (unfold owner_flags; rewrite Hk; reflexivity).
  unfold sys_malloc, bind, get_state in Hm. rewrite Hown in Hm.
  destruct (negb _) in Hm.
  { unfold ret in Hm. injection Hm as <- _. congruence. }
  destruct (Z.ltb_spec 1024 size); [| lia].
  destruct (sys_malloc_large_stamps _ _ _ _ _ Hm Hr)
    as (a & stm & Hpage & Hanz & Hra & Hhdr & Hkp & Hup & Hkv & Hcur & Hmem).
  fold page_cnt in Hpage, Hhdr.
  (* where the run lies *)
  pose proof Hpage as Hpage'.
  unfold malloc_page, bind in Hpage'. unfold ASSERT at 1 in Hpage'.
  destruct ((0 <? page_cnt) && (page_cnt <? 3840)) eqn:Hcnt;
    [| discriminate].
  apply andb_true_iff in Hcnt. destruct Hcnt as [Hpos Hmax].
  apply Z.ltb_lt in Hpos. apply Z.ltb_lt in Hmax.
  destruct (vaddr_get PF_KERNEL page_cnt st) as [v stv | |] eqn:Hres;
    [| discriminate | discriminate].
  assert (v = a) as ->.
  { destruct (Z.eqb_spec v NULL).
    - unfold ret in Hpage'. injection Hpage' as <- _. contradiction.
    - destruct (malloc_page_loop _ _ _ _) as [[|] ? | |] in Hpage';
        unfold ret in Hpage'; try discriminate;
        injection Hpage' as Ha _; [exact Ha | congruence]. }
  clear Hpage'.
  destruct (vaddr_get_found _ _ _ _ _ Hres Hanz) as (s & Hrun & Hv & _).
  cbn [get_tracker] in Hrun, Hv.
  pose proof (free_run_bound _ _ _ Hrun ltac:(lia)) as Hbound.
  unfold PG_SIZE, TABLE_WINDOW, K_HEAP_START, sizeof_arena in *.
  assert (Haeq : a = vaddr_start (kernel_vaddr st) + Z.of_nat s * 4096).
  { rewrite Hv. apply wrap32_small. lia. }
  assert (Hal : a mod 4096 = 0).
  { rewrite Haeq. rewrite Z_mod_plus_full. exact Hkal. }
  assert (Hawin : a + page_cnt * 4096 <= 0xffc00000).
  { rewrite Haeq. rewrite <- (Z2Nat.id page_cnt) by lia. lia. }
  destruct (malloc_page_success _ _ _ _ _ Hpage Hanz Hawin)
    as (_ & idxs & Hlen & _ & _ & Hnd & Hbits & Hmaps).
  cbn [pool_of get_pool] in Hbits, Hmaps.
  assert (Hgrow : pools_grow stv stm).
  { unfold malloc_page, bind in Hpage. unfold ASSERT at 1 in Hpage.
    destruct ((0 <? page_cnt) && (page_cnt <? 3840)); [| discriminate].
    rewrite Hres in Hpage.
    destruct (Z.eqb_spec a NULL); [contradiction |].
    destruct (malloc_page_loop _ _ _ _) as [ok st3 | |] eqn:Hloop in Hpage;
      [| discriminate | discriminate].
    assert (st3 = stm) as ->
      by (destruct ok; unfold ret in Hpage; injection Hpage; auto).
    exact (malloc_page_loop_grows _ _ _ _ _ _ Hloop). }
  destruct (vaddr_get_found _ _ _ _ _ Hres Hanz) as (s' & _ & _ & Hstv).
  destruct Hgrow as (_ & Gcur & _ & G).
  destruct (G KernelPool) as (Gs & _ & [Gl _]).
  destruct (G UserPool) as (Gus & _ & _).
  rewrite Hstv in Gcur, Gs, Gl, Gus.
  cbn [get_pool set_tracker_bitmap kernel_pool user_pool cur] in Gcur, Gs, Gl,
    Gus.
  assert (Hpl1 : pools_placed st1).
  { unfold pools_placed. rewrite Hkp, Hup, Gs, Gus, <- Gl. exact Hpl. }
  assert (Hstart1 : phy_addr_start (kernel_pool st1)
                    = phy_addr_start (kernel_pool st)).
  { rewrite Hkp. exact Gs. }
  assert (Hmaps1 : forall j i, nth_error idxs j = Some i ->
            (i < length (pool_bitmap (kernel_pool st1)))%nat /\
            maps_to st1 (page_of a j) (frame_addr (kernel_pool st1) i)).
  { intros j i Hj. split.
    - destruct (Hbits i (nth_error_In _ _ Hj)) as [_ Hu].
      rewrite Hkp. apply nth_error_Some. unfold bit_used in Hu. congruence.
    - unfold frame_addr. rewrite Hstart1.
      specialize (Hmaps j i Hj).
      unfold maps_to. rewrite Hmem.
      apply (maps_to_memset0 stm a (wrap32 (page_cnt * 4096))).
      + unfold TABLE_WINDOW. rewrite wrap32_small by lia. lia.
      + exact Hmaps. }
  assert (Hlenpos : (0 < length idxs)%nat) by lia.
  destruct (mfree_page_kernel PF_KERNEL a idxs st1 Hpl1 Hlenpos
              ltac:(lia) Hal
              ltac:(unfold PG_SIZE, TABLE_WINDOW; lia) Hmaps1)
    as (st2 & Hfree & Hbm2 & Hup2 & _).
  exists a, idxs, st2.
  split; [rewrite Hra; apply wrap32_small; lia |].
  split; [exact Hhdr |]. split; [exact Hlen |]. split; [exact Hnd |].
  split; [intros i Hi; rewrite Hkp; apply Hbits; exact Hi |].
  split; [| split; [exact Hbm2 | exact Hup2]].
  unfold sys_free. unfold bind at 1. unfold ASSERT at 1.
  destruct (Z.eqb_spec r NULL); [contradiction |]. cbn [negb].
  unfold bind at 1. unfold get_state.
  assert (Hk1 : pgdir (cur st1) = NULL)
    by (rewrite Hcur, Gcur; exact Hk).
  assert (Hown1 : owner_flags st1 = PF_KERNEL)
    by (unfold owner_flags; rewrite Hk1; reflexivity).
  rewrite Hown1, Hk1. rewrite Z.eqb_refl.
  unfold bind at 1. unfold ASSERT at 1.
  destruct (Z.leb_spec K_HEAP_START r) as [_ | Hlt];
    [| unfold K_HEAP_START in Hlt; rewrite Hra, wrap32_small in Hlt by lia;
       lia].
  rewrite Hra.
  pose proof (block2arena_header a ltac:(lia) Hal ltac:(unfold PG_SIZE; lia))
    as Hb.
  unfold sizeof_arena in Hb. rewrite Hb.
  rewrite Hhdr. cbn [desc large cnt].
  rewrite <- Hlen. exact Hfree.
Qed.

(* ================================================================= *)
(** ** Taking a free arena off its free list *)

Lemma nth_error_update_nth {A} (l : list A) (n : nat) (f : A -> A) (x : A) :
  nth_error l n = Some x -> nth_error (update_nth l n f) n = Some (f x).
Proof.
  revert n. induction l as [| y r IH]; intros [| n] H; try discriminate.
  - injection H as ->. reflexivity.
  - cbn [update_nth nth_error] in *. apply IH. exact H.
Qed.

Lemma deref_set_free_list (dp : desc_ptr) (l : list_t) (st : state)
    (d : mem_block_desc) :
  deref_desc dp st = Some d ->
  deref_desc dp (set_free_list dp l st) = Some (with_free_list l d).
Proof.
  destruct dp; cbn [deref_desc set_free_list k_block_descs cur u_block_desc];
    apply nth_error_update_nth.
Qed.

Lemma lists_only_set_free_list (dp : desc_ptr) (l : list_t) (st : state) :
  lists_only st (set_free_list dp l st).
Proof. destruct dp; repeat split. Qed.

Lemma lists_only_trans (a b c : state) :
  lists_only a b -> lists_only b c -> lists_only a c.
Proof.
  unfold lists_only. intros (? & ? & ? & ? & ? & ? & ?) (? & ? & ? & ? & ? & ? & ?).
  repeat split; congruence.
Qed.

Lemma elem_find_In (l : list_t) (x : Z) : elem_find l x = true <-> In x l.
Proof.
  unfold elem_find. rewrite existsb_exists. split.
  - intros (y & Hy & E). apply Z.eqb_eq in E. subst. exact Hy.
  - intros H. exists x. split; [exact H | apply Z.eqb_refl].
Qed.

Lemma list_remove_In (l : list_t) (b x : Z) :
  In x (list_remove l b) <-> In x l /\ x <> b.
Proof.
  unfold list_remove. split.
  - apply in_remove.
  - intros [H1 H2]. apply in_in_remove; assumption.
Qed.

Lemma arena_unlink_all (a bs : Z) (dp : desc_ptr) (n : nat) :
  forall (k : Z) (st : state) (d : mem_block_desc),
    desc (arenas st a) = Some dp ->
    deref_desc dp st = Some d ->
    block_size d = bs ->
    (forall j, k <= j < k + Z.of_nat n ->
               In (block_addr a bs j) (free_list d)) ->
    (forall j j', k <= j < j' -> j' < k + Z.of_nat n ->
                  block_addr a bs j <> block_addr a bs j') ->
    exists st' d',
      arena_unlink a n k st = Ok tt st' /\
      deref_desc dp st' = Some d' /\
      block_size d' = bs /\
      blocks_per_arena d' = blocks_per_arena d /\
      (forall x, In x (free_list d') <->
                 In x (free_list d) /\
                 forall j, k <= j < k + Z.of_nat n -> x <> block_addr a bs j) /\
      lists_only st st'.
Proof.
  induction n as [| n IH]; intros k st d Hdesc Hd Hbs Hin Hdist.
  - exists st, d. split; [reflexivity |]. split; [exact Hd |].
    split; [exact Hbs |]. split; [reflexivity |]. split.
    + intros x. split; [intros H; split; [exact H | intros j Hj; lia] |
                        intros [H _]; exact H].
    + repeat split.
  - set (b := block_addr a bs k).
    set (st1 := set_free_list dp (list_remove (free_list d) b) st).
    assert (Hdesc1 : desc (arenas st1 a) = Some dp)
      by (unfold st1; destruct dp; exact Hdesc).
    pose proof (deref_set_free_list dp (list_remove (free_list d) b) st d Hd)
      as Hd1. fold st1 in Hd1.
    destruct (IH (k + 1) st1 (with_free_list (list_remove (free_list d) b) d)
                Hdesc1 Hd1 Hbs) as (st' & d' & Hrun & Hd' & Hbs' & Hbpa & Hl & Hfr).
    { intros j Hj. cbn [with_free_list free_list]. apply list_remove_In.
      split; [apply Hin; lia |].
      intros E. apply (Hdist k j); [lia | lia | symmetry; exact E]. }
    { intros j j' Hj Hj'. apply Hdist; lia. }
    exists st', d'. split; [| split; [exact Hd' | split; [exact Hbs' |
                                split; [exact Hbpa | split]]]].
    + cbn [arena_unlink]. unfold bind at 1. unfold arena2block.
      unfold bind at 1. unfold get_state. rewrite Hdesc, Hd.
      unfold ret. rewrite Hbs. fold (block_addr a bs k). fold b.
      unfold bind at 1. rewrite Hdesc, Hd.
      unfold bind at 1. unfold ASSERT.
      assert (Hfind : elem_find (free_list d) b = true)
        by (apply elem_find_In; apply Hin; lia).
      rewrite Hfind. unfold bind at 1. unfold modify. fold st1. exact Hrun.
    + intros x. rewrite Hl. cbn [with_free_list free_list].
      rewrite list_remove_In. split.
      * intros [[Hx Hne] Hrest]. split; [exact Hx |].
        intros j Hj. destruct (Z.eq_dec j k) as [-> | Hjk];
          [exact Hne | apply Hrest; lia].
      * intros [Hx Hall]. split; [split; [exact Hx | apply Hall; lia] |].
        intros j Hj. apply Hall. lia.
    + eapply lists_only_trans; [| exact Hfr].
      apply lists_only_set_free_list.
Qed.

Lemma block_addr_plain (a bs bpa j : Z) :
  0 <= a -> a + PG_SIZE <= 2 ^ 32 ->
  0 < bs -> sizeof_arena + bpa * bs <= PG_SIZE ->
  0 <= j < bpa ->
  block_addr a bs j = a + sizeof_arena + j * bs.
Proof.
  unfold block_addr, PG_SIZE, sizeof_arena. intros Ha Hend Hbs Hfit Hj.
  apply wrap32_small. nia.
Qed.

(** In a kernel thread, freeing the block that makes a small arena whole
    does what the claim C3 says: every block of the arena leaves the free
    list (the other entries stay) and the one frame behind the arena's
    page goes back to the kernel pool. *)
Lemma sys_free_whole_arena_kernel (st : state) (ptr : Z) (dp : desc_ptr)
    (d : mem_block_desc) (i : nat) :
  let a := block2arena ptr in
  let bs := block_size d in
  let bpa := blocks_per_arena d in
  pgdir (cur st) = NULL ->
  pools_placed st ->
  K_HEAP_START <= ptr ->
  a + PG_SIZE <= TABLE_WINDOW ->
  desc (arenas st a) = Some dp ->
  deref_desc dp st = Some d ->
  0 < bs -> sizeof_arena + bpa * bs <= PG_SIZE ->
  wrap32 (cnt (arenas st a) + 1) = bpa ->
  (exists k, 0 <= k < bpa /\ ptr = block_addr a bs k) ->
  (forall j, 0 <= j < bpa -> block_addr a bs j <> ptr ->
             In (block_addr a bs j) (free_list d)) ->
  (i < length (pool_bitmap (kernel_pool st)))%nat ->
  maps_to st a (frame_addr (kernel_pool st) i) ->
  exists st' d',
    sys_free ptr st = Ok tt st' /\
    deref_desc dp st' = Some d' /\
    (forall x, In x (free_list d') <->
               In x (free_list d) /\
               forall j, 0 <= j < bpa -> x <> block_addr a bs j) /\
    pool_bitmap (kernel_pool st')
    = set_nth (pool_bitmap (kernel_pool st)) i false /\
    user_pool st' = user_pool st.
Proof.
  intros a bs bpa Hk Hpl Hheap Hwin Hdesc Hd Hbs Hfit Hcnt (k & Hkr & Hptr)
    Hin Hi Hmap.
  assert (Ha0 : 0 <= a /\ a mod PG_SIZE = 0).
  { unfold a, block2arena, PG_SIZE. rewrite land_frame.
    pose proof (Z.mod_pos_bound (ptr / 4096) (2 ^ 20) ltac:(lia)).
    split; [lia | apply Z_mod_mult]. }
  destruct Ha0 as [Ha0 Hal].
  assert (Hblk : forall j, 0 <= j < bpa ->
            block_addr a bs j = a + sizeof_arena + j * bs).
  { intros j Hj. apply (block_addr_plain a bs bpa); auto.
    unfold TABLE_WINDOW in Hwin. lia. }
  set (h := arenas st a) in *.
  set (st_a := set_free_list dp (list_append (free_list d) ptr) st).
  set (st_b := set_arena a (mkArena (desc h) (wrap32 (cnt h + 1)) (large h))
                 st_a).
  assert (Hdesc_b : desc (arenas st_b a) = Some dp).
  { unfold st_b, set_arena, set_arenas; cbn [arenas].
    rewrite Z.eqb_refl. exact Hdesc. }
  assert (Hd_b : deref_desc dp st_b
                 = Some (with_free_list (list_append (free_list d) ptr) d)).
  { pose proof (deref_set_free_list dp (list_append (free_list d) ptr) st d Hd)
      as E. fold st_a in E.
    unfold st_b, set_arena, set_arenas. destruct dp; exact E. }
  destruct (arena_unlink_all a bs dp (Z.to_nat bpa) 0 st_b _ Hdesc_b Hd_b
              eq_refl)
    as (st_u & d_u & Hrun & Hd_u & _ & _ & Hl_u & Hfr).
  { intros j Hj. rewrite Z2Nat.id in Hj by lia.
    cbn [with_free_list free_list]. unfold list_append. apply in_or_app.
    destruct (Z.eq_dec (block_addr a bs j) ptr) as [E | E].
    - right. left. symmetry. exact E.
    - left. apply Hin; [lia | exact E]. }
  { intros j j' Hj Hj'. rewrite Z2Nat.id in Hj' by lia.
    rewrite !Hblk by lia. nia. }
  destruct Hfr as (Fkp & Fup & Fkv & Fpg & Fuv & Fmem & Far).
  assert (Hb_kp : kernel_pool st_b = kernel_pool st)
    by (unfold st_b, st_a, set_arena, set_arenas; destruct dp; reflexivity).
  assert (Hb_up : user_pool st_b = user_pool st)
    by (unfold st_b, st_a, set_arena, set_arenas; destruct dp; reflexivity).
  assert (Hb_mem : mem st_b = mem st)
    by (unfold st_b, st_a, set_arena, set_arenas; destruct dp; reflexivity).
  assert (Hpl_u : pools_placed st_u).
  { unfold pools_placed. rewrite Fkp, Fup, Hb_kp, Hb_up. exact Hpl. }
  assert (Hmaps_u : forall j i', nth_error [i] j = Some i' ->
            (i' < length (pool_bitmap (kernel_pool st_u)))%nat /\
            maps_to st_u (page_of a j) (frame_addr (kernel_pool st_u) i')).
  { intros [| [| j]] i' Hj; try discriminate. injection Hj as <-.
    rewrite Fkp, Hb_kp. split; [exact Hi |].
    unfold page_of. cbn [Z.of_nat]. rewrite Z.mul_0_l, Z.add_0_r.
    unfold maps_to. rewrite Fmem, Hb_mem. exact Hmap. }
  destruct (mfree_page_kernel PF_KERNEL a [i] st_u Hpl_u
              ltac:(cbn [length]; lia) Ha0 Hal
              ltac:(cbn [length]; unfold PG_SIZE in *; lia) Hmaps_u)
    as (st' & Hfree & Hbm & Hup & _ & _ & Hds & Hud & _).
  exists st', d_u. split; [| split; [| split; [| split]]].
  - unfold sys_free. unfold bind at 1. unfold ASSERT at 1.
    destruct (Z.eqb_spec ptr NULL) as [E |];
      [unfold K_HEAP_START, NULL in *; lia |].
    cbn [negb]. unfold bind at 1. unfold get_state.
    assert (Hown : owner_flags st = PF_KERNEL)
      by (unfold owner_flags; rewrite Hk; reflexivity).
    rewrite Hown, Hk, Z.eqb_refl.
    unfold bind at 1. unfold ASSERT at 1.
    destruct (Z.leb_spec K_HEAP_START ptr); [| lia].
    fold a. fold h. rewrite Hdesc, Hd.
    unfold bind at 1. unfold modify at 1. fold st_a.
    unfold bind at 1. unfold modify at 1.
    rewrite <- Hdesc. fold st_b.
    fold bpa. rewrite Hcnt, Z.eqb_refl.
    unfold bind at 1. rewrite Hrun. exact Hfree.
  - rewrite <- Hd_u. destruct dp; cbn [deref_desc]; congruence.
  - intros x. rewrite Hl_u. cbn [with_free_list free_list].
    unfold list_append. rewrite in_app_iff. rewrite Z2Nat.id by lia.
    split.
    + intros [[Hx | [Hx | []]] Hall]; [auto |].
      exfalso. apply (Hall k); [lia | congruence].
    + intros [Hx Hall]. split; [left; exact Hx |].
      intros j Hj. apply Hall. lia.
  - rewrite Hbm, Fkp, Hb_kp. reflexivity.
  - rewrite Hup, Fup, Hb_up. reflexivity.
Qed.

(* ================================================================= *)
(** ** The user branch of [mfree_page] *)

(** X24.  Where the user branch parts from the kernel branch: a page
    backed by a user frame whose address has bit 12 set (every second
    frame) fails the assertion [(pg_phy_addr & PG_SIZE) == 0] of the
    first round, so [mfree_page] stops the kernel before any frame is
    given back. *)
Lemma mfree_page_user_frame_bit12_panics (pf : pool_flags) (a pg_cnt : Z)
    (st : state) :
  0 <= a < 2 ^ 32 ->
  1 <= pg_cnt ->
  phy_addr_start (user_pool st) <= addr_v2p a st ->
  Z.land (addr_v2p a st) PG_SIZE <> 0 ->
  mfree_page pf a pg_cnt st = Panic.
Proof.
  intros Ha Hn Huser Hbit.
  unfold mfree_page. unfold bind at 1. unfold ASSERT at 1.
  destruct ((1 <=? pg_cnt) && (a mod PG_SIZE =? 0)); [| reflexivity].
  unfold bind at 1. unfold get_state.
  unfold bind at 1. unfold ASSERT at 1.
  destruct ((addr_v2p a st mod PG_SIZE =? 0) && (0x102000 <=? addr_v2p a st));
    [| reflexivity].
  destruct (Z.leb_spec (phy_addr_start (user_pool st)) (addr_v2p a st));
    [| lia].
  destruct (Z.to_nat pg_cnt) as [| n] eqn:En; [lia |].
  unfold bind at 1. cbn [mfree_page_loop].
  rewrite (wrap32_back a Ha).
  unfold bind at 1. unfold get_state.
  unfold bind at 1. unfold ASSERT at 1.
  destruct (Z.eqb_spec (Z.land (addr_v2p a st) PG_SIZE) 0);
    [contradiction | reflexivity].
Qed.

(* ================================================================= *)
(** ** Freeing in a user task: the assertion on the frame address *)

(** C5 at a user task.  The second large request of 2000 bytes takes
    [DIV_ROUND_UP (2000 + 12) 4096 = 1] page at 0x8049000, backed by the
    user frame 0x211000, stamps the header (no descriptor, count 1, large)
    and returns the address after the header.  [sys_free] of that address
    then stops the kernel: the user branch of [mfree_page] asserts
    [(pg_phy_addr & PG_SIZE) == 0], which a frame with bit 12 set fails;
    the page is not returned.  A kernel thread doing the same calls gets
    the frame 0x201000 (bit 12 set as well), and the kernel branch, which
    asserts [pg_phy_addr % PG_SIZE == 0], returns the page: the pool and
    the tracker are back to one page in use. *)
Theorem sys_free_large_user_frame_panics :
  DIV_ROUND_UP (2000 + sizeof_arena) PG_SIZE = 1 /\
  returns (p <- sys_malloc 2000 ;;
           q <- sys_malloc 2000 ;;
           o <- observe PF_USER (block2arena q) ;;
           ret (q, o)) user_machine
  = Some (0x8049000 + sizeof_arena,
          (mkArena None 1 true, 0x211000,
           true :: repeat false 15,
           true :: true :: repeat false 14,
           true :: true :: repeat false 14)) /\
  Z.land 0x211000 PG_SIZE <> 0 /\
  free_second_large user_machine = Panic /\
  returns (p <- sys_malloc 2000 ;;
           q <- sys_malloc 2000 ;;
           o <- observe PF_KERNEL (block2arena q) ;;
           ret (q, o)) kernel_machine
  = Some (K_HEAP_START + PG_SIZE + sizeof_arena,
          (mkArena None 1 true, 0x201000,
           true :: true :: repeat false 14,
           repeat false 16,
           true :: true :: repeat false 14)) /\
  returns (free_second_large ;;; observe PF_KERNEL (K_HEAP_START + PG_SIZE))
    kernel_machine
  = Some (mkArena None 1 true, 0x201000,
          true :: repeat false 15,
          repeat false 16,
          true :: repeat false 15).
Proof.
  repeat split; try (vm_compute; reflexivity).
  vm_compute. discriminate.
Qed.

(** C3 at a user task.  After a large request, a request of 1000 bytes
    opens an arena of three 1024-byte blocks on the page 0x8049000, backed
    by the user frame 0x211000, and takes one block (count 2).  Freeing
    that block makes the count equal to the blocks per arena; [sys_free]
    takes the blocks off the free list and calls [mfree_page] for the one
    page, which stops the kernel at the same assertion of the user branch:
    the page is not returned.  A kernel thread doing the same calls gets
    its page back: free list empty, pool and tracker at one page in use. *)
Theorem sys_free_arena_user_frame_panics :
  returns (p <- sys_malloc 2000 ;;
           b <- sys_malloc 1000 ;;
           o <- observe PF_USER (block2arena b) ;;
           st <- get_state ;;
           ret (b, o, map free_list (u_block_desc (cur st)))) user_machine
  = Some (0x8049000 + sizeof_arena,
          (mkArena (Some (UDesc 6)) 2 false, 0x211000,
           true :: repeat false 15,
           true :: true :: repeat false 14,
           true :: true :: repeat false 14),
          [[]; []; []; []; []; [];
           [0x8049000 + sizeof_arena + 1024;
            0x8049000 + sizeof_arena + 2048]]) /\
  option_map blocks_per_arena (nth_error block_desc_init 6) = Some 3 /\
  free_whole_arena user_machine = Panic /\
  returns (free_whole_arena ;;;
           o <- observe PF_KERNEL (K_HEAP_START + PG_SIZE) ;;
           st <- get_state ;;
           ret (o, map free_list (k_block_descs st))) kernel_machine
  = Some ((mkArena (Some (KDesc 6)) 3 false, 0x201000,
           true :: repeat false 15,
           repeat false 16,
           true :: repeat false 15),
          [[]; []; []; []; []; []; []]).
Proof.
  repeat split; vm_compute; reflexivity.
Qed.

(* ================================================================= *)
(** * Further properties of the code *)

(** A computation that returns [v] from [st] ends in [state_after]. *)
Lemma state_after_ok {A} (m : M A) (st : state) (v : A) :
  returns m st = Some v -> m st = Ok v (state_after m st).
Proof.
  unfold returns, state_after. destruct (m st); congruence.
Qed.

(* ================================================================= *)
(** ** The self-mapped tables: [pte_ptr] and [pde_ptr] *)

(** X1.  Two virtual addresses have the same table entry exactly when
    they lie on the same page (addresses taken as 32-bit words). *)
Theorem pte_ptr_same_page (u v : Z) :
  pte_ptr u = pte_ptr v <-> wrap32 u / PG_SIZE = wrap32 v / PG_SIZE.
Proof.
  rewrite !pte_ptr_wrap. unfold PG_SIZE. lia.
Qed.

(** X2.  The self-map: the table entry of the address of a table entry
    is the directory entry, and the table entry of the address of any
    directory entry is the last directory entry. *)
Theorem pte_ptr_of_pte_ptr (v : Z) :
  pte_ptr (pte_ptr v) = pde_ptr v /\
  pte_ptr (pde_ptr v) = pde_ptr TABLE_WINDOW /\
  pde_ptr TABLE_WINDOW = 0xfffffffc.
Proof.
  pose proof (pte_ptr_range v) as Hpte. pose proof (pde_ptr_range v) as Hpde.
  pose proof (wrap32_range v) as Hv.
  change (2 ^ 32) with 4294967296 in *.
  split; [| split; [| reflexivity]].
  - rewrite (pte_ptr_wrap (pte_ptr v)), wrap32_small
      by (change (2 ^ 32) with 4294967296; lia).
    rewrite pte_ptr_wrap, pde_ptr_wrap.
    Z.div_mod_to_equations. lia.
  - rewrite (pte_ptr_wrap (pde_ptr v)), wrap32_small
      by (change (2 ^ 32) with 4294967296; lia).
    change (pde_ptr TABLE_WINDOW) with 0xfffffffc.
    Z.div_mod_to_equations. lia.
Qed.

(* ================================================================= *)
(** ** Installing, keeping and removing table entries *)

(** X3.  A page below the table window cannot be installed twice: once
    [page_table_add v] has returned, a second [page_table_add v], for any
    frame, stops the kernel at the assertion that the entry is absent. *)
Theorem page_table_add_twice_panics (st st' : state) (v p q : Z) :
  page_table_add v p st = Ok tt st' ->
  0 <= v < TABLE_WINDOW ->
  page_table_add v q st' = Panic.
Proof.
  intros Hadd Hv.
  destruct (page_table_add_maps v p st st' Hadd Hv) as [Hpde Hpte].
  unfold page_table_add, bind, get_state.
  rewrite Hpde, Hpte, entry_of_present. reflexivity.
Qed.

Lemma page_table_add_twice_panics_witness :
  page_table_add K_HEAP_START 0x201000
    (state_after (page_table_add K_HEAP_START 0x200000) kernel_machine)
  = Panic.
Proof.
  apply (page_table_add_twice_panics kernel_machine _ K_HEAP_START 0x200000).
  - reflexivity.
  - unfold K_HEAP_START, TABLE_WINDOW, PG_SIZE; lia.
Defined.

(** X4.  Installing a page below the table window leaves the entry of
    every other page below the window as it was: directory entry present
    and table entry unchanged. *)
Theorem page_table_add_keeps_other_pages (v p : Z) (st st' : state)
    (u f : Z) :
  page_table_add v p st = Ok tt st' ->
  0 <= v < TABLE_WINDOW ->
  0 <= u < TABLE_WINDOW ->
  u / PG_SIZE <> v / PG_SIZE ->
  maps_to st u f -> maps_to st' u f.
Proof. apply page_table_add_keeps. Qed.

Lemma page_table_add_keeps_other_pages_witness :
  maps_to
    (state_after (page_table_add (K_HEAP_START + PG_SIZE) 0x201000)
       (state_after (page_table_add K_HEAP_START 0x200000) kernel_machine))
    K_HEAP_START 0x200000.
Proof.
  apply (page_table_add_keeps_other_pages (K_HEAP_START + PG_SIZE) 0x201000
           (state_after (page_table_add K_HEAP_START 0x200000) kernel_machine)).
  - reflexivity.
  - unfold K_HEAP_START, TABLE_WINDOW, PG_SIZE; lia.
  - unfold K_HEAP_START, TABLE_WINDOW, PG_SIZE; lia.
  - vm_compute. discriminate.
  - split; reflexivity.
Defined.

(** What [page_table_pte_remove] does to the state. *)
Lemma page_table_pte_remove_effect (st : state) (v : Z) :
  exists st',
    page_table_pte_remove v st = Ok tt st' /\
    present (mem st' (pte_ptr v)) = false /\
    addr_v2p v st' = addr_v2p v st /\
    (forall a, a <> pte_ptr v -> mem st' a = mem st a) /\
    kernel_pool st' = kernel_pool st /\
    user_pool st' = user_pool st /\
    kernel_vaddr st' = kernel_vaddr st /\
    cur st' = cur st.
Proof.
  eexists. split; [reflexivity |].
  unfold addr_v2p, store, set_mem, present, PG_P_1; cbn [mem kernel_pool
    user_pool kernel_vaddr cur].
  rewrite Z.eqb_refl, <- !Z.land_assoc.
  change (Z.land (Z.lnot 1) 1) with 0.
  change (Z.land (Z.lnot 1) 0xfffff000) with 0xfffff000.
  rewrite Z.land_0_r.
  repeat split; try reflexivity.
  intros a Ha. destruct (Z.eqb_spec a (pte_ptr v)); [contradiction | reflexivity].
Qed.

(** X5.  [page_table_pte_remove] clears the present bit of the entry of
    [vaddr] and nothing else: every other table word, the pools and the
    trackers stay, and [addr_v2p], which does not look at the present
    bit, still answers the frame the entry named. *)
Theorem page_table_pte_remove_clears_present (st : state) (v : Z) :
  exists st',
    page_table_pte_remove v st = Ok tt st' /\
    present (mem st' (pte_ptr v)) = false /\
    addr_v2p v st' = addr_v2p v st /\
    (forall a, a <> pte_ptr v -> mem st' a = mem st a) /\
    kernel_pool st' = kernel_pool st /\
    user_pool st' = user_pool st /\
    kernel_vaddr st' = kernel_vaddr st /\
    cur st' = cur st.
Proof. exact (page_table_pte_remove_effect st v). Qed.

(** X6.  Install, remove, install again: after [page_table_add v p] and
    [page_table_pte_remove v] for a page below the table window, a new
    [page_table_add v q] returns, writes the entry for [q], and takes no
    frame for a table (the directory entry stayed). *)
Theorem page_table_add_after_remove (st st1 : state) (v p q : Z) :
  page_table_add v p st = Ok tt st1 ->
  0 <= v < TABLE_WINDOW ->
  exists st2 st3,
    page_table_pte_remove v st1 = Ok tt st2 /\
    page_table_add v q st2 = Ok tt st3 /\
    maps_to st3 v q /\
    kernel_pool st3 = kernel_pool st1.
Proof.
  intros Hadd Hv.
  destruct (page_table_add_maps v p st st1 Hadd Hv) as [Hpde _].
  destruct (page_table_pte_remove_effect st1 v)
    as (st2 & Hrem & Hnp & _ & Hother & Hkp & _).
  pose proof (pte_below_pde v Hv) as Hlt.
  pose proof (pde_ptr_range v) as Hrange.
  assert (Hpde2 : present (mem st2 (pde_ptr v)) = true)
    by (rewrite Hother by lia; exact Hpde).
  exists st2, (store (pte_ptr v) (entry_of q) st2).
  split; [exact Hrem |]. split; [| split].
  - unfold page_table_add, bind, get_state. rewrite Hpde2, Hnp. reflexivity.
  - unfold maps_to, store, set_mem; cbn [mem]. rewrite Z.eqb_refl.
    destruct (Z.eqb_spec (pde_ptr v) (pte_ptr v)); [lia |]. auto.
  - unfold store, set_mem; cbn [kernel_pool]. exact Hkp.
Qed.

Lemma page_table_add_after_remove_witness :
  exists st2 st3,
    page_table_pte_remove K_HEAP_START
      (state_after (page_table_add K_HEAP_START 0x200000) kernel_machine)
    = Ok tt st2 /\
    page_table_add K_HEAP_START 0x201000 st2 = Ok tt st3 /\
    maps_to st3 K_HEAP_START 0x201000 /\
    kernel_pool st3
    = kernel_pool
        (state_after (page_table_add K_HEAP_START 0x200000) kernel_machine).
Proof.
  apply (page_table_add_after_remove kernel_machine _ K_HEAP_START 0x200000).
  - reflexivity.
  - unfold K_HEAP_START, TABLE_WINDOW; lia.
Defined.

(** X7.  [page_table_add] does not check the frame it takes for a new
    table.  When the directory entry of a page below the table window is
    absent and the kernel pool has no frame left, [palloc] answers [NULL]
    and [page_table_add] still returns: the directory entry it writes
    names frame 0 as the table. *)
Theorem page_table_add_table_frame_unchecked (st : state) (v p : Z) :
  0 <= v < TABLE_WINDOW ->
  present (mem st (pde_ptr v)) = false ->
  bitmap_scan (pool_bitmap (kernel_pool st)) 1 = -1 ->
  exists st',
    page_table_add v p st = Ok tt st' /\
    mem st' (pde_ptr v) = entry_of NULL /\
    mem st' (pte_ptr v) = entry_of p /\
    kernel_pool st' = kernel_pool st.
Proof.
  intros Hv Hpde Hfull.
  pose proof (pte_below_pde v Hv) as Hlt.
  pose proof (pde_ptr_range v) as Hrange.
  unfold TABLE_WINDOW in Hv.
  eexists. split.
  - unfold page_table_add, bind, get_state. rewrite Hpde.
    unfold palloc. cbn [get_pool]. rewrite Hfull.
    change (-1 =? -1) with true. cbv iota.
    unfold modify, ASSERT, store, memset0, set_mem; cbn [mem].
    rewrite (pte_in_own_page v).
    change (negb (present 0)) with true. cbv iota. reflexivity.
  - cbn [mem kernel_pool]. rewrite !Z.eqb_refl.
    destruct (Z.eqb_spec (pde_ptr v) (pte_ptr v)); [lia |].
    rewrite pte_page_arith by lia. unfold PG_SIZE.
    assert (Hout : (0xffc00000 + 4096 * (v / 4194304) <=? pde_ptr v)
                   && (pde_ptr v <? 0xffc00000 + 4096 * (v / 4194304) + 4096)
                   = false).
    { apply andb_false_iff. right. apply Z.ltb_ge.
      clear - Hv Hrange. Z.div_mod_to_equations. lia. }
    rewrite Hout. repeat split; reflexivity.
Qed.

Lemma page_table_add_table_frame_unchecked_witness :
  exists st',
    page_table_add 0x8048000 0x210000 exhausted_machine = Ok tt st' /\
    mem st' (pde_ptr 0x8048000) = entry_of NULL /\
    mem st' (pte_ptr 0x8048000) = entry_of 0x210000 /\
    kernel_pool st' = kernel_pool exhausted_machine.
Proof.
  apply page_table_add_table_frame_unchecked.
  - unfold TABLE_WINDOW; lia.
  - reflexivity.
  - reflexivity.
Defined.

(* ================================================================= *)
(** ** Taking and giving back: frames and virtual pages *)

Lemma set_nth_undo (bm : bitmap) (i : nat) :
  bit_free bm i -> set_nth (set_nth bm i true) i false = bm.
Proof.
  unfold bit_free. intros H. apply nth_error_ext. intros j.
  rewrite !nth_error_set_nth.
  destruct (Nat.eqb_spec j i) as [-> | _]; [| reflexivity].
  rewrite H. reflexivity.
Qed.

Lemma set_run_undo (bm : bitmap) (s n : nat) :
  free_run bm s n ->
  bitmap_set_run (bitmap_set_run bm (Z.of_nat s) n true) (Z.of_nat s) n false
  = bm.
Proof.
  intros Hrun. apply nth_error_ext. intros j.
  rewrite !nth_error_set_run.
  destruct ((s <=? j)%nat && (j <? s + n)%nat) eqn:E; [| reflexivity].
  apply andb_true_iff in E. destruct E as [E1 E2].
  apply Nat.leb_le in E1. apply Nat.ltb_lt in E2.
  specialize (Hrun (j - s)%nat ltac:(lia)).
  replace (s + (j - s))%nat with j in Hrun by lia.
  rewrite Hrun. reflexivity.
Qed.

Lemma set_pool_bitmap_undo (m_pool : pool_id) (bm : bitmap) (st : state) :
  set_pool_bitmap m_pool (pool_bitmap (get_pool m_pool st))
    (set_pool_bitmap m_pool bm st) = st.
Proof.
  destruct st as [[kb ks kz] [ub us uz] kv ds c m h].
  destruct m_pool; reflexivity.
Qed.

Lemma set_tracker_bitmap_undo (pf : pool_flags) (bm : bitmap) (st : state) :
  set_tracker_bitmap pf (vaddr_bitmap (get_tracker pf st))
    (set_tracker_bitmap pf bm st) = st.
Proof.
  destruct st as [kp up [kb ks] ds [pg [ub us] ud] m h].
  destruct pf; reflexivity.
Qed.

(** X8.  [palloc] then [pfree] is the identity.  With the pools placed
    one after the other inside the 32-bit space, giving back the frame
    [palloc] just returned finds the pool it came from and restores the
    state exactly as it was before the [palloc]. *)
Theorem pfree_palloc (m_pool : pool_id) (st st1 : state) (f : Z) :
  pools_placed st ->
  pool_fits (user_pool st) ->
  palloc m_pool st = Ok f st1 ->
  f <> NULL ->
  pfree f st1 = Ok tt st.
Proof.
  intros Hpl [Hu0 Hufit] Hp Hnz.
  destruct (palloc_cases m_pool st) as [[_ E] | (i & _ & Hfree & E)];
    rewrite E in Hp; injection Hp as <- <-; [congruence |].
  assert (Hi : (i < length (pool_bitmap (get_pool m_pool st)))%nat).
  { apply nth_error_Some. unfold bit_free in Hfree. congruence. }
  unfold pfree, PG_SIZE in *.
  destruct m_pool; cbn [get_pool] in *.
  - destruct (kernel_frame_facts st i Hpl Hi) as (_ & _ & _ & Hin & Hidx).
    cbn [set_pool_bitmap user_pool kernel_pool phy_addr_start pool_bitmap].
    destruct (Z.leb_spec (phy_addr_start (user_pool st))
                (frame_addr (kernel_pool st) i)); [lia |].
    unfold PG_SIZE in Hidx. rewrite Hidx, bitmap_set_nat.
    rewrite (set_nth_undo _ _ Hfree).
    f_equal. exact (set_pool_bitmap_undo KernelPool _ st).
  - assert (Hf : frame_addr (user_pool st) i
                 = Z.of_nat i * 4096 + phy_addr_start (user_pool st)).
    { unfold frame_addr, PG_SIZE. apply wrap32_small. lia. }
    cbn [set_pool_bitmap user_pool kernel_pool phy_addr_start pool_bitmap].
    rewrite Hf.
    destruct (Z.leb_spec (phy_addr_start (user_pool st))
                (Z.of_nat i * 4096 + phy_addr_start (user_pool st))); [| lia].
    replace (Z.of_nat i * 4096 + phy_addr_start (user_pool st)
             - phy_addr_start (user_pool st)) with (Z.of_nat i * 4096) by lia.
    rewrite wrap32_small by lia. rewrite Z.div_mul by lia.
    rewrite bitmap_set_nat, (set_nth_undo _ _ Hfree).
    f_equal. exact (set_pool_bitmap_undo UserPool _ st).
Qed.

Lemma pfree_palloc_witness :
  pfree 0x210000 (state_after (palloc UserPool) user_machine)
  = Ok tt user_machine.
Proof.
  apply (pfree_palloc UserPool).
  - unfold pools_placed. vm_compute. repeat split; discriminate.
  - unfold pool_fits. vm_compute. split; discriminate.
  - reflexivity.
  - discriminate.
Defined.

(** X9.  [vaddr_get] then [vaddr_remove] is the identity.  For a tracker
    whose pages lie inside the 32-bit space, releasing the run
    [vaddr_get] just reserved restores the state exactly as it was. *)
Theorem vaddr_remove_vaddr_get (pf : pool_flags) (st st1 : state)
    (pg_cnt v : Z) :
  tracker_fits (get_tracker pf st) ->
  0 < pg_cnt ->
  vaddr_get pf pg_cnt st = Ok v st1 ->
  v <> NULL ->
  vaddr_remove pf v pg_cnt st1 = Ok tt st.
Proof.
  intros [Hb Hfit] Hn Hget Hnz.
  destruct (vaddr_get_found _ _ _ _ _ Hget Hnz) as (s & Hrun & Hv & ->).
  pose proof (free_run_bound _ _ _ Hrun ltac:(lia)) as Hbound.
  unfold PG_SIZE in *.
  assert (Hveq : v = vaddr_start (get_tracker pf st) + Z.of_nat s * 4096)
    by (rewrite Hv; apply wrap32_small; lia).
  unfold vaddr_remove.
  assert (Htr : get_tracker pf
                  (set_tracker_bitmap pf
                     (bitmap_set_run (vaddr_bitmap (get_tracker pf st))
                        (Z.of_nat s) (Z.to_nat pg_cnt) true) st)
                = mkVaddr
                    (bitmap_set_run (vaddr_bitmap (get_tracker pf st))
                       (Z.of_nat s) (Z.to_nat pg_cnt) true)
                    (vaddr_start (get_tracker pf st)))
    by (destruct pf; reflexivity).
  rewrite Htr. cbn [vaddr_start vaddr_bitmap]. unfold PG_SIZE.
  replace (wrap32 (v - vaddr_start (get_tracker pf st)) / 4096)
    with (Z.of_nat s).
  - rewrite (set_run_undo _ _ _ Hrun). f_equal.
    apply set_tracker_bitmap_undo.
  - rewrite Hveq.
    replace (vaddr_start (get_tracker pf st) + Z.of_nat s * 4096
             - vaddr_start (get_tracker pf st)) with (Z.of_nat s * 4096) by lia.
    rewrite wrap32_small by lia. symmetry. apply Z.div_mul. lia.
Qed.

Lemma vaddr_remove_vaddr_get_witness :
  vaddr_remove PF_USER 0x8048000 3
    (state_after (vaddr_get PF_USER 3) user_machine)
  = Ok tt user_machine.
Proof.
  apply (vaddr_remove_vaddr_get PF_USER).
  - unfold tracker_fits. vm_compute. split; discriminate.
  - lia.
  - reflexivity.
  - discriminate.
Defined.

Lemma malloc_page_parts (pf : pool_flags) (pg_cnt a : Z) (st st1 : state) :
  malloc_page pf pg_cnt st = Ok a st1 ->
  a <> NULL ->
  0 < pg_cnt < 3840 /\
  exists stv,
    vaddr_get pf pg_cnt st = Ok a stv /\
    malloc_page_loop (pool_of pf) (Z.to_nat pg_cnt) a stv = Ok true st1.
Proof.
  intros H Hnz. unfold malloc_page, bind in H. unfold ASSERT at 1 in H.
  destruct ((0 <? pg_cnt) && (pg_cnt <? 3840)) eqn:Hcnt; [| discriminate].
  apply andb_true_iff in Hcnt. destruct Hcnt as [H1 H2].
  apply Z.ltb_lt in H1. apply Z.ltb_lt in H2. split; [lia |].
  destruct (vaddr_get pf pg_cnt st) as [v stv | |] eqn:Hres;
    [| discriminate | discriminate].
  destruct (Z.eqb_spec v NULL) as [Hz | Hvnz].
  { unfold ret in H. injection H as E _. congruence. }
  destruct (malloc_page_loop (pool_of pf) (Z.to_nat pg_cnt) v stv)
    as [ok st2 | |] eqn:Hloop; [| discriminate | discriminate].
  destruct ok; unfold ret in H;
    [injection H as -> <- | injection H as E _; congruence].
  exists stv. auto.
Qed.

Lemma clear_bits_in (idxs : list nat) :
  forall (bm : bitmap) (j : nat),
    In j idxs -> (j < length bm)%nat ->
    bit_free (clear_bits bm idxs) j.
Proof.
  unfold clear_bits, bit_free.
  induction idxs as [| i rest IH]; intros bm j Hin Hj; [destruct Hin |].
  cbn [fold_left].
  destruct (in_dec Nat.eq_dec j rest) as [Hr | Hr].
  - apply IH; [exact Hr | rewrite set_nth_length; exact Hj].
  - destruct Hin as [-> | Hin]; [| contradiction].
    assert (Hkeep : forall (l : list nat) (b : bitmap),
              ~ In j l ->
              nth_error (fold_left (fun b i => set_nth b i false) l b) j
              = nth_error b j).
    { induction l as [| x l IHl]; intros b Hx; [reflexivity |].
      cbn [fold_left]. rewrite IHl by (intros E; apply Hx; right; exact E).
      rewrite nth_error_set_nth.
      destruct (Nat.eqb_spec j x) as [-> | _];
        [exfalso; apply Hx; left; reflexivity | reflexivity]. }
    rewrite Hkeep by exact Hr.
    rewrite nth_error_set_nth, Nat.eqb_refl.
    destruct (nth_error bm j) eqn:E; [reflexivity |].
    apply nth_error_None in E. lia.
Qed.

Lemma clear_bits_out (idxs : list nat) :
  forall (bm : bitmap) (j : nat),
    ~ In j idxs -> nth_error (clear_bits bm idxs) j = nth_error bm j.
Proof.
  unfold clear_bits.
  induction idxs as [| i rest IH]; intros bm j Hout; [reflexivity |].
  cbn [fold_left]. rewrite IH by (intros E; apply Hout; right; exact E).
  rewrite nth_error_set_nth.
  destruct (Nat.eqb_spec j i) as [-> | _];
    [exfalso; apply Hout; left; reflexivity | reflexivity].
Qed.

(** Whatever its branch, the freeing loop touches frame bits and table
    words only. *)
Lemma mfree_page_loop_frame (user : bool) (n : nat) :
  forall (v : Z) (st st' : state),
    mfree_page_loop user n v st = Ok tt st' ->
    kernel_vaddr st' = kernel_vaddr st /\
    cur st' = cur st /\
    k_block_descs st' = k_block_descs st /\
    arenas st' = arenas st /\
    (forall p, phy_addr_start (get_pool p st') = phy_addr_start (get_pool p st)
               /\ pool_size (get_pool p st') = pool_size (get_pool p st)
               /\ length (pool_bitmap (get_pool p st'))
                  = length (pool_bitmap (get_pool p st))).
Proof.
  induction n as [| n IH]; intros v st st' H.
  - injection H as <-. repeat split.
  - cbn [mfree_page_loop] in H. unfold bind at 1 in H. unfold get_state in H.
    unfold bind at 1 in H.
    match type of H with
    | match ?c st with _ => _ end = _ =>
        destruct (c st) as [[] sta | |] eqn:Ha; [| discriminate | discriminate]
    end.
    assert (sta = st) as ->
      by (destruct user; unfold ASSERT in Ha;
          match type of Ha with (if ?b then _ else _) = _ => destruct b end;
          congruence).
    unfold bind at 1 in H.
    destruct (pfree (addr_v2p (wrap32 (v + PG_SIZE)) st) st)
      as [[] stb | |] eqn:Hb; [| discriminate | discriminate].
    unfold bind at 1 in H. unfold page_table_pte_remove in H.
    apply IH in H. destruct H as (H1 & H2 & H3 & H4 & H5).
    unfold pfree in Hb.
    destruct (_ <=? _) in Hb; injection Hb as <-;
      unfold store, set_mem in *;
      cbn [set_pool_bitmap kernel_vaddr cur k_block_descs arenas kernel_pool
             user_pool mem] in *;
      (repeat split; try assumption;
       destruct (H5 p) as (Q1 & Q2 & Q3); destruct p;
       cbn [get_pool kernel_pool user_pool phy_addr_start pool_size
              pool_bitmap] in *;
       rewrite ?bitmap_set_length in *; assumption).
Qed.

(** What [mfree_page] leaves alone when it returns. *)
Lemma mfree_page_frame (pf : pool_flags) (vaddr pg_cnt : Z)
    (st st' : state) :
  mfree_page pf vaddr pg_cnt st = Ok tt st' ->
  k_block_descs st' = k_block_descs st /\
  u_block_desc (cur st') = u_block_desc (cur st) /\
  pgdir (cur st') = pgdir (cur st) /\
  arenas st' = arenas st /\
  vaddr_start (kernel_vaddr st') = vaddr_start (kernel_vaddr st) /\
  vaddr_start (userprog_vaddr (cur st'))
  = vaddr_start (userprog_vaddr (cur st)) /\
  (forall pf', pf' <> pf ->
     vaddr_bitmap (get_tracker pf' st') = vaddr_bitmap (get_tracker pf' st)) /\
  (forall p, phy_addr_start (get_pool p st') = phy_addr_start (get_pool p st)
             /\ pool_size (get_pool p st') = pool_size (get_pool p st)
             /\ length (pool_bitmap (get_pool p st'))
                = length (pool_bitmap (get_pool p st))).
Proof.
  intros H. unfold mfree_page in H. unfold bind at 1 in H.
  unfold ASSERT at 1 in H.
  destruct ((1 <=? pg_cnt) && (vaddr mod PG_SIZE =? 0)); [| discriminate].
  unfold bind at 1 in H. unfold get_state in H.
  unfold bind at 1 in H. unfold ASSERT at 1 in H.
  destruct ((addr_v2p vaddr st mod PG_SIZE =? 0)
            && (0x102000 <=? addr_v2p vaddr st)); [| discriminate].
  unfold bind at 1 in H.
  destruct (mfree_page_loop _ _ _ st) as [[] st1 | |] eqn:Hloop;
    [| discriminate | discriminate].
  apply mfree_page_loop_frame in Hloop.
  destruct Hloop as (H1 & H2 & H3 & H4 & H5).
  unfold vaddr_remove in H. injection H as <-.
  destruct pf;
    cbn [set_tracker_bitmap get_tracker k_block_descs cur u_block_desc pgdir
           arenas kernel_vaddr userprog_vaddr vaddr_start vaddr_bitmap];
    rewrite ?H1, ?H2, ?H3, ?H4;
    (repeat split; try reflexivity;
     [ intros [|] Hne; try congruence;
       cbn [get_tracker kernel_vaddr cur userprog_vaddr vaddr_bitmap];
       rewrite ?H1, ?H2; reflexivity
     | destruct (H5 p) as (Q1 & _ & _); destruct p; exact Q1
     | destruct (H5 p) as (_ & Q2 & _); destruct p; exact Q2
     | destruct (H5 p) as (_ & _ & Q3); destruct p; exact Q3 ]).
Qed.

(** X10.  [mfree_page], when it returns, has changed frame bits, table
    words and the bits of the tracker of [pf] only: descriptors and their
    free lists, arena headers, the other tracker's bits, and the place and
    size of pools and trackers are as before. *)
Theorem mfree_page_touches_pages_only (pf : pool_flags) (vaddr pg_cnt : Z)
    (st st' : state) :
  mfree_page pf vaddr pg_cnt st = Ok tt st' ->
  k_block_descs st' = k_block_descs st /\
  u_block_desc (cur st') = u_block_desc (cur st) /\
  pgdir (cur st') = pgdir (cur st) /\
  arenas st' = arenas st /\
  vaddr_start (kernel_vaddr st') = vaddr_start (kernel_vaddr st) /\
  vaddr_start (userprog_vaddr (cur st'))
  = vaddr_start (userprog_vaddr (cur st)) /\
  (forall pf', pf' <> pf ->
     vaddr_bitmap (get_tracker pf' st') = vaddr_bitmap (get_tracker pf' st)) /\
  (forall p, phy_addr_start (get_pool p st') = phy_addr_start (get_pool p st)
             /\ pool_size (get_pool p st') = pool_size (get_pool p st)
             /\ length (pool_bitmap (get_pool p st'))
                = length (pool_bitmap (get_pool p st))).
Proof. exact (mfree_page_frame pf vaddr pg_cnt st st'). Qed.

Lemma mfree_page_touches_pages_only_witness :
  let st := state_after (malloc_page PF_KERNEL 2) kernel_machine in
  let st' := state_after (mfree_page PF_KERNEL K_HEAP_START 2) st in
  k_block_descs st' = k_block_descs st /\
  u_block_desc (cur st') = u_block_desc (cur st) /\
  pgdir (cur st') = pgdir (cur st) /\
  arenas st' = arenas st /\
  vaddr_start (kernel_vaddr st') = vaddr_start (kernel_vaddr st) /\
  vaddr_start (userprog_vaddr (cur st'))
  = vaddr_start (userprog_vaddr (cur st)) /\
  (forall pf', pf' <> PF_KERNEL ->
     vaddr_bitmap (get_tracker pf' st') = vaddr_bitmap (get_tracker pf' st)) /\
  (forall p, phy_addr_start (get_pool p st') = phy_addr_start (get_pool p st)
             /\ pool_size (get_pool p st') = pool_size (get_pool p st)
             /\ length (pool_bitmap (get_pool p st'))
                = length (pool_bitmap (get_pool p st))).
Proof.
  intros st st'.
  apply (mfree_page_touches_pages_only PF_KERNEL K_HEAP_START 2).
  apply (state_after_ok (mfree_page PF_KERNEL K_HEAP_START 2) st).
  reflexivity.
Defined.

(** X11.  What a successful [malloc_page] has done, for a run below the
    table window: the bits of the run, free before, are set in the
    tracker; one frame per page was taken from the pool of [pf], all
    different, each free before and used after; and page [j] of the run is
    mapped to frame [j] of them. *)
Theorem malloc_page_takes_and_maps (st st' : state) (pf : pool_flags)
    (pg_cnt vstart : Z) :
  malloc_page pf pg_cnt st = Ok vstart st' ->
  vstart <> NULL ->
  vstart + pg_cnt * PG_SIZE <= TABLE_WINDOW ->
  exists (s : nat) (idxs : list nat),
    Z.of_nat (length idxs) = pg_cnt /\
    vstart = wrap32 (vaddr_start (get_tracker pf st) + Z.of_nat s * PG_SIZE) /\
    (forall j, (s <= j < s + Z.to_nat pg_cnt)%nat ->
               bit_free (vaddr_bitmap (get_tracker pf st)) j /\
               bit_used (vaddr_bitmap (get_tracker pf st')) j) /\
    NoDup idxs /\
    (forall i, In i idxs ->
               bit_free (pool_bitmap (get_pool (pool_of pf) st)) i /\
               bit_used (pool_bitmap (get_pool (pool_of pf) st')) i) /\
    (forall j i, nth_error idxs j = Some i ->
                 maps_to st' (page_of vstart j)
                   (frame_addr (get_pool (pool_of pf) st) i)).
Proof. apply malloc_page_success. Qed.

Lemma malloc_page_takes_and_maps_witness :
  let st' := state_after (malloc_page PF_USER 3) user_machine in
  exists (s : nat) (idxs : list nat),
    Z.of_nat (length idxs) = 3 /\
    0x8048000
    = wrap32 (vaddr_start (get_tracker PF_USER user_machine)
              + Z.of_nat s * PG_SIZE) /\
    (forall j, (s <= j < s + Z.to_nat 3)%nat ->
               bit_free (vaddr_bitmap (get_tracker PF_USER user_machine)) j /\
               bit_used (vaddr_bitmap (get_tracker PF_USER st')) j) /\
    NoDup idxs /\
    (forall i, In i idxs ->
       bit_free (pool_bitmap (get_pool (pool_of PF_USER) user_machine)) i /\
       bit_used (pool_bitmap (get_pool (pool_of PF_USER) st')) i) /\
    (forall j i, nth_error idxs j = Some i ->
       maps_to st' (page_of 0x8048000 j)
         (frame_addr (get_pool (pool_of PF_USER) user_machine) i)).
Proof.
  intros st'.
  apply (malloc_page_takes_and_maps user_machine st' PF_USER 3 0x8048000).
  - apply (state_after_ok (malloc_page PF_USER 3) user_machine).
    reflexivity.
  - discriminate.
  - unfold PG_SIZE, TABLE_WINDOW; lia.
Defined.

(** X12.  Kernel pages: [malloc_page] then [mfree_page] undo each other.
    With pools and kernel tracker placed as [mem_pool_init] places them,
    [mfree_page] of a run [malloc_page PF_KERNEL] just returned passes
    every assertion, puts the kernel tracker back exactly as it was before
    the allocation, and frees again each of the [pg_cnt] frames taken for
    the pages; no other frame bit changes (a frame taken for a new table
    stays taken). *)
Theorem mfree_page_malloc_page_kernel (st st1 : state) (pg_cnt a : Z) :
  pools_placed st ->
  kernel_vaddr_placed st ->
  malloc_page PF_KERNEL pg_cnt st = Ok a st1 ->
  a <> NULL ->
  exists (idxs : list nat) (st2 : state),
    Z.of_nat (length idxs) = pg_cnt /\
    NoDup idxs /\
    (forall i, In i idxs ->
       bit_free (pool_bitmap (kernel_pool st)) i /\
       bit_used (pool_bitmap (kernel_pool st1)) i) /\
    mfree_page PF_KERNEL a pg_cnt st1 = Ok tt st2 /\
    kernel_vaddr st2 = kernel_vaddr st /\
    (forall i, In i idxs -> bit_free (pool_bitmap (kernel_pool st2)) i) /\
    (forall i, ~ In i idxs ->
       nth_error (pool_bitmap (kernel_pool st2)) i
       = nth_error (pool_bitmap (kernel_pool st1)) i) /\
    user_pool st2 = user_pool st1.
Proof.
  intros Hpl (Hkh & Hkal & Hkend) Hm Hnz.
  destruct (malloc_page_parts _ _ _ _ _ Hm Hnz) as (Hcnt & stv & Hres & Hloop).
  destruct (vaddr_get_found _ _ _ _ _ Hres Hnz) as (s & Hrun & Hv & Hstv).
  cbn [get_tracker] in Hrun, Hv, Hstv.
  pose proof (free_run_bound _ _ _ Hrun ltac:(lia)) as Hbound.
  pose proof (malloc_page_loop_grows _ _ _ _ _ _ Hloop) as (Gkv & Gcur & _ & G).
  destruct (G KernelPool) as (Gs & _ & [Gl _]).
  destruct (G UserPool) as (Gus & _ & _).
  rewrite Hstv in Gkv, Gs, Gl, Gus.
  cbn [get_pool set_tracker_bitmap kernel_pool user_pool kernel_vaddr]
    in Gkv, Gs, Gl, Gus.
  unfold PG_SIZE, TABLE_WINDOW, K_HEAP_START in *.
  assert (Haeq : a = vaddr_start (kernel_vaddr st) + Z.of_nat s * 4096)
    by (rewrite Hv; apply wrap32_small; lia).
  assert (Hal : a mod 4096 = 0)
    by (rewrite Haeq, Z_mod_plus_full; exact Hkal).
  assert (Hawin : a + pg_cnt * 4096 <= 0xffc00000)
    by (rewrite Haeq, <- (Z2Nat.id pg_cnt) by lia; lia).
  destruct (malloc_page_success _ _ _ _ _ Hm Hnz Hawin)
    as (_ & idxs & Hlen & _ & _ & Hnd & Hbits & Hmaps).
  cbn [pool_of get_pool] in Hbits, Hmaps.
  assert (Hpl1 : pools_placed st1)
    by (unfold pools_placed; rewrite Gs, Gus, <- Gl; exact Hpl).
  assert (Hin1 : forall i, In i idxs ->
            (i < length (pool_bitmap (kernel_pool st1)))%nat).
  { intros i Hi. destruct (Hbits i Hi) as [_ Hu].
    apply nth_error_Some. unfold bit_used in Hu. congruence. }
  assert (Hmaps1 : forall j i, nth_error idxs j = Some i ->
            (i < length (pool_bitmap (kernel_pool st1)))%nat /\
            maps_to st1 (page_of a j) (frame_addr (kernel_pool st1) i)).
  { intros j i Hj. split; [apply Hin1; exact (nth_error_In _ _ Hj) |].
    unfold frame_addr. rewrite Gs. apply Hmaps. exact Hj. }
  destruct (mfree_page_kernel PF_KERNEL a idxs st1 Hpl1 ltac:(lia)
              ltac:(lia) Hal
              ltac:(unfold PG_SIZE, TABLE_WINDOW; lia) Hmaps1)
    as (st2 & Hfree & Hbm2 & Hup2 & Htr2 & _).
  rewrite Hlen in Hfree.
  destruct (mfree_page_frame _ _ _ _ _ Hfree)
    as (_ & _ & _ & _ & Hstart2 & _).
  exists idxs, st2.
  split; [exact Hlen |]. split; [exact Hnd |]. split; [exact Hbits |].
  split; [exact Hfree |]. split; [| split; [| split; [| exact Hup2]]].
  - cbn [get_tracker] in Htr2. rewrite Gkv in Htr2, Hstart2.
    cbn [vaddr_bitmap vaddr_start] in Htr2, Hstart2.
    unfold PG_SIZE in Htr2.
    replace (wrap32 (a - vaddr_start (kernel_vaddr st)) / 4096)
      with (Z.of_nat s) in Htr2.
    + replace (length idxs) with (Z.to_nat pg_cnt) in Htr2 by lia.
      rewrite (set_run_undo _ _ _ Hrun) in Htr2.
      destruct (kernel_vaddr st2) as [b2 s2], (kernel_vaddr st) as [b0 s0].
      cbn [vaddr_bitmap vaddr_start] in *. congruence.
    + rewrite Haeq.
      replace (vaddr_start (kernel_vaddr st) + Z.of_nat s * 4096
               - vaddr_start (kernel_vaddr st)) with (Z.of_nat s * 4096)
        by lia.
      rewrite wrap32_small by lia. symmetry. apply Z.div_mul. lia.
  - intros i Hi. rewrite Hbm2. apply clear_bits_in; [exact Hi |].
    apply Hin1. exact Hi.
  - intros i Hi. rewrite Hbm2. apply clear_bits_out. exact Hi.
Qed.

Lemma mfree_page_malloc_page_kernel_witness :
  let st1 := state_after (malloc_page PF_KERNEL 2) kernel_machine in
  exists (idxs : list nat) (st2 : state),
    Z.of_nat (length idxs) = 2 /\
    NoDup idxs /\
    (forall i, In i idxs ->
       bit_free (pool_bitmap (kernel_pool kernel_machine)) i /\
       bit_used (pool_bitmap (kernel_pool st1)) i) /\
    mfree_page PF_KERNEL K_HEAP_START 2 st1 = Ok tt st2 /\
    kernel_vaddr st2 = kernel_vaddr kernel_machine /\
    (forall i, In i idxs -> bit_free (pool_bitmap (kernel_pool st2)) i) /\
    (forall i, ~ In i idxs ->
       nth_error (pool_bitmap (kernel_pool st2)) i
       = nth_error (pool_bitmap (kernel_pool st1)) i) /\
    user_pool st2 = user_pool st1.
Proof.
  intros st1.
  apply (mfree_page_malloc_page_kernel kernel_machine st1 2 K_HEAP_START).
  - unfold pools_placed. vm_compute. repeat split; discriminate.
  - unfold kernel_vaddr_placed. vm_compute. repeat split; discriminate.
  - apply (state_after_ok (malloc_page PF_KERNEL 2) kernel_machine).
    reflexivity.
  - discriminate.
Defined.

(** X13.  [get_a_page] does not take its mark back.  With matching
    kinds and a bit index above 0, when the pool has no frame left the
    call returns [NULL] with the tracker bit of [vaddr] marked all the
    same; nothing else changed. *)
Theorem get_a_page_exhausted_keeps_mark (st : state) (pf : pool_flags)
    (vaddr : Z) :
  context_matches pf st ->
  0 < page_bit_idx pf vaddr st ->
  bitmap_scan (pool_bitmap (get_pool (pool_of pf) st)) 1 = -1 ->
  get_a_page pf vaddr st
  = Ok NULL
      (set_tracker_bitmap pf
         (bitmap_set (vaddr_bitmap (get_tracker pf st))
            (page_bit_idx pf vaddr st) true) st).
Proof.
  intros Hctx Hidx Hfull. apply Z.ltb_lt in Hidx.
  assert (Hp : forall p pf' bm,
            get_pool p (set_tracker_bitmap pf' bm st) = get_pool p st)
    by (intros [] [] bm; reflexivity).
  unfold get_a_page, bind, get_state.
  destruct Hctx as [[Hc ->] | [Hc ->]];
    destruct (Z.eqb_spec (pgdir (cur st)) NULL); try contradiction;
    cbn [negb andb pool_flags_eqb pool_of get_tracker] in *;
    unfold ASSERT, modify; rewrite Hidx; unfold palloc;
    rewrite !Hp, Hfull; reflexivity.
Qed.

Lemma get_a_page_exhausted_keeps_mark_witness :
  get_a_page PF_KERNEL (K_HEAP_START + 3 * PG_SIZE) exhausted_machine
  = Ok NULL
      (set_tracker_bitmap PF_KERNEL
         (bitmap_set (vaddr_bitmap (get_tracker PF_KERNEL exhausted_machine))
            (page_bit_idx PF_KERNEL (K_HEAP_START + 3 * PG_SIZE)
               exhausted_machine) true) exhausted_machine) /\
  nth_error
    (bitmap_set (vaddr_bitmap (get_tracker PF_KERNEL exhausted_machine))
       (page_bit_idx PF_KERNEL (K_HEAP_START + 3 * PG_SIZE) exhausted_machine)
       true) 3
  = Some true.
Proof.
  split; [| reflexivity].
  apply get_a_page_exhausted_keeps_mark.
  - right. split; reflexivity.
  - reflexivity.
  - reflexivity.
Defined.

(** X14.  [get_kernel_pages] and [get_user_pages] return what
    [malloc_page] returns for their pool kind: they halt when it halts,
    answer [NULL] in the state it left when it answers [NULL], and
    otherwise return its address with the pages cleared: the header at
    the start of every page of the run is zero, while pools, trackers and
    descriptors are those [malloc_page] left, and so are the mappings
    when the run lies below the table window. *)
Theorem get_pages_cleared (pf : pool_flags) (pg_cnt : Z) (st : state) :
  (malloc_page pf pg_cnt st = Panic -> get_pages pf pg_cnt st = Panic) /\
  (forall stm,
     malloc_page pf pg_cnt st = Ok NULL stm ->
     get_pages pf pg_cnt st = Ok NULL stm) /\
  (forall v stm,
     malloc_page pf pg_cnt st = Ok v stm -> v <> NULL ->
     exists st',
       get_pages pf pg_cnt st = Ok v st' /\
       kernel_pool st' = kernel_pool stm /\ user_pool st' = user_pool stm /\
       kernel_vaddr st' = kernel_vaddr stm /\ cur st' = cur stm /\
       k_block_descs st' = k_block_descs stm /\
       (forall j, 0 <= j < pg_cnt ->
                  arenas st' (v + j * PG_SIZE) = zero_arena) /\
       (v + pg_cnt * PG_SIZE <= TABLE_WINDOW ->
        forall u f, maps_to stm u f -> maps_to st' u f)).
Proof.
  assert (Hrun : get_pages pf pg_cnt st
                 = (vaddr <- malloc_page pf pg_cnt ;;
                    if vaddr =? NULL then ret vaddr
                    else modify (memset0 vaddr (wrap32 (pg_cnt * PG_SIZE))) ;;;
                         ret vaddr) st)
    by (destruct pf; reflexivity).
  rewrite Hrun. unfold bind.
  split; [intros ->; reflexivity |].
  split; [intros stm ->; reflexivity |].
  intros v stm Hm Hnz. rewrite Hm.
  destruct (Z.eqb_spec v NULL) as [| _]; [contradiction |].
  unfold modify, ret. eexists. split; [reflexivity |].
  destruct (malloc_page_parts _ _ _ _ _ Hm Hnz) as (Hcnt & _).
  unfold PG_SIZE, TABLE_WINDOW in *.
  rewrite wrap32_small by lia.
  do 5 (split; [reflexivity |]).
  split.
  - intros j Hj. unfold memset0; cbn [arenas].
    destruct (Z.leb_spec v (v + j * 4096)); [| nia].
    destruct (Z.ltb_spec (v + j * 4096) (v + pg_cnt * 4096)); [| nia].
    reflexivity.
  - intros Hwin u f Hu.
    apply (maps_to_memset0 stm v (pg_cnt * 4096)); [exact Hwin | exact Hu].
Qed.

Lemma get_pages_cleared_witness :
  (exists st',
     get_kernel_pages 2 kernel_machine = Ok K_HEAP_START st' /\
     kernel_pool st'
     = kernel_pool (state_after (malloc_page PF_KERNEL 2) kernel_machine) /\
     arenas st' K_HEAP_START = zero_arena /\
     arenas st' (K_HEAP_START + PG_SIZE) = zero_arena) /\
  (exists st',
     get_user_pages 2 user_machine = Ok 0x8048000 st' /\
     user_pool st'
     = user_pool (state_after (malloc_page PF_USER 2) user_machine) /\
     arenas st' 0x8048000 = zero_arena /\
     arenas st' (0x8048000 + PG_SIZE) = zero_arena) /\
  get_kernel_pages 2 exhausted_machine
  = Ok NULL (state_after (malloc_page PF_KERNEL 2) exhausted_machine).
Proof.
  split; [| split].
  - destruct (get_pages_cleared PF_KERNEL 2 kernel_machine) as (_ & _ & H).
    destruct (H K_HEAP_START _
                (state_after_ok (malloc_page PF_KERNEL 2) kernel_machine
                   K_HEAP_START eq_refl) ltac:(discriminate))
      as (st' & H1 & H2 & _ & _ & _ & _ & H3 & _).
    exists st'. split; [exact H1 |]. split; [exact H2 |].
    split; [exact (H3 0 ltac:(lia)) | exact (H3 1 ltac:(lia))].
  - destruct (get_pages_cleared PF_USER 2 user_machine) as (_ & _ & H).
    destruct (H 0x8048000 _
                (state_after_ok (malloc_page PF_USER 2) user_machine
                   0x8048000 eq_refl) ltac:(discriminate))
      as (st' & H1 & _ & H2 & _ & _ & _ & H3 & _).
    exists st'. split; [exact H1 |]. split; [exact H2 |].
    split; [exact (H3 0 ltac:(lia)) | exact (H3 1 ltac:(lia))].
  - destruct (get_pages_cleared PF_KERNEL 2 exhausted_machine) as (_ & H & _).
    apply H.
    apply (state_after_ok (malloc_page PF_KERNEL 2) exhausted_machine).
    reflexivity.
Defined.

(* ================================================================= *)
(** ** Arenas, blocks and size classes *)

(** X15.  Every class [block_desc_init] sets up holds blocks of 16 to
    1024 bytes, as many as fit in a page after the arena header (one more
    would not fit), at least three, and starts with an empty free list. *)
Theorem block_desc_init_classes (d : mem_block_desc) :
  In d block_desc_init ->
  16 <= block_size d <= 1024 /\
  3 <= blocks_per_arena d /\
  sizeof_arena + blocks_per_arena d * block_size d <= PG_SIZE /\
  PG_SIZE < sizeof_arena + (blocks_per_arena d + 1) * block_size d /\
  free_list d = [].
Proof.
  intros H. vm_compute in H.
  repeat (destruct H as [<- | H];
          [vm_compute; repeat split; discriminate |]).
  destruct H.
Qed.

Lemma block_desc_init_classes_witness :
  16 <= 64 <= 1024 /\
  3 <= 63 /\
  sizeof_arena + 63 * 64 <= PG_SIZE /\
  PG_SIZE < sizeof_arena + (63 + 1) * 64 /\
  free_list (mkDesc 64 63 []) = [].
Proof.
  apply (block_desc_init_classes (mkDesc 64 63 [])).
  vm_compute. auto.
Defined.

(** X16.  Blocks and their arena.  For an arena at a page start whose
    class fits the page, [arena2block] of an index below the blocks per
    arena returns an address inside the arena's page, after the header,
    with the whole block before the page's end; [block2arena] of that
    address is the arena; and blocks of different indexes do not
    overlap. *)
Theorem block2arena_arena2block (st : state) (a : Z) (dp : desc_ptr)
    (d : mem_block_desc) (idx : Z) :
  0 <= a -> a mod PG_SIZE = 0 -> a + PG_SIZE <= 2 ^ 32 ->
  desc (arenas st a) = Some dp ->
  deref_desc dp st = Some d ->
  0 < block_size d ->
  sizeof_arena + blocks_per_arena d * block_size d <= PG_SIZE ->
  0 <= idx < blocks_per_arena d ->
  exists b,
    arena2block a idx st = Ok b st /\
    block2arena b = a /\
    a + sizeof_arena <= b /\ b + block_size d <= a + PG_SIZE /\
    forall idx' b',
      0 <= idx' < blocks_per_arena d -> idx < idx' ->
      arena2block a idx' st = Ok b' st ->
      b + block_size d <= b'.
Proof.
  intros Ha Hal Hend Hdesc Hd Hbs Hfit Hidx.
  assert (Hblk : forall j, 0 <= j < blocks_per_arena d ->
            arena2block a j st = Ok (a + sizeof_arena + j * block_size d) st).
  { intros j Hj. unfold arena2block, bind, get_state. rewrite Hdesc, Hd.
    unfold ret. f_equal.
    apply (block_addr_plain a (block_size d) (blocks_per_arena d) j);
      assumption. }
  exists (a + sizeof_arena + idx * block_size d).
  split; [apply Hblk; exact Hidx |].
  unfold PG_SIZE, sizeof_arena in *.
  split; [| split; [nia | split; [nia |]]].
  - assert (Ho : 0 <= 12 + idx * block_size d < 4096) by nia.
    unfold block2arena.
    replace (a + 12 + idx * block_size d)
      with (a + (12 + idx * block_size d)) by lia.
    revert Ho. generalize (12 + idx * block_size d). intros o Ho.
    rewrite land_frame32 by lia.
    clear - Ha Hal Hend Ho. Z.div_mod_to_equations. lia.
  - intros idx' b' Hidx' Hlt Hb'. rewrite (Hblk idx' Hidx') in Hb'.
    injection Hb' as <-. nia.
Qed.
Lemma block2arena_arena2block_witness :
  let st := state_after (sys_malloc 1000) kernel_machine in
  exists d,
    deref_desc (KDesc 6) st = Some d /\
    exists b,
      arena2block K_HEAP_START 1 st = Ok b st /\
      block2arena b = K_HEAP_START /\
      K_HEAP_START + sizeof_arena <= b /\
      b + block_size d <= K_HEAP_START + PG_SIZE /\
      forall idx' b',
        0 <= idx' < blocks_per_arena d -> 1 < idx' ->
        arena2block K_HEAP_START idx' st = Ok b' st ->
        b + block_size d <= b'.
Proof.
  intros st. eexists. split; [reflexivity |].
  apply (block2arena_arena2block st K_HEAP_START (KDesc 6)).
  - unfold K_HEAP_START; lia.
  - reflexivity.
  - unfold K_HEAP_START, PG_SIZE; lia.
  - reflexivity.
  - reflexivity.
  - reflexivity.
  - vm_compute. discriminate.
  - vm_compute. split; [discriminate | reflexivity].
Defined.

(** X17.  The search loop is a best fit.  Over the classes of
    [block_desc_init], a request of 1 to 1024 bytes gets the smallest
    class that holds it: the block is large enough, and it is either the
    16-byte class or less than twice the request.  Above 1024 bytes the
    loop runs off the array: no class is chosen, which is what the test
    [size > 1024] of [sys_malloc] keeps from the small path. *)
Theorem desc_search_best_fit (descs : list mem_block_desc) (size : Z) :
  classes_initialised descs ->
  0 < size ->
  (size <= 1024 ->
   exists d, chosen_desc descs size = Some d /\
             size <= block_size d /\
             (block_size d = 16 \/ block_size d < 2 * size)) /\
  (1024 < size ->
   desc_search descs size 0 DESC_CNT = DESC_CNT /\
   chosen_desc descs size = None).
Proof.
  intros Hinit Hpos.
  destruct (classes_initialised_shape descs Hinit)
    as (l0 & l1 & l2 & l3 & l4 & l5 & l6 & ->).
  unfold chosen_desc, DESC_CNT.
  cbn [desc_search nth_error block_size].
  split; intros Hsz;
    repeat match goal with
           | |- context [?a <=? ?b] =>
               destruct (Z.leb_spec a b); cbn [nth_error]
           end;
    try lia;
    try (split; reflexivity);
    eexists; (split; [reflexivity |]); cbn [block_size]; lia.
Qed.

Lemma desc_search_best_fit_witness :
  (exists d, chosen_desc block_desc_init 100 = Some d /\
             100 <= block_size d /\
             (block_size d = 16 \/ block_size d < 2 * 100)) /\
  desc_search block_desc_init 2000 0 DESC_CNT = DESC_CNT /\
  chosen_desc block_desc_init 2000 = None.
Proof.
  split.
  - apply (proj1 (desc_search_best_fit block_desc_init 100
                    (conj eq_refl eq_refl) ltac:(lia))).
    lia.
  - apply (proj2 (desc_search_best_fit block_desc_init 2000
                    (conj eq_refl eq_refl) ltac:(lia))).
    lia.
Defined.

(** What the small path does when the free list of the chosen class is
    not empty. *)
Lemma sys_malloc_small_pops (st : state) (size : Z) (d : mem_block_desc)
    (b : Z) (rest : list_t) :
  let PF := owner_flags st in
  let dp := desc_at PF (desc_search (get_descs PF st) size 0 DESC_CNT) in
  accepted size st -> size <= 1024 ->
  deref_desc dp st = Some d ->
  free_list d = b :: rest ->
  block2arena b < b ->
  exists st',
    sys_malloc size st = Ok b st' /\
    deref_desc dp st' = Some (with_free_list rest d) /\
    kernel_pool st' = kernel_pool st /\
    user_pool st' = user_pool st /\
    kernel_vaddr st' = kernel_vaddr st /\
    userprog_vaddr (cur st') = userprog_vaddr (cur st) /\
    cnt (arenas st' (block2arena b))
    = wrap32 (cnt (arenas st (block2arena b)) - 1) /\
    desc (arenas st' (block2arena b)) = desc (arenas st (block2arena b)).
Proof.
  intros PF dp [Hpos Hcap] Hsz Hd Hfl Hin.
  assert (Hacc : negb ((0 <? size)
                       && (size <? pool_size (get_pool (pool_of PF) st)))
                 = false).
  { destruct (Z.ltb_spec 0 size); [| lia].
    destruct (Z.ltb_spec size (pool_size (get_pool (pool_of PF) st)));
      [reflexivity | unfold PF in *; lia]. }
  unfold sys_malloc, bind, get_state. fold PF. rewrite Hacc.
  destruct (Z.ltb_spec 1024 size); [lia |].
  unfold sys_malloc_small, bind, get_state. fold dp. rewrite Hd, Hfl.
  cbn [list_empty]. unfold ret at 1. cbv iota beta.
  rewrite Hd, Hfl. cbn [list_pop]. unfold modify, ret.
  eexists. split; [reflexivity |].
  pose proof (deref_set_free_list dp rest st d Hd) as Hd'.
  assert (Hout : (b <=? block2arena b) && (block2arena b <? b + block_size d)
                 = false).
  { destruct (Z.leb_spec b (block2arena b)); [lia | reflexivity]. }
  split.
  { destruct dp; cbn [deref_desc set_arena set_arenas memset0 k_block_descs
                        cur u_block_desc] in *; exact Hd'. }
  unfold set_arena, set_arenas, memset0.
  cbn [kernel_pool user_pool kernel_vaddr cur arenas cnt desc].
  rewrite Z.eqb_refl, Hout. cbn [cnt desc].
  destruct dp; cbn [set_free_list kernel_pool user_pool kernel_vaddr cur
                      userprog_vaddr arenas];
    repeat split; reflexivity.
Qed.

(** X18.  The small path reuses a free block without touching a page.
    When the free list of the class chosen for an accepted request of at
    most 1024 bytes is not empty, [sys_malloc] returns its first block,
    which leaves the list; pools and trackers stay as they are, and, the
    block lying after the start of its page, the count of free blocks in
    the header of its arena goes down by one. *)
Theorem sys_malloc_small_reuses (st : state) (size : Z) (d : mem_block_desc)
    (b : Z) (rest : list_t) :
  let PF := owner_flags st in
  let dp := desc_at PF (desc_search (get_descs PF st) size 0 DESC_CNT) in
  accepted size st -> size <= 1024 ->
  deref_desc dp st = Some d ->
  free_list d = b :: rest ->
  block2arena b < b ->
  exists st',
    sys_malloc size st = Ok b st' /\
    deref_desc dp st' = Some (with_free_list rest d) /\
    kernel_pool st' = kernel_pool st /\
    user_pool st' = user_pool st /\
    kernel_vaddr st' = kernel_vaddr st /\
    userprog_vaddr (cur st') = userprog_vaddr (cur st) /\
    cnt (arenas st' (block2arena b))
    = wrap32 (cnt (arenas st (block2arena b)) - 1) /\
    desc (arenas st' (block2arena b)) = desc (arenas st (block2arena b)).
Proof. exact (sys_malloc_small_pops st size d b rest). Qed.

Lemma sys_malloc_small_reuses_witness :
  let st := state_after (sys_malloc 1000) kernel_machine in
  let b1 := K_HEAP_START + sizeof_arena + 1024 in
  let b2 := K_HEAP_START + sizeof_arena + 2048 in
  let d := mkDesc 1024 3 [b1; b2] in
  exists st',
    sys_malloc 600 st = Ok b1 st' /\
    deref_desc (KDesc 6) st' = Some (with_free_list [b2] d) /\
    kernel_pool st' = kernel_pool st /\
    user_pool st' = user_pool st /\
    kernel_vaddr st' = kernel_vaddr st /\
    userprog_vaddr (cur st') = userprog_vaddr (cur st) /\
    cnt (arenas st' (block2arena b1))
    = wrap32 (cnt (arenas st (block2arena b1)) - 1) /\
    desc (arenas st' (block2arena b1)) = desc (arenas st (block2arena b1)).
Proof.
  intros st b1 b2 d.
  apply (sys_malloc_small_reuses st 600 d b1 [b2]).
  - split; vm_compute; reflexivity.
  - lia.
  - vm_compute. reflexivity.
  - reflexivity.
  - vm_compute. reflexivity.
Defined.
(** X19.  A request the pool could hold but of 3840 pages or more halts
    the system.  An accepted request of more than
    [3839 * PG_SIZE - sizeof_arena] bytes (its page count does not wrap)
    reaches [malloc_page] with a page count outside [1, 3839], whose
    assertion fails: [sys_malloc] does not return [NULL] for it. *)
Theorem sys_malloc_huge_panics (st : state) (size : Z) :
  accepted size st ->
  3839 * PG_SIZE - sizeof_arena < size ->
  size + sizeof_arena + PG_SIZE - 1 < 2 ^ 32 ->
  sys_malloc size st = Panic.
Proof.
  intros [Hpos Hcap] Hbig Hw.
  unfold sys_malloc, bind, get_state.
  destruct (Z.ltb_spec 0 size); [| lia].
  destruct (Z.ltb_spec size
              (pool_size (get_pool (pool_of (owner_flags st)) st))); [| lia].
  cbn [andb negb].
  unfold PG_SIZE, sizeof_arena in *.
  destruct (Z.ltb_spec 1024 size); [| lia].
  unfold sys_malloc_large, malloc_page, bind, ASSERT.
  assert (Hcnt : 3840 <= DIV_ROUND_UP (size + sizeof_arena) PG_SIZE).
  { unfold DIV_ROUND_UP, PG_SIZE, sizeof_arena.
    rewrite wrap32_small by lia.
    apply Z.div_le_lower_bound; lia. }
  destruct (Z.ltb_spec (DIV_ROUND_UP (size + sizeof_arena) PG_SIZE) 3840);
    [lia |].
  rewrite andb_false_r. reflexivity.
Qed.

Lemma sys_malloc_huge_panics_witness :
  sys_malloc 16000000 booted_machine = Panic.
Proof.
  apply sys_malloc_huge_panics.
  - split; vm_compute; reflexivity.
  - vm_compute; reflexivity.
  - vm_compute; reflexivity.
Defined.

(** X20.  A small request that finds the kernel pool empty leaks a
    virtual page.  In a kernel thread, when the free list of the chosen
    class is empty, the kernel tracker still has a clear bit [s] and the
    kernel pool has no frame left, [sys_malloc] returns [NULL] and leaves
    bit [s] of the tracker set; pools and descriptors are unchanged. *)
Theorem sys_malloc_small_exhausted_keeps_page (st : state) (size : Z)
    (d : mem_block_desc) (s : nat) :
  pgdir (cur st) = NULL ->
  accepted size st -> size <= 1024 ->
  chosen_desc (k_block_descs st) size = Some d ->
  free_list d = [] ->
  bitmap_scan (vaddr_bitmap (kernel_vaddr st)) 1 = Z.of_nat s ->
  wrap32 (vaddr_start (kernel_vaddr st) + Z.of_nat s * PG_SIZE) <> NULL ->
  bitmap_scan (pool_bitmap (kernel_pool st)) 1 = -1 ->
  exists st',
    sys_malloc size st = Ok NULL st' /\
    bit_free (vaddr_bitmap (kernel_vaddr st)) s /\
    bit_used (vaddr_bitmap (kernel_vaddr st')) s /\
    kernel_pool st' = kernel_pool st /\
    user_pool st' = user_pool st /\
    k_block_descs st' = k_block_descs st /\
    cur st' = cur st.
Proof.
  intros Hk [Hpos Hcap] Hsz Hd Hfl Hscan Hnz Hfull.
  assert (HPF : owner_flags st = PF_KERNEL).
  { unfold owner_flags. rewrite Hk. reflexivity. }
  rewrite HPF in Hcap.
  assert (Hrun : free_run (vaddr_bitmap (kernel_vaddr st)) s 1).
  { destruct (bitmap_scan_found (vaddr_bitmap (kernel_vaddr st)) 1)
      as (s' & Hs' & Hr & _); [lia |].
    assert (s' = s) by lia. subst s'. exact Hr. }
  destruct (set_run_used _ s 1 s Hrun ltac:(lia)) as [Hfree Hused].
  unfold sys_malloc, bind, get_state. rewrite HPF.
  destruct (Z.ltb_spec 0 size); [| lia].
  destruct (Z.ltb_spec size (pool_size (get_pool (pool_of PF_KERNEL) st)));
    [| lia].
  cbn [andb negb].
  destruct (Z.ltb_spec 1024 size); [lia |].
  unfold sys_malloc_small, bind, get_state.
  unfold chosen_desc in Hd.
  cbn [get_descs desc_at deref_desc]. rewrite Hd, Hfl. cbn [list_empty].
  unfold malloc_page, bind, ASSERT. cbn [Z.ltb Z.compare andb Pos.compare
                                          Pos.compare_cont].
  unfold vaddr_get. cbn [get_tracker]. rewrite Hscan.
  destruct (Z.eqb_spec (Z.of_nat s) (-1)); [lia |].
  destruct (Z.eqb_spec
              (wrap32 (vaddr_start (kernel_vaddr st) + Z.of_nat s * PG_SIZE))
              NULL); [contradiction |].
  change (Z.to_nat 1) with 1%nat.
  cbn [malloc_page_loop]. unfold bind, palloc.
  cbn [pool_of get_pool set_tracker_bitmap kernel_pool].
  rewrite Hfull. cbn [Z.eqb]. unfold ret. change (NULL =? NULL) with true.
  cbv iota.
  eexists. split; [reflexivity |].
  cbn [kernel_vaddr vaddr_bitmap kernel_pool user_pool k_block_descs cur].
  repeat split; assumption.
Qed.

Lemma sys_malloc_small_exhausted_keeps_page_witness :
  exists st',
    sys_malloc 100 exhausted_machine = Ok NULL st' /\
    bit_free (vaddr_bitmap (kernel_vaddr exhausted_machine)) 0 /\
    bit_used (vaddr_bitmap (kernel_vaddr st')) 0 /\
    kernel_pool st' = kernel_pool exhausted_machine /\
    user_pool st' = user_pool exhausted_machine /\
    k_block_descs st' = k_block_descs exhausted_machine /\
    cur st' = cur exhausted_machine.
Proof.
  apply (sys_malloc_small_exhausted_keeps_page exhausted_machine 100
           (mkDesc 128 31 []) 0).
  - reflexivity.
  - split; vm_compute; reflexivity.
  - lia.
  - reflexivity.
  - reflexivity.
  - reflexivity.
  - vm_compute. discriminate.
  - reflexivity.
Defined.
(* ================================================================= *)
(** ** [sys_free] and [mfree_page] on sample machines *)

(** X21.  [sys_free] of a block of a small arena whose count does not
    reach the blocks per arena: the block is appended to the free list of
    the arena's class, the count in the header goes up by one (class and
    kind of the header stay), and no pool, tracker or table word
    changes. *)
Theorem sys_free_keeps_arena (ptr : Z) (st : state) (dp : desc_ptr)
    (d : mem_block_desc) :
  ptr <> NULL ->
  (pgdir (cur st) = NULL -> K_HEAP_START <= ptr) ->
  desc (arenas st (block2arena ptr)) = Some dp ->
  deref_desc dp st = Some d ->
  wrap32 (cnt (arenas st (block2arena ptr)) + 1) <> blocks_per_arena d ->
  exists st',
    sys_free ptr st = Ok tt st' /\
    kernel_pool st' = kernel_pool st /\
    user_pool st' = user_pool st /\
    kernel_vaddr st' = kernel_vaddr st /\
    userprog_vaddr (cur st') = userprog_vaddr (cur st) /\
    mem st' = mem st /\
    cnt (arenas st' (block2arena ptr))
    = wrap32 (cnt (arenas st (block2arena ptr)) + 1) /\
    deref_desc dp st' = Some (with_free_list (free_list d ++ [ptr]) d) /\
    desc (arenas st' (block2arena ptr)) = Some dp /\
    large (arenas st' (block2arena ptr))
    = large (arenas st (block2arena ptr)) /\
    (forall x, x <> block2arena ptr -> arenas st' x = arenas st x).
Proof.
  intros Hnz Hheap Hdesc Hd Hcnt.
  unfold sys_free, bind, get_state.
  unfold ASSERT at 1.
  destruct (Z.eqb_spec ptr NULL) as [| _]; [contradiction |]. cbn [negb].
  assert (Hguard : (if pgdir (cur st) =? NULL
                    then ASSERT (K_HEAP_START <=? ptr) else ret tt) st
                   = Ok tt st).
  { destruct (Z.eqb_spec (pgdir (cur st)) NULL) as [E |]; [| reflexivity].
    unfold ASSERT. destruct (Z.leb_spec K_HEAP_START ptr); [reflexivity |].
    specialize (Hheap E). lia. }
  rewrite Hguard, Hdesc, Hd.
  unfold modify.
  destruct (Z.eqb_spec (wrap32 (cnt (arenas st (block2arena ptr)) + 1))
              (blocks_per_arena d)) as [| _]; [contradiction |].
  unfold ret. eexists. split; [reflexivity |].
  pose proof (deref_set_free_list dp (list_append (free_list d) ptr) st d Hd)
    as Hd'.
  unfold set_arena, set_arenas.
  destruct dp; cbn [set_free_list kernel_pool user_pool kernel_vaddr cur
                      userprog_vaddr mem arenas deref_desc k_block_descs
                      u_block_desc] in *;
    rewrite Z.eqb_refl; cbn [desc cnt large].
  all: do 6 (split; [reflexivity |]).
  all: split; [exact Hd' |].
  all: split; [reflexivity |].
  all: split; [reflexivity |].
  all: intros x Hx; destruct (Z.eqb_spec x (block2arena ptr));
    [contradiction | reflexivity].
Qed.

Lemma sys_free_keeps_arena_witness :
  let st := state_after (sys_malloc 1000 ;;; sys_malloc 1000) kernel_machine in
  let ptr := K_HEAP_START + sizeof_arena in
  let d := mkDesc 1024 3 [K_HEAP_START + sizeof_arena + 2048] in
  exists st',
    sys_free ptr st = Ok tt st' /\
    kernel_pool st' = kernel_pool st /\
    user_pool st' = user_pool st /\
    kernel_vaddr st' = kernel_vaddr st /\
    userprog_vaddr (cur st') = userprog_vaddr (cur st) /\
    mem st' = mem st /\
    cnt (arenas st' (block2arena ptr))
    = wrap32 (cnt (arenas st (block2arena ptr)) + 1) /\
    deref_desc (KDesc 6) st'
    = Some (with_free_list (free_list d ++ [ptr]) d) /\
    desc (arenas st' (block2arena ptr)) = Some (KDesc 6) /\
    large (arenas st' (block2arena ptr))
    = large (arenas st (block2arena ptr)) /\
    (forall x, x <> block2arena ptr -> arenas st' x = arenas st x).
Proof.
  intros st ptr d.
  apply (sys_free_keeps_arena ptr st (KDesc 6) d).
  - vm_compute. discriminate.
  - intros _. vm_compute. discriminate.
  - vm_compute. reflexivity.
  - vm_compute. reflexivity.
  - vm_compute. discriminate.
Defined.

(** X23.  Freeing the last block in use of a small arena gives the page
    back.  In a kernel thread with the pools placed as [mem_init] places
    them, when the block [ptr] is the only block of its arena not on the
    free list of its class (the count in the header is one short of the
    blocks per arena), [sys_free] passes every assertion, takes every
    block of the arena off the free list while the other entries stay,
    and clears the bit of the kernel frame the arena's page is mapped
    to; the user pool is untouched. *)
Theorem sys_free_last_block_returns_page (st : state) (ptr : Z)
    (dp : desc_ptr) (d : mem_block_desc) (i : nat) :
  let a := block2arena ptr in
  let bs := block_size d in
  let bpa := blocks_per_arena d in
  pgdir (cur st) = NULL ->
  pools_placed st ->
  K_HEAP_START <= ptr ->
  a + PG_SIZE <= TABLE_WINDOW ->
  desc (arenas st a) = Some dp ->
  deref_desc dp st = Some d ->
  0 < bs -> sizeof_arena + bpa * bs <= PG_SIZE ->
  wrap32 (cnt (arenas st a) + 1) = bpa ->
  (exists k, 0 <= k < bpa /\ ptr = block_addr a bs k) ->
  (forall j, 0 <= j < bpa -> block_addr a bs j <> ptr ->
             In (block_addr a bs j) (free_list d)) ->
  (i < length (pool_bitmap (kernel_pool st)))%nat ->
  maps_to st a (frame_addr (kernel_pool st) i) ->
  exists st' d',
    sys_free ptr st = Ok tt st' /\
    deref_desc dp st' = Some d' /\
    (forall x, In x (free_list d') <->
               In x (free_list d) /\
               forall j, 0 <= j < bpa -> x <> block_addr a bs j) /\
    pool_bitmap (kernel_pool st')
    = set_nth (pool_bitmap (kernel_pool st)) i false /\
    user_pool st' = user_pool st.
Proof. exact (sys_free_whole_arena_kernel st ptr dp d i). Qed.

Lemma sys_free_last_block_returns_page_witness :
  let st := state_after (sys_malloc 1000) kernel_machine in
  let ptr := K_HEAP_START + sizeof_arena in
  let d := mkDesc 1024 3 [K_HEAP_START + sizeof_arena + 1024;
                          K_HEAP_START + sizeof_arena + 2048] in
  exists st' d',
    sys_free ptr st = Ok tt st' /\
    deref_desc (KDesc 6) st' = Some d' /\
    (forall x, In x (free_list d') <->
               In x (free_list d) /\
               forall j, 0 <= j < 3 ->
                         x <> block_addr (block2arena ptr) 1024 j) /\
    pool_bitmap (kernel_pool st')
    = set_nth (pool_bitmap (kernel_pool st)) 0 false /\
    user_pool st' = user_pool st.
Proof.
  intros st ptr d.
  apply (sys_free_last_block_returns_page st ptr (KDesc 6) d 0).
  - reflexivity.
  - unfold pools_placed. vm_compute. repeat split; discriminate.
  - vm_compute. discriminate.
  - vm_compute. discriminate.
  - vm_compute. reflexivity.
  - vm_compute. reflexivity.
  - reflexivity.
  - vm_compute. discriminate.
  - vm_compute. reflexivity.
  - exists 0. split; [split; [discriminate | reflexivity] |].
    vm_compute. reflexivity.
  - intros j Hj Hne.
    assert (Hc : j = 0 \/ j = 1 \/ j = 2)
      by (change (blocks_per_arena d) with 3 in Hj; lia).
    destruct Hc as [-> | [-> | ->]].
    + exfalso. apply Hne. vm_compute. reflexivity.
    + left. vm_compute. reflexivity.
    + right. left. vm_compute. reflexivity.
  - vm_compute. repeat constructor.
  - split; vm_compute; reflexivity.
Defined.

Lemma sys_free_large_kernel_witness :
  let st1 := state_after (sys_malloc 5000) kernel_machine in
  exists (a : Z) (idxs : list nat) (st2 : state),
    K_HEAP_START + sizeof_arena = a + sizeof_arena /\
    arenas st1 a = mkArena None 2 true /\
    Z.of_nat (length idxs) = 2 /\
    NoDup idxs /\
    (forall i, In i idxs ->
       bit_free (pool_bitmap (kernel_pool kernel_machine)) i /\
       bit_used (pool_bitmap (kernel_pool st1)) i) /\
    sys_free (K_HEAP_START + sizeof_arena) st1 = Ok tt st2 /\
    pool_bitmap (kernel_pool st2)
    = clear_bits (pool_bitmap (kernel_pool st1)) idxs /\
    user_pool st2 = user_pool st1.
Proof.
  intros st1.
  apply (sys_free_large_kernel kernel_machine st1 5000
           (K_HEAP_START + sizeof_arena)).
  - reflexivity.
  - unfold pools_placed. vm_compute. repeat split; discriminate.
  - unfold kernel_vaddr_placed. vm_compute. repeat split; discriminate.
  - lia.
  - vm_compute. reflexivity.
  - apply (state_after_ok (sys_malloc 5000) kernel_machine). reflexivity.
  - vm_compute. discriminate.
Defined.

Lemma mfree_page_user_frame_bit12_panics_witness :
  mfree_page PF_USER 0x8049000 1
    (state_after (malloc_page PF_USER 2) user_machine)
  = Panic.
Proof.
  apply mfree_page_user_frame_bit12_panics.
  - lia.
  - lia.
  - vm_compute. discriminate.
  - vm_compute. discriminate.
Defined.
(* ================================================================= *)
(** ** Boot-time set-up: [mem_pool_init] and [mem_init] *)

Lemma wrap16_range (x : Z) : 0 <= wrap16 x < 2 ^ 16.
Proof. unfold wrap16. apply Z.mod_pos_bound. lia. Qed.

Lemma wrap16_small (x : Z) : 0 <= x < 2 ^ 16 -> wrap16 x = x.
Proof. unfold wrap16. apply Z.mod_small. Qed.

Lemma bitmap_init_length (n : nat) : length (bitmap_init n) = n.
Proof. apply repeat_length. Qed.

Lemma bitmap_init_free (n i : nat) :
  (i < n)%nat -> bit_free (bitmap_init n) i.
Proof.
  intros H. unfold bit_free, bitmap_init.
  rewrite nth_error_repeat by exact H. reflexivity.
Qed.

(** What [mem_pool_init] computes, with the wrap-arounds resolved: [P]
    pages are managed, [P / 2] of them by the kernel pool, the rest by
    the user pool; each bitmap has a bit for every full group of eight
    pages. *)
Lemma mem_pool_init_layout (all_mem : Z) (st : state) :
  exists P K : Z,
    P = wrap16 (wrap32 (all_mem - 0x200000) / PG_SIZE) /\
    0 <= P < 2 ^ 16 /\ K = P / 2 /\
    kernel_pool (mem_pool_init all_mem st)
    = mkPool (bitmap_init (Z.to_nat (K / 8 * 8))) 0x200000 (K * PG_SIZE) /\
    user_pool (mem_pool_init all_mem st)
    = mkPool (bitmap_init (Z.to_nat ((P - K) / 8 * 8)))
        (0x200000 + K * PG_SIZE) ((P - K) * PG_SIZE) /\
    kernel_vaddr (mem_pool_init all_mem st)
    = mkVaddr (bitmap_init (Z.to_nat (K / 8 * 8))) K_HEAP_START.
Proof.
  set (P := wrap16 (wrap32 (all_mem - 0x200000) / PG_SIZE)).
  pose proof (wrap16_range (wrap32 (all_mem - 0x200000) / PG_SIZE)) as HP.
  fold P in HP. change (2 ^ 16) with 65536 in HP.
  exists P, (P / 2).
  assert (HK : 0 <= P / 2 < 32768) by (Z.div_mod_to_equations; lia).
  assert (HU : 0 <= P - P / 2 < 32769) by (Z.div_mod_to_equations; lia).
  split; [reflexivity |]. split; [exact HP |]. split; [reflexivity |].
  unfold mem_pool_init; cbn [kernel_pool user_pool kernel_vaddr].
  change (wrap32 (wrap32 (PG_SIZE * 256) + 0x100000)) with 0x200000.
  fold P.
  rewrite (wrap16_small (P / 2)) by (change (2 ^ 16) with 65536; lia).
  rewrite (wrap16_small (P - P / 2)) by (change (2 ^ 16) with 65536; lia).
  unfold PG_SIZE.
  rewrite (wrap32_small (P / 2 * 4096)) by lia.
  rewrite (wrap32_small ((P - P / 2) * 4096)) by lia.
  rewrite (wrap32_small (0x200000 + P / 2 * 4096)) by lia.
  repeat split.
Qed.

(** X25.  [mem_init] leaves the machine as the allocator needs it, for
    every amount of memory: the kernel pool starts at 0x200000 and, by
    its size, ends where the user pool starts, its bitmap covering no
    more than its size; both pools lie inside the 32-bit space; the kernel
    tracker starts at [K_HEAP_START] and ends below the table window;
    tracker and kernel pool have the same number of bits; every bit of
    the three bitmaps is clear; and the kernel descriptors are the seven
    classes with empty free lists. *)
Theorem mem_init_ready (mem_bytes_total : Z) (st : state) :
  let st' := mem_init mem_bytes_total st in
  phy_addr_start (kernel_pool st') = 0x200000 /\
  phy_addr_start (user_pool st')
  = 0x200000 + pool_size (kernel_pool st') /\
  Z.of_nat (length (pool_bitmap (kernel_pool st'))) * PG_SIZE
  <= pool_size (kernel_pool st') /\
  vaddr_start (kernel_vaddr st') = K_HEAP_START /\
  pools_placed st' /\
  kernel_vaddr_placed st' /\
  pool_fits (kernel_pool st') /\ pool_fits (user_pool st') /\
  tracker_fits (kernel_vaddr st') /\
  length (vaddr_bitmap (kernel_vaddr st'))
  = length (pool_bitmap (kernel_pool st')) /\
  (forall i, (i < length (pool_bitmap (kernel_pool st')))%nat ->
             bit_free (pool_bitmap (kernel_pool st')) i /\
             bit_free (vaddr_bitmap (kernel_vaddr st')) i) /\
  (forall i, (i < length (pool_bitmap (user_pool st')))%nat ->
             bit_free (pool_bitmap (user_pool st')) i) /\
  k_block_descs st' = block_desc_init /\
  cur st' = cur st /\ mem st' = mem st /\ arenas st' = arenas st.
Proof.
  intros st'.
  destruct (mem_pool_init_layout mem_bytes_total st)
    as (P & K & _ & HP & HK & Hkp & Hup & Hkv).
  assert (Ekp : kernel_pool st' = kernel_pool (mem_pool_init mem_bytes_total st))
    by reflexivity.
  assert (Eup : user_pool st' = user_pool (mem_pool_init mem_bytes_total st))
    by reflexivity.
  assert (Ekv : kernel_vaddr st'
                = kernel_vaddr (mem_pool_init mem_bytes_total st))
    by reflexivity.
  rewrite Hkp in Ekp. rewrite Hup in Eup. rewrite Hkv in Ekv.
  change (2 ^ 16) with 65536 in HP.
  assert (HK8 : 0 <= K / 8 * 8 <= K) by (Z.div_mod_to_equations; lia).
  assert (HU8 : 0 <= (P - K) / 8 * 8 <= P - K)
    by (Z.div_mod_to_equations; lia).
  assert (HKb : 0 <= K < 32768) by (Z.div_mod_to_equations; lia).
  unfold pools_placed, kernel_vaddr_placed, pool_fits, tracker_fits.
  rewrite Ekp, Eup, Ekv.
  cbn [pool_bitmap phy_addr_start pool_size vaddr_bitmap vaddr_start].
  rewrite !bitmap_init_length, !Z2Nat.id by lia.
  unfold PG_SIZE, K_HEAP_START, TABLE_WINDOW.
  change (2 ^ 32) with 4294967296.
  split; [reflexivity |]. split; [reflexivity |]. split; [lia |].
  split; [reflexivity |].
  split; [repeat split; try lia; reflexivity |].
  split; [repeat split; try lia; reflexivity |].
  split; [lia |]. split; [lia |]. split; [lia |].
  split; [reflexivity |].
  split; [intros i Hi; split; apply bitmap_init_free; exact Hi |].
  split; [intros i Hi; apply bitmap_init_free; exact Hi |].
  repeat split.
Qed.

(** X26.  Frames stay inside the memory.  When the machine has at least
    the 2 MB [mem_pool_init] sets aside and fewer than 65536 pages beyond
    them, every frame of the kernel pool lies between 0x200000 and the
    start of the user pool, every frame of the user pool lies between that
    start and the end of memory, and each pool loses fewer than eight of
    its pages to the rounding of the bitmap length. *)
Theorem mem_pool_init_frames_inside (all_mem : Z) (st : state) :
  0x200000 <= all_mem < 0x200000 + 2 ^ 16 * PG_SIZE ->
  let st' := mem_pool_init all_mem st in
  (forall i, (i < length (pool_bitmap (kernel_pool st')))%nat ->
     0x200000 <= frame_addr (kernel_pool st') i /\
     frame_addr (kernel_pool st') i + PG_SIZE
     <= phy_addr_start (user_pool st')) /\
  (forall i, (i < length (pool_bitmap (user_pool st')))%nat ->
     phy_addr_start (user_pool st') <= frame_addr (user_pool st') i /\
     frame_addr (user_pool st') i + PG_SIZE <= all_mem) /\
  pool_size (kernel_pool st') + pool_size (user_pool st')
  = (all_mem - 0x200000) / PG_SIZE * PG_SIZE /\
  pool_size (kernel_pool st')
  < Z.of_nat (length (pool_bitmap (kernel_pool st'))) * PG_SIZE
    + 8 * PG_SIZE /\
  pool_size (user_pool st')
  < Z.of_nat (length (pool_bitmap (user_pool st'))) * PG_SIZE
    + 8 * PG_SIZE.
Proof.
  intros Hmem st'.
  destruct (mem_pool_init_layout all_mem st)
    as (P & K & HPdef & HP & HK & Hkp & Hup & _).
  fold st' in Hkp, Hup. rewrite Hkp, Hup.
  cbn [pool_bitmap phy_addr_start pool_size].
  unfold PG_SIZE in *. change (2 ^ 16) with 65536 in *.
  assert (HPeq : P = (all_mem - 0x200000) / 4096).
  { rewrite HPdef. rewrite wrap32_small by lia.
    apply wrap16_small. change (2 ^ 16) with 65536.
    split; [apply Z.div_pos; lia | apply Z.div_lt_upper_bound; lia]. }
  assert (HPm : P * 4096 <= all_mem - 0x200000).
  { rewrite HPeq. rewrite Z.mul_comm. apply Z.mul_div_le. lia. }
  assert (HK8 : 0 <= K / 8 * 8 <= K /\ K < K / 8 * 8 + 8)
    by (Z.div_mod_to_equations; lia).
  assert (HU8 : 0 <= (P - K) / 8 * 8 <= P - K /\ P - K < (P - K) / 8 * 8 + 8)
    by (Z.div_mod_to_equations; lia).
  assert (HKb : 0 <= K <= P) by (Z.div_mod_to_equations; lia).
  rewrite !bitmap_init_length, !Z2Nat.id by lia.
  split; [| split; [| split; [| split]]].
  - intros i Hi. unfold frame_addr, PG_SIZE; cbn [phy_addr_start].
    rewrite wrap32_small by lia. lia.
  - intros i Hi. unfold frame_addr, PG_SIZE; cbn [phy_addr_start].
    rewrite wrap32_small by lia. lia.
  - rewrite <- HPeq. lia.
  - lia.
  - lia.
Qed.

Lemma mem_pool_init_frames_inside_witness :
  let st' := mem_pool_init 0x2000000 kernel_machine in
  (forall i, (i < length (pool_bitmap (kernel_pool st')))%nat ->
     0x200000 <= frame_addr (kernel_pool st') i /\
     frame_addr (kernel_pool st') i + PG_SIZE
     <= phy_addr_start (user_pool st')) /\
  (forall i, (i < length (pool_bitmap (user_pool st')))%nat ->
     phy_addr_start (user_pool st') <= frame_addr (user_pool st') i /\
     frame_addr (user_pool st') i + PG_SIZE <= 0x2000000) /\
  pool_size (kernel_pool st') + pool_size (user_pool st')
  = (0x2000000 - 0x200000) / PG_SIZE * PG_SIZE /\
  pool_size (kernel_pool st')
  < Z.of_nat (length (pool_bitmap (kernel_pool st'))) * PG_SIZE
    + 8 * PG_SIZE /\
  pool_size (user_pool st')
  < Z.of_nat (length (pool_bitmap (user_pool st'))) * PG_SIZE
    + 8 * PG_SIZE.
Proof.
  apply (mem_pool_init_frames_inside 0x2000000 kernel_machine).
  unfold PG_SIZE. lia.
Defined.

(** X27.  The 16-bit page counts cap what is managed.  For every amount
    of memory the two pools together manage
    [((all_mem - 0x200000) mod 2^32 / PG_SIZE) mod 2^16] pages, hence less
    than 256 MB, the user pool as many as the kernel pool or one more; at
    0x200000 + 2^16 pages and above the count has wrapped, so the pools
    manage less than the memory beyond the first 2 MB holds. *)
Theorem mem_pool_init_page_count_wraps (all_mem : Z) (st : state) :
  let st' := mem_pool_init all_mem st in
  let pages := wrap16 (wrap32 (all_mem - 0x200000) / PG_SIZE) in
  pool_size (kernel_pool st') + pool_size (user_pool st') = pages * PG_SIZE /\
  pool_size (kernel_pool st') + pool_size (user_pool st') < 2 ^ 28 /\
  (pool_size (user_pool st') = pool_size (kernel_pool st') \/
   pool_size (user_pool st') = pool_size (kernel_pool st') + PG_SIZE) /\
  (0x200000 + 2 ^ 16 * PG_SIZE <= all_mem < 2 ^ 32 ->
   pool_size (kernel_pool st') + pool_size (user_pool st') + 2 ^ 28
   <= (all_mem - 0x200000) / PG_SIZE * PG_SIZE).
Proof.
  intros st' pages.
  destruct (mem_pool_init_layout all_mem st)
    as (P & K & HPdef & HP & HK & Hkp & Hup & _).
  fold st' in Hkp, Hup. rewrite Hkp, Hup. fold pages in HPdef.
  rewrite <- HPdef. clear Hkp Hup.
  cbn [pool_size]. unfold PG_SIZE in *.
  change (2 ^ 16) with 65536 in *. change (2 ^ 28) with 268435456.
  change (2 ^ 32) with 4294967296.
  split; [lia |]. split; [lia |].
  split; [clear HPdef; Z.div_mod_to_equations; lia |].
  intros Hbig.
  assert (Hq : P + 65536 <= (all_mem - 0x200000) / 4096).
  { rewrite HPdef. unfold pages, wrap16.
    rewrite wrap32_small by (change (2 ^ 32) with 4294967296; lia).
    change (2 ^ 16) with 65536.
    assert (65536 <= (all_mem - 0x200000) / 4096)
      by (apply Z.div_le_lower_bound; lia).
    assert ((all_mem - 0x200000) / 4096 < 2 * 65536 * 8)
      by (apply Z.div_lt_upper_bound; lia).
    pose proof (Z.mod_pos_bound ((all_mem - 0x200000) / 4096) 65536
                  ltac:(lia)).
    pose proof (Z.div_mod ((all_mem - 0x200000) / 4096) 65536 ltac:(lia)).
    assert (1 <= (all_mem - 0x200000) / 4096 / 65536)
      by (apply Z.div_le_lower_bound; lia).
    nia. }
  lia.
Qed.

Lemma mem_pool_init_page_count_wraps_witness :
  let st' := mem_pool_init 0x10201000 kernel_machine in
  pool_size (kernel_pool st') + pool_size (user_pool st') = 1 * PG_SIZE /\
  pool_size (kernel_pool st') + pool_size (user_pool st') + 2 ^ 28
  <= (0x10201000 - 0x200000) / PG_SIZE * PG_SIZE.
Proof.
  intros st'.
  pose proof (mem_pool_init_page_count_wraps 0x10201000 kernel_machine) as H.
  cbv zeta in H. destruct H as (H1 & _ & _ & H4).
  split; [exact H1 | apply H4].
  unfold PG_SIZE. lia.
Defined.
(* ================================================================= *)
(** ** Opening an arena *)

Lemma malloc_page_keeps_descs (pf : pool_flags) (pg_cnt a : Z)
    (st st1 : state) :
  malloc_page pf pg_cnt st = Ok a st1 ->
  a <> NULL ->
  0 <= a /\
  k_block_descs st1 = k_block_descs st /\
  u_block_desc (cur st1) = u_block_desc (cur st).
Proof.
  intros H Hnz.
  destruct (malloc_page_parts _ _ _ _ _ H Hnz) as (_ & stv & Hv & Hloop).
  destruct (vaddr_get_found _ _ _ _ _ Hv Hnz) as (s & _ & Ha & Hstv).
  destruct (malloc_page_loop_grows _ _ _ _ _ _ Hloop) as (_ & Hcur & Hk & _).
  split; [rewrite Ha; apply wrap32_range |].
  rewrite Hk, Hcur, Hstv. destruct pf; split; reflexivity.
Qed.

Lemma arena_split_all (a bs : Z) (dp : desc_ptr) (n : nat) :
  forall (k : Z) (st : state) (d : mem_block_desc),
    desc (arenas st a) = Some dp ->
    deref_desc dp st = Some d ->
    block_size d = bs ->
    (forall j, k <= j < k + Z.of_nat n ->
               ~ In (block_addr a bs j) (free_list d)) ->
    (forall j j', k <= j < j' -> j' < k + Z.of_nat n ->
                  block_addr a bs j <> block_addr a bs j') ->
    exists st',
      arena_split a dp n k st = Ok tt st' /\
      deref_desc dp st'
      = Some (with_free_list (free_list d ++ block_run a bs k n) d) /\
      lists_only st st'.
Proof.
  induction n as [| n IH]; intros k st d Hdesc Hd Hbs Hnin Hdist.
  - exists st. split; [reflexivity |]. split.
    + cbn [block_run]. rewrite app_nil_r. rewrite Hd. destruct d; reflexivity.
    + repeat split.
  - set (b := block_addr a bs k).
    set (st1 := set_free_list dp (list_append (free_list d) b) st).
    assert (Hdesc1 : desc (arenas st1 a) = Some dp)
      by (unfold st1; destruct dp; exact Hdesc).
    pose proof (deref_set_free_list dp (list_append (free_list d) b) st d Hd)
      as Hd1. fold st1 in Hd1.
    destruct (IH (k + 1) st1 (with_free_list (list_append (free_list d) b) d)
                Hdesc1 Hd1 Hbs) as (st' & Hrun & Hd' & Hfr).
    { intros j Hj. cbn [with_free_list free_list]. unfold list_append.
      rewrite in_app_iff. intros [Hin | [E | []]].
      - apply (Hnin j); [lia | exact Hin].
      - apply (Hdist k j); [lia | lia | exact E]. }
    { intros j j' Hj Hj'. apply Hdist; lia. }
    exists st'. split; [| split].
    + cbn [arena_split]. unfold bind at 1. unfold arena2block.
      unfold bind at 1. unfold get_state. rewrite Hdesc, Hd.
      unfold ret at 1. rewrite Hbs. fold (block_addr a bs k). fold b.
      unfold bind at 1. rewrite Hd.
      unfold bind at 1. unfold ASSERT.
      assert (Hnf : elem_find (free_list d) b = false).
      { destruct (elem_find (free_list d) b) eqn:E; [| reflexivity].
        apply elem_find_In in E. exfalso. apply (Hnin k); [lia | exact E]. }
      rewrite Hnf. cbn [negb]. unfold bind at 1. unfold modify.
      fold st1. exact Hrun.
    + rewrite Hd'. cbn [with_free_list free_list block_size blocks_per_arena
                          block_run].
      unfold list_append. rewrite <- app_assoc. reflexivity.
    + eapply lists_only_trans; [| exact Hfr].
      apply lists_only_set_free_list.
Qed.

Lemma sys_malloc_small_fresh (st stm : state) (size a : Z)
    (d : mem_block_desc) :
  let PF := owner_flags st in
  let dp := desc_at PF (desc_search (get_descs PF st) size 0 DESC_CNT) in
  accepted size st -> size <= 1024 ->
  deref_desc dp st = Some d ->
  free_list d = [] ->
  0 < block_size d -> 0 < blocks_per_arena d ->
  sizeof_arena + blocks_per_arena d * block_size d <= PG_SIZE ->
  malloc_page PF 1 st = Ok a stm ->
  a <> NULL -> a mod PG_SIZE = 0 -> a + PG_SIZE <= 2 ^ 32 ->
  exists st',
    sys_malloc size st = Ok (a + sizeof_arena) st' /\
    arenas st' a = mkArena (Some dp) (blocks_per_arena d - 1) false /\
    deref_desc dp st'
    = Some (with_free_list
              (block_run a (block_size d) 1
                 (Z.to_nat (blocks_per_arena d) - 1)) d) /\
    kernel_pool st' = kernel_pool stm /\
    user_pool st' = user_pool stm /\
    kernel_vaddr st' = kernel_vaddr stm /\
    userprog_vaddr (cur st') = userprog_vaddr (cur stm) /\
    pgdir (cur st') = pgdir (cur st) /\
    (a + PG_SIZE <= TABLE_WINDOW ->
     forall u f, maps_to stm u f -> maps_to st' u f).
Proof.
  intros PF dp [Hpos Hcap] Hsz Hd Hfl Hbs Hbpa Hfit Hm Hnz Hal Hend.
  destruct (malloc_page_keeps_descs _ _ _ _ _ Hm Hnz) as (Ha0 & Hkd & Hud).
  assert (Hacc : negb ((0 <? size)
                       && (size <? pool_size (get_pool (pool_of PF) st)))
                 = false).
  { destruct (Z.ltb_spec 0 size); [| lia].
    destruct (Z.ltb_spec size (pool_size (get_pool (pool_of PF) st)));
      [reflexivity | unfold PF in *; lia]. }
  assert (Hplain : forall j, 0 <= j < blocks_per_arena d ->
            block_addr a (block_size d) j
            = a + sizeof_arena + j * block_size d).
  { intros j Hj.
    apply (block_addr_plain a (block_size d) (blocks_per_arena d) j);
      assumption. }
  set (s1 := memset0 a PG_SIZE stm).
  set (s2 := set_arena a (mkArena (Some dp) (blocks_per_arena d) false) s1).
  assert (Hd2 : deref_desc dp s2 = Some d).
  { rewrite <- Hd. unfold dp. destruct PF;
      cbn [desc_at deref_desc s2 s1 set_arena set_arenas memset0
             k_block_descs cur u_block_desc];
      [rewrite Hkd | rewrite Hud]; reflexivity. }
  assert (Hdesc2 : desc (arenas s2 a) = Some dp).
  { unfold s2, set_arena, set_arenas; cbn [arenas].
    rewrite Z.eqb_refl. reflexivity. }
  destruct (arena_split_all a (block_size d) dp
              (Z.to_nat (blocks_per_arena d)) 0 s2 d Hdesc2 Hd2 eq_refl)
    as (s3 & Hsplit & Hd3 & Hl3).
  { intros j _. rewrite Hfl. intros []. }
  { intros j j' Hj Hj'. rewrite !Hplain by lia. nia. }
  rewrite Hfl in Hd3. cbn [app] in Hd3.
  destruct (Z.to_nat (blocks_per_arena d)) as [| n] eqn:En; [lia |].
  cbn [block_run] in Hd3.
  rewrite (Hplain 0) in Hd3 by lia.
  replace (a + sizeof_arena + 0 * block_size d) with (a + sizeof_arena)
    in Hd3 by lia.
  change (0 + 1) with 1 in Hd3.
  replace (S n - 1)%nat with n by lia.
  unfold sys_malloc, bind, get_state. fold PF. rewrite Hacc.
  destruct (Z.ltb_spec 1024 size); [lia |].
  unfold sys_malloc_small, bind, get_state. fold dp. rewrite Hd, Hfl.
  cbn [list_empty]. rewrite Hm.
  destruct (Z.eqb_spec a NULL); [contradiction |].
  unfold modify at 1 2. fold s1. fold s2.
  rewrite En, Hsplit. unfold ret at 1. cbv iota beta.
  rewrite Hd3. cbn [with_free_list free_list list_pop block_size].
  unfold modify, ret.
  eexists. split; [reflexivity |].
  destruct Hl3 as (L1 & L2 & L3 & L4 & L5 & L6 & L7).
  assert (Hout : (a + sizeof_arena <=? block2arena (a + sizeof_arena))
                 && (block2arena (a + sizeof_arena)
                     <? a + sizeof_arena + block_size d) = false).
  { replace (block2arena (a + sizeof_arena)) with a.
    - unfold sizeof_arena. destruct (Z.leb_spec (a + 12) a); [lia | reflexivity].
    - symmetry. rewrite <- (block2arena_header a Ha0 Hal Hend) at 2.
      rewrite wrap32_small; [reflexivity |].
      unfold sizeof_arena, PG_SIZE in *. lia. }
  assert (Hb2a : block2arena (a + sizeof_arena) = a).
  { rewrite <- (block2arena_header a Ha0 Hal Hend) at 2.
    rewrite wrap32_small; [reflexivity |].
    unfold sizeof_arena, PG_SIZE in *. lia. }
  rewrite Hb2a in *.
  split.
  { unfold set_arena, set_arenas, memset0; cbn [arenas].
    rewrite Z.eqb_refl.
    destruct dp; cbn [set_free_list arenas]; rewrite Hout, L7;
      unfold s2, set_arena, set_arenas; cbn [arenas];
      rewrite Z.eqb_refl; cbn [desc cnt large];
      (rewrite wrap32_small;
         [reflexivity | unfold sizeof_arena, PG_SIZE in *; nia]). }
  split.
  { pose proof (deref_set_free_list dp
                  (block_run a (block_size d) 1 n) s3 _ Hd3) as Hd4.
    cbn [with_free_list block_size blocks_per_arena] in Hd4.
    destruct dp; cbn [deref_desc set_arena set_arenas memset0 k_block_descs
                        cur u_block_desc] in *; exact Hd4. }
  assert (Hpg : pgdir (cur stm) = pgdir (cur st)).
  { destruct (malloc_page_parts _ _ _ _ _ Hm Hnz) as (_ & stv & Hv & Hloop).
    destruct (vaddr_get_found _ _ _ _ _ Hv Hnz) as (s & _ & _ & Hstv).
    destruct (malloc_page_loop_grows _ _ _ _ _ _ Hloop) as (_ & Hcur & _).
    rewrite Hcur, Hstv. destruct PF; reflexivity. }
  do 5 (split;
        [unfold set_arena, set_arenas, memset0;
         cbn [kernel_pool user_pool kernel_vaddr cur];
         destruct dp; cbn [set_free_list kernel_pool user_pool kernel_vaddr
                             cur userprog_vaddr pgdir];
         rewrite ?L1, ?L2, ?L3, ?L4, ?L5; try exact Hpg; reflexivity |]).
  intros Hwin u f Hu.
  apply (maps_to_mem (memset0 (a + sizeof_arena) (block_size d) s3)).
  { destruct dp; reflexivity. }
  apply maps_to_memset0.
  { unfold sizeof_arena, PG_SIZE, TABLE_WINDOW in *. nia. }
  apply (maps_to_mem s1); [rewrite L6; reflexivity |].
  apply maps_to_memset0; [exact Hwin | exact Hu].
Qed.

(** X28.  The small path on an empty free list opens an arena.  When
    the class chosen for an accepted request of at most 1024 bytes has no
    free block and [malloc_page] hands over a page at [a] (page-aligned,
    inside the 32-bit space), [sys_malloc] stamps the header at [a] with
    the class, cuts the page into the blocks of the class, and returns
    block 0, the address right after the header: the free list then holds
    the blocks 1, 2, ... in order, the header counts them, and pools and
    trackers are as [malloc_page] left them. *)
Theorem sys_malloc_small_opens_arena (st stm : state) (size a : Z)
    (d : mem_block_desc) :
  let PF := owner_flags st in
  let dp := desc_at PF (desc_search (get_descs PF st) size 0 DESC_CNT) in
  accepted size st -> size <= 1024 ->
  deref_desc dp st = Some d ->
  free_list d = [] ->
  0 < block_size d -> 0 < blocks_per_arena d ->
  sizeof_arena + blocks_per_arena d * block_size d <= PG_SIZE ->
  malloc_page PF 1 st = Ok a stm ->
  a <> NULL -> a mod PG_SIZE = 0 -> a + PG_SIZE <= 2 ^ 32 ->
  exists st',
    sys_malloc size st = Ok (a + sizeof_arena) st' /\
    arenas st' a = mkArena (Some dp) (blocks_per_arena d - 1) false /\
    deref_desc dp st'
    = Some (with_free_list
              (block_run a (block_size d) 1
                 (Z.to_nat (blocks_per_arena d) - 1)) d) /\
    kernel_pool st' = kernel_pool stm /\
    user_pool st' = user_pool stm /\
    kernel_vaddr st' = kernel_vaddr stm /\
    userprog_vaddr (cur st') = userprog_vaddr (cur stm).
Proof.
  intros PF dp Hacc Hsz Hd Hfl Hbs Hbpa Hfit Hm Hnz Hal Hend.
  destruct (sys_malloc_small_fresh st stm size a d Hacc Hsz Hd Hfl Hbs Hbpa
              Hfit Hm Hnz Hal Hend)
    as (st' & H1 & H2 & H3 & H4 & H5 & H6 & H7 & _).
  exists st'. repeat split; assumption.
Qed.

Lemma sys_malloc_small_opens_arena_witness :
  let stm := state_after (malloc_page PF_KERNEL 1) kernel_machine in
  let d := mkDesc 1024 3 [] in
  exists st',
    sys_malloc 1000 kernel_machine = Ok (K_HEAP_START + sizeof_arena) st' /\
    arenas st' K_HEAP_START = mkArena (Some (KDesc 6)) (3 - 1) false /\
    deref_desc (KDesc 6) st'
    = Some (with_free_list
              (block_run K_HEAP_START 1024 1 (Z.to_nat 3 - 1)) d) /\
    kernel_pool st' = kernel_pool stm /\
    user_pool st' = user_pool stm /\
    kernel_vaddr st' = kernel_vaddr stm /\
    userprog_vaddr (cur st') = userprog_vaddr (cur stm).
Proof.
  intros stm d.
  apply (sys_malloc_small_opens_arena kernel_machine stm 1000 K_HEAP_START d).
  - split; vm_compute; reflexivity.
  - lia.
  - reflexivity.
  - reflexivity.
  - reflexivity.
  - reflexivity.
  - vm_compute. discriminate.
  - apply (state_after_ok (malloc_page PF_KERNEL 1) kernel_machine).
    reflexivity.
  - discriminate.
  - reflexivity.
  - vm_compute. discriminate.
Defined.
(* ================================================================= *)
(** ** A small block, allocated and freed *)

Lemma classes_initialised_fit (descs : list mem_block_desc) (i : nat)
    (d : mem_block_desc) :
  classes_initialised descs ->
  nth_error descs i = Some d ->
  0 < block_size d /\ 0 < blocks_per_arena d /\
  sizeof_arena + blocks_per_arena d * block_size d <= PG_SIZE.
Proof.
  intros Hinit Hd.
  destruct (classes_initialised_shape descs Hinit)
    as (l0 & l1 & l2 & l3 & l4 & l5 & l6 & ->).
  do 7 (destruct i as [| i];
        [injection Hd as <-; cbn [block_size blocks_per_arena];
         unfold sizeof_arena, PG_SIZE; lia |]).
  destruct i; discriminate.
Qed.

Lemma block_run_In (a bs : Z) (n : nat) :
  forall (k x : Z),
    In x (block_run a bs k n) <->
    exists j, k <= j < k + Z.of_nat n /\ x = block_addr a bs j.
Proof.
  induction n as [| n IH]; intros k x; cbn [block_run In].
  - split; [intros [] | intros (j & Hj & _); lia].
  - rewrite IH. split.
    + intros [E | (j & Hj & E)].
      * exists k. split; [lia | auto].
      * exists j. split; [lia | exact E].
    + intros (j & Hj & E).
      destruct (Z.eq_dec j k) as [-> | Hne]; [left; auto |].
      right. exists j. split; [lia | exact E].
Qed.

Lemma malloc_page_one_kernel (st stm : state) (a : Z) :
  pgdir (cur st) = NULL ->
  pools_placed st -> kernel_vaddr_placed st ->
  malloc_page PF_KERNEL 1 st = Ok a stm -> a <> NULL ->
  K_HEAP_START <= a /\ a mod PG_SIZE = 0 /\ a + PG_SIZE <= TABLE_WINDOW /\
  pools_placed stm /\
  phy_addr_start (kernel_pool stm) = phy_addr_start (kernel_pool st) /\
  exists i : nat,
    bit_free (pool_bitmap (kernel_pool st)) i /\
    bit_used (pool_bitmap (kernel_pool stm)) i /\
    maps_to stm a (frame_addr (kernel_pool st) i).
Proof.
  intros Hk Hpl (Hkh & Hkal & Hkend) Hm Hnz.
  destruct (malloc_page_parts _ _ _ _ _ Hm Hnz) as (_ & stv & Hv & Hloop).
  destruct (vaddr_get_found _ _ _ _ _ Hv Hnz) as (s & Hrun & Ha & Hstv).
  pose proof (free_run_bound _ _ _ Hrun ltac:(simpl; lia)) as Hs.
  cbn [get_tracker] in *. change (Z.to_nat 1) with 1%nat in *.
  assert (Ha' : a = vaddr_start (kernel_vaddr st) + Z.of_nat s * PG_SIZE).
  { rewrite Ha. apply wrap32_small.
    unfold K_HEAP_START, TABLE_WINDOW, PG_SIZE in *. lia. }
  assert (Hwin : a + 1 * PG_SIZE <= TABLE_WINDOW)
    by (unfold PG_SIZE in *; lia).
  destruct (malloc_page_loop_grows _ _ _ _ _ _ Hloop) as (_ & _ & _ & Hg).
  assert (Hpools : forall p,
            phy_addr_start (get_pool p stm) = phy_addr_start (get_pool p st) /\
            length (pool_bitmap (get_pool p stm))
            = length (pool_bitmap (get_pool p st))).
  { intros p. destruct (Hg p) as (H1 & _ & [H3 _]).
    rewrite H1, <- H3, Hstv. destruct p; split; reflexivity. }
  destruct (Hpools KernelPool) as [Hks Hkl].
  destruct (Hpools UserPool) as [Hus _].
  cbn [get_pool] in Hks, Hkl, Hus.
  split; [unfold PG_SIZE in *; lia |].
  split.
  { rewrite Ha'. unfold PG_SIZE in *.
    rewrite Z.mod_add by lia. exact Hkal. }
  split; [unfold PG_SIZE in *; lia |].
  split; [unfold pools_placed; rewrite Hks, Hkl, Hus; exact Hpl |].
  split; [exact Hks |].
  destruct (malloc_page_success st stm PF_KERNEL 1 a Hm Hnz Hwin)
    as (s' & idxs & Hlen & _ & _ & _ & Hbits & Hmaps).
  destruct idxs as [| i [| ? ?]]; cbn [length] in Hlen; try lia.
  exists i. cbn [pool_of get_pool] in *.
  destruct (Hbits i (or_introl eq_refl)) as [Hf Hu].
  split; [exact Hf |]. split; [exact Hu |].
  specialize (Hmaps 0%nat i eq_refl). unfold page_of in Hmaps.
  cbn [Z.of_nat] in Hmaps. rewrite Z.mul_0_l, Z.add_0_r in Hmaps.
  exact Hmaps.
Qed.

(** X29.  In a kernel thread a small block allocated on an empty free
    list and freed at once gives its page back.  With pools and kernel
    tracker placed as [mem_init] places them and the classes initialised,
    when [sys_malloc] of at most 1024 bytes finds the free list of the
    chosen class empty and returns a block, [sys_free] of that block
    passes every assertion, leaves the free list of the class empty
    again, and clears the bit of the frame the allocation took (free
    before, used in between); the user pool is untouched. *)
Theorem sys_free_sys_malloc_small_kernel (st st1 : state) (size r : Z)
    (d : mem_block_desc) :
  let dp := KDesc (desc_search (k_block_descs st) size 0 DESC_CNT) in
  pgdir (cur st) = NULL ->
  pools_placed st -> kernel_vaddr_placed st ->
  classes_initialised (k_block_descs st) ->
  size <= 1024 ->
  deref_desc dp st = Some d ->
  free_list d = [] ->
  sys_malloc size st = Ok r st1 -> r <> NULL ->
  exists (i : nat) (st2 : state) (d2 : mem_block_desc),
    bit_free (pool_bitmap (kernel_pool st)) i /\
    bit_used (pool_bitmap (kernel_pool st1)) i /\
    sys_free r st1 = Ok tt st2 /\
    deref_desc dp st2 = Some d2 /\
    free_list d2 = [] /\
    pool_bitmap (kernel_pool st2)
    = set_nth (pool_bitmap (kernel_pool st1)) i false /\
    user_pool st2 = user_pool st1.
Proof.
  intros dp Hk Hpl Hkv Hinit Hsz Hd Hfl Hm Hr.
  assert (Hown : owner_flags st = PF_KERNEL)
    by (unfold owner_flags; rewrite Hk; reflexivity).
  destruct (classes_initialised_fit _ _ _ Hinit Hd) as (Hbs & Hbpa & Hfit).
  (* the request was accepted and a page was handed over *)
  assert (Hrun : accepted size st /\
                 exists a stm, malloc_page PF_KERNEL 1 st = Ok a stm /\
                               a <> NULL).
  { pose proof Hm as H. unfold sys_malloc, bind, get_state in H.
    rewrite Hown in H. unfold accepted. rewrite Hown.
    destruct (Z.ltb_spec 0 size);
      [| unfold ret in H; injection H as E _; congruence].
    destruct (Z.ltb_spec size (pool_size (get_pool (pool_of PF_KERNEL) st)));
      [| unfold ret in H; injection H as E _; congruence].
    split; [lia |]. cbn [andb negb] in H.
    destruct (Z.ltb_spec 1024 size); [lia |].
    unfold sys_malloc_small, bind, get_state in H.
    cbn [desc_at get_descs] in H. fold dp in H. rewrite Hd, Hfl in H.
    cbn [list_empty] in H.
    destruct (malloc_page PF_KERNEL 1 st) as [a stm | |];
      [| discriminate | discriminate].
    destruct (Z.eqb_spec a NULL) as [E | E];
      [unfold ret in H; injection H as E' _; congruence |].
    exists a, stm. split; [reflexivity | exact E]. }
  destruct Hrun as (Hacc & a & stm & Hpage & Hnz).
  destruct (malloc_page_one_kernel st stm a Hk Hpl Hkv Hpage Hnz)
    as (Hheap & Hal & Hwin & Hplm & Hstart & i & Hfree & Hused & Hmap).
  pose proof (sys_malloc_small_fresh st stm size a d) as HF.
  cbv zeta in HF. rewrite Hown in HF. cbn [desc_at get_descs] in HF.
  fold dp in HF.
  destruct (HF Hacc Hsz Hd Hfl Hbs Hbpa Hfit Hpage Hnz Hal
              ltac:(unfold TABLE_WINDOW in Hwin; lia))
    as (st' & Hm' & Hhdr & Hd1 & Hkp & Hup & _ & _ & Hpg & Hkeep).
  rewrite Hm in Hm'. injection Hm' as -> <-.
  assert (Ha0 : 0 <= a) by (unfold K_HEAP_START in Hheap; lia).
  assert (Hb2a : block2arena (a + sizeof_arena) = a).
  { rewrite <- (block2arena_header a Ha0 Hal) at 2;
      [| unfold TABLE_WINDOW in Hwin; lia].
    rewrite wrap32_small; [reflexivity |].
    unfold sizeof_arena, PG_SIZE, TABLE_WINDOW in *. lia. }
  set (d1 := with_free_list
               (block_run a (block_size d) 1
                  (Z.to_nat (blocks_per_arena d) - 1)) d) in *.
  assert (Hplain : forall j, 0 <= j < blocks_per_arena d ->
            block_addr a (block_size d) j
            = a + sizeof_arena + j * block_size d).
  { intros j Hj.
    apply (block_addr_plain a (block_size d) (blocks_per_arena d) j);
      try assumption. unfold TABLE_WINDOW in Hwin; lia. }
  destruct (sys_free_whole_arena_kernel st1 (a + sizeof_arena) dp d1 i)
    as (st2 & d2 & Hfreed & Hd2 & Hl2 & Hbm & Hu2);
    rewrite ?Hb2a; cbn [d1 with_free_list block_size blocks_per_arena
                          free_list].
  - rewrite Hpg. exact Hk.
  - unfold pools_placed. rewrite Hkp, Hup. exact Hplm.
  - unfold sizeof_arena. lia.
  - exact Hwin.
  - rewrite Hhdr. reflexivity.
  - exact Hd1.
  - exact Hbs.
  - exact Hfit.
  - rewrite Hhdr. cbn [cnt].
    replace (blocks_per_arena d - 1 + 1) with (blocks_per_arena d) by lia.
    apply wrap32_small. unfold sizeof_arena, PG_SIZE in *. nia.
  - exists 0. split; [lia |]. rewrite Hplain by lia. lia.
  - intros j Hj Hne. apply block_run_In. exists j. split; [| reflexivity].
    destruct (Z.eq_dec j 0) as [-> | Hj0]; [| lia].
    exfalso. apply Hne. rewrite Hplain by lia. lia.
  - rewrite Hkp. unfold bit_used in Hused.
    apply nth_error_Some. congruence.
  - apply Hkeep; [exact Hwin |]. rewrite Hkp.
    unfold frame_addr. rewrite Hstart. exact Hmap.
  - exists i, st2, d2.
    split; [exact Hfree |]. split; [rewrite Hkp; exact Hused |].
    split; [exact Hfreed |]. split; [exact Hd2 |].
    split; [| split; [exact Hbm | exact Hu2]].
    destruct (free_list d2) as [| x l] eqn:El; [reflexivity |].
    exfalso.
    destruct (proj1 (Hl2 x) (or_introl eq_refl)) as [Hin Hnot].
    unfold d1 in Hin, Hnot.
    cbn [with_free_list block_size blocks_per_arena free_list] in Hin, Hnot.
    rewrite Hb2a in Hnot.
    apply block_run_In in Hin. destruct Hin as (j & Hj & Ex).
    apply (Hnot j); [lia | exact Ex].
Qed.

Lemma sys_free_sys_malloc_small_kernel_witness :
  let st1 := state_after (sys_malloc 1000) kernel_machine in
  let r := K_HEAP_START + sizeof_arena in
  exists (i : nat) (st2 : state) (d2 : mem_block_desc),
    bit_free (pool_bitmap (kernel_pool kernel_machine)) i /\
    bit_used (pool_bitmap (kernel_pool st1)) i /\
    sys_free r st1 = Ok tt st2 /\
    deref_desc (KDesc 6) st2 = Some d2 /\
    free_list d2 = [] /\
    pool_bitmap (kernel_pool st2)
    = set_nth (pool_bitmap (kernel_pool st1)) i false /\
    user_pool st2 = user_pool st1.
Proof.
  intros st1 r.
  apply (sys_free_sys_malloc_small_kernel kernel_machine st1 1000 r
           (mkDesc 1024 3 [])).
  - reflexivity.
  - unfold pools_placed. vm_compute. repeat split; discriminate.
  - unfold kernel_vaddr_placed. vm_compute. repeat split; discriminate.
  - split; reflexivity.
  - lia.
  - reflexivity.
  - reflexivity.
  - apply (state_after_ok (sys_malloc 1000) kernel_machine). reflexivity.
  - vm_compute. discriminate.
Defined.

(* ================================================================= *)
(** ** The boundary between the two paths *)

(** C4.  The boundary between the two paths, for an accepted request
    and initialised classes.
    A request of exactly 1024 bytes is served by the small path from the
    class of 1024-byte blocks (three to an arena): a free block of that
    class is handed out and leaves the free list, with no page taken;
    on an empty free list one page is asked of [malloc_page], and when
    it comes the header of the page names the class, is not large, and
    the first block is returned while the other two go on the free list
    (when no page comes the answer is [NULL]).
    A request of 1025 bytes or more is served by the large path: whole
    pages, [DIV_ROUND_UP (size + 12) 4096] of them, are asked of
    [malloc_page]; when they come the header of the first page names no
    class, holds the page count and is large, the address after the
    header is returned, and no descriptor changes (when they do not come
    the answer is [NULL], and when [malloc_page] halts so does
    [sys_malloc]). *)
Theorem sys_malloc_boundary (st : state) (size : Z) :
  let PF := owner_flags st in
  accepted size st ->
  classes_initialised (get_descs PF st) ->
  (size = 1024 ->
   exists d,
     chosen_desc (get_descs PF st) size = Some d /\
     deref_desc (desc_at PF 6) st = Some d /\
     block_size d = 1024 /\ blocks_per_arena d = 3 /\
     (forall b rest,
        free_list d = b :: rest -> block2arena b < b ->
        exists st',
          sys_malloc size st = Ok b st' /\
          deref_desc (desc_at PF 6) st' = Some (with_free_list rest d) /\
          kernel_pool st' = kernel_pool st /\
          user_pool st' = user_pool st /\
          kernel_vaddr st' = kernel_vaddr st /\
          userprog_vaddr (cur st') = userprog_vaddr (cur st)) /\
     (free_list d = [] ->
      forall a stm,
        malloc_page PF 1 st = Ok a stm ->
        (a = NULL -> sys_malloc size st = Ok NULL stm) /\
        (a <> NULL -> a mod PG_SIZE = 0 -> a + PG_SIZE <= 2 ^ 32 ->
         exists st',
           sys_malloc size st = Ok (a + sizeof_arena) st' /\
           arenas st' a = mkArena (Some (desc_at PF 6)) 2 false /\
           deref_desc (desc_at PF 6) st'
           = Some (with_free_list [a + sizeof_arena + 1024;
                                   a + sizeof_arena + 2048] d) /\
           kernel_pool st' = kernel_pool stm /\
           user_pool st' = user_pool stm /\
           kernel_vaddr st' = kernel_vaddr stm /\
           userprog_vaddr (cur st') = userprog_vaddr (cur stm)))) /\
  (1025 <= size ->
   let page_cnt := DIV_ROUND_UP (size + sizeof_arena) PG_SIZE in
   (size + sizeof_arena + PG_SIZE - 1 < 2 ^ 32 ->
    (page_cnt - 1) * PG_SIZE < size + sizeof_arena <= page_cnt * PG_SIZE) /\
   (malloc_page PF page_cnt st = Panic -> sys_malloc size st = Panic) /\
   forall a stm,
     malloc_page PF page_cnt st = Ok a stm ->
     (a = NULL -> sys_malloc size st = Ok NULL stm) /\
     (a <> NULL ->
      exists st',
        sys_malloc size st = Ok (wrap32 (a + sizeof_arena)) st' /\
        arenas st' a = mkArena None page_cnt true /\
        kernel_pool st' = kernel_pool stm /\
        user_pool st' = user_pool stm /\
        kernel_vaddr st' = kernel_vaddr stm /\
        userprog_vaddr (cur st') = userprog_vaddr (cur stm) /\
        k_block_descs st' = k_block_descs st /\
        u_block_desc (cur st') = u_block_desc (cur st))).
Proof.
  intros PF Hacc Hinit.
  assert (Hin : negb ((0 <? size)
                      && (size <? pool_size (get_pool (pool_of PF) st)))
                = false).
  { destruct Hacc as [Hpos Hcap]. fold PF in Hcap.
    destruct (Z.ltb_spec 0 size); [| lia].
    destruct (Z.ltb_spec size (pool_size (get_pool (pool_of PF) st)));
      [reflexivity | lia]. }
  split.
  - intros ->.
    destruct (classes_initialised_shape _ Hinit)
      as (l0 & l1 & l2 & l3 & l4 & l5 & l6 & Hshape).
    assert (Hidx : desc_search (get_descs PF st) 1024 0 DESC_CNT = 6%nat)
      by (rewrite Hshape; reflexivity).
    assert (Hd : deref_desc (desc_at PF 6) st = Some (mkDesc 1024 3 l6)).
    { transitivity (nth_error (get_descs PF st) 6);
        [destruct PF; reflexivity | rewrite Hshape; reflexivity]. }
    exists (mkDesc 1024 3 l6).
    split; [unfold chosen_desc; rewrite Hidx, Hshape; reflexivity |].
    split; [exact Hd |]. split; [reflexivity |]. split; [reflexivity |].
    cbn [free_list block_size blocks_per_arena]. split.
    + intros b rest -> Hb.
      pose proof (sys_malloc_small_pops st 1024 (mkDesc 1024 3 (b :: rest))
                    b rest) as H.
      cbv zeta in H. fold PF in H. rewrite Hidx in H.
      destruct (H Hacc ltac:(lia) Hd eq_refl Hb)
        as (st' & H1 & H2 & H3 & H4 & H5 & H6 & _).
      exists st'. repeat split; assumption.
    + intros -> a stm Hm. split.
      * intros ->.
        unfold sys_malloc, bind, get_state. fold PF. rewrite Hin.
        change (1024 <? 1024) with false. cbv iota.
        unfold sys_malloc_small, bind, get_state. rewrite Hidx, Hd.
        cbn [free_list list_empty]. rewrite Hm. reflexivity.
      * intros Hnz Hal Hend.
        pose proof (sys_malloc_small_fresh st stm 1024 a (mkDesc 1024 3 []))
          as H.
        cbv zeta in H. fold PF in H. rewrite Hidx in H.
        cbn [block_size blocks_per_arena free_list] in H.
        destruct (H Hacc ltac:(lia) Hd eq_refl ltac:(lia) ltac:(lia)
                    ltac:(unfold sizeof_arena, PG_SIZE; lia) Hm Hnz Hal Hend)
          as (st' & H1 & H2 & H3 & H4 & H5 & H6 & H7 & _).
        destruct (malloc_page_keeps_descs _ _ _ _ _ Hm Hnz) as (Ha0 & _).
        exists st'. split; [exact H1 |]. split; [exact H2 |].
        split; [| repeat split; assumption].
        rewrite H3. change (Z.to_nat 3 - 1)%nat with 2%nat.
        cbn [block_run]. change (1 + 1) with 2.
        rewrite (block_addr_plain a 1024 3 1), (block_addr_plain a 1024 3 2)
          by (unfold sizeof_arena, PG_SIZE in *; lia).
        reflexivity.
  - intros Hbig page_cnt. split.
    + intros Hw. apply DIV_ROUND_UP_ceil; [unfold sizeof_arena; lia | lia].
    + assert (Hrun : sys_malloc size st = sys_malloc_large PF size st).
      { unfold sys_malloc, bind, get_state. fold PF. rewrite Hin.
        destruct (Z.ltb_spec 1024 size); [reflexivity | lia]. }
      rewrite Hrun. unfold sys_malloc_large, bind. fold page_cnt.
      split; [intros ->; reflexivity |].
      intros a stm Hm. rewrite Hm.
      split.
      * intros ->. reflexivity.
      * intros Hnz.
        destruct (Z.eqb_spec a NULL); [contradiction |].
        destruct (malloc_page_keeps_descs _ _ _ _ _ Hm Hnz)
          as (_ & Hkd & Hud).
        unfold modify, ret. eexists. split; [reflexivity |].
        unfold set_arena, set_arenas, memset0;
          cbn [arenas kernel_pool user_pool kernel_vaddr cur k_block_descs].
        rewrite Z.eqb_refl. repeat split; assumption.
Qed.

Lemma sys_malloc_boundary_witness :
  (exists st',
     sys_malloc 1024 kernel_machine = Ok (K_HEAP_START + sizeof_arena) st' /\
     arenas st' K_HEAP_START = mkArena (Some (KDesc 6)) 2 false /\
     deref_desc (KDesc 6) st'
     = Some (mkDesc 1024 3 [K_HEAP_START + sizeof_arena + 1024;
                            K_HEAP_START + sizeof_arena + 2048])) /\
  (exists st',
     sys_malloc 1025 kernel_machine = Ok (K_HEAP_START + sizeof_arena) st' /\
     arenas st' K_HEAP_START = mkArena None 1 true /\
     k_block_descs st' = k_block_descs kernel_machine).
Proof.
  assert (Hinit : classes_initialised
                    (get_descs (owner_flags kernel_machine) kernel_machine))
    by (split; reflexivity).
  split.
  - destruct (sys_malloc_boundary kernel_machine 1024
                ltac:(vm_compute; split; reflexivity) Hinit) as [H _].
    destruct (H eq_refl) as (d & _ & Hd & _ & _ & _ & Hfresh).
    injection Hd as <-.
    destruct (Hfresh eq_refl K_HEAP_START
                (state_after (malloc_page PF_KERNEL 1) kernel_machine)
                (state_after_ok (malloc_page PF_KERNEL 1) kernel_machine
                   K_HEAP_START eq_refl)) as [_ Hok].
    destruct (Hok ltac:(discriminate) eq_refl
                ltac:(vm_compute; discriminate))
      as (st' & H1 & H2 & H3 & _).
    exists st'. split; [exact H1 |]. split; [exact H2 | exact H3].
  - destruct (sys_malloc_boundary kernel_machine 1025
                ltac:(vm_compute; split; reflexivity) Hinit) as [_ H].
    destruct (H ltac:(lia)) as (_ & _ & Hlarge).
    destruct (Hlarge K_HEAP_START
                (state_after (malloc_page PF_KERNEL 1) kernel_machine)
                (state_after_ok (malloc_page PF_KERNEL 1) kernel_machine
                   K_HEAP_START eq_refl)) as [_ Hok].
    destruct (Hok ltac:(discriminate))
      as (st' & H1 & H2 & _ & _ & _ & _ & H3 & _).
    exists st'. split; [exact H1 |]. split; [exact H2 | exact H3].
Defined.
